(** * update_readme.py: GitHub activity README updater

    A shallow embedding of [src/update_readme.py], the properties its
    specification states about it, and further properties of its functions.

    Python values are modelled as follows.
    - [str] is [string] (a sequence of bytes, UTF-8 for the glyphs that the
      script prints); [int] is [Z].
    - A decoded JSON document is a [json] tree; a JSON object keeps its
      members in an association list.
    - A raising computation returns [Raise e]; [Ok v] is a normal return.
    - [dict] with string keys is [gmap string _], [set] is [gset _].
    - [datetime] is a record of its calendar fields; the clock
      ([datetime.utcnow()]) and the network ([requests.get]) are explicit
      arguments of the functions that read them. *)

From Stdlib Require Import ZArith Ascii String List Bool Lia SpecFloat.
From stdpp Require Import gmap strings.

Local Open Scope Z_scope.

(** ** Exceptions and results *)

Inductive exn : Type :=
| KeyError
| TypeError
| ValueError
| AttributeError
| IndexError
| OverflowError
| ZeroDivisionError
| ReError.

Inductive result (A : Type) : Type :=
| Ok (a : A)
| Raise (e : exn).

Arguments Ok {A} a.
Arguments Raise {A} e.

Definition bind {A B : Type} (r : result A) (k : A -> result B) : result B :=
  match r with
  | Ok a => k a
  | Raise e => Raise e
  end.

Notation "x <- r ;; k" := (bind r (fun x => k))
  (at level 100, r at next level, right associativity).

Definition returns {A : Type} (r : result A) : Prop := exists a, r = Ok a.

Definition raises {A : Type} (r : result A) : Prop := exists e, r = Raise e.

(** [for x in xs: body] over a state [st], stopping at the first exception. *)
Fixpoint for_each {A S : Type} (body : S -> A -> result S) (xs : list A) (st : S)
  : result S :=
  match xs with
  | [] => Ok st
  | x :: xs' => st' <- body st x ;; for_each body xs' st'
  end.

(** ** Strings *)

Definition LF : ascii := Ascii.ascii_of_nat 10.
Definition nl : string := String LF "".

(** [sep.join(parts)] *)
Fixpoint join (sep : string) (parts : list string) : string :=
  match parts with
  | [] => ""
  | [p] => p
  | p :: ps => p +:+ sep +:+ join sep ps
  end.

(** [s * n] for a string [s] and a count [n]. *)
Fixpoint repeat_str (s : string) (n : nat) : string :=
  match n with
  | O => ""
  | S k => s +:+ repeat_str s k
  end.

Fixpoint drop_str (n : nat) (s : string) : string :=
  match n, s with
  | O, _ => s
  | S k, String _ s' => drop_str k s'
  | S _, EmptyString => EmptyString
  end.

(** [s.startswith(p)] *)
Fixpoint starts_with (p s : string) : bool :=
  match p, s with
  | EmptyString, _ => true
  | String a p', String b s' => if Ascii.eqb a b then starts_with p' s' else false
  | String _ _, EmptyString => false
  end.

(** [s.partition(pat)] when [pat] occurs in [s]: the text before the leftmost
    occurrence and the text after it; [None] when [pat] does not occur. *)
Fixpoint split_at (pat s : string) : option (string * string) :=
  if starts_with pat s then Some ("", drop_str (String.length pat) s)
  else match s with
       | EmptyString => None
       | String c s' =>
           match split_at pat s' with
           | Some (before, after) => Some (String c before, after)
           | None => None
           end
       end.

(** [s.count(pat)] counting overlapping occurrences too: the number of
    positions of [s] at which [pat] starts. *)
Fixpoint occurrences (pat s : string) : nat :=
  match s with
  | EmptyString => if starts_with pat s then 1%nat else 0%nat
  | String _ s' => ((if starts_with pat s then 1 else 0) + occurrences pat s')%nat
  end.

(** [pat in s] *)
Definition occurs (pat s : string) : Prop := exists a b, s = a +:+ pat +:+ b.

Definition has_char (c : ascii) (s : string) : bool :=
  existsb (Ascii.eqb c) (list_ascii_of_string s).

Definition digit_char (d : Z) : ascii := Ascii.ascii_of_N (Z.to_N (48 + d)).

(** Decimal digits of a non-negative integer, most significant first. *)
Fixpoint digits_of (fuel : nat) (n : Z) (acc : string) : string :=
  let acc' := String (digit_char (n mod 10)) acc in
  match fuel with
  | O => acc'
  | S f => if n <? 10 then acc' else digits_of f (n / 10) acc'
  end.

(** [str(n)] for an [int]. *)
Definition str_int (n : Z) : string :=
  if n <? 0 then String "-" (digits_of (Z.to_nat (Z.log2 (- n))) (- n) "")
  else digits_of (Z.to_nat (Z.log2 n)) n "".

(** [f"{n:02d}"] and [f"{n:04d}"] for [0 <= n], as [strftime] pads its fields. *)
Definition pad2 (n : Z) : string :=
  String (digit_char (n / 10 mod 10)) (String (digit_char (n mod 10)) "").

Definition pad4 (n : Z) : string :=
  String (digit_char (n / 1000 mod 10)) (String (digit_char (n / 100 mod 10)) (pad2 n)).

(** ** Replacement templates of [re.sub]

    [re.sub] reads its replacement argument as a template: a backslash starts
    an escape.  The pattern used by the script has no capture group, so the
    only group a template may refer to is group 0, the whole match. *)

Inductive titem : Type :=
| TLit (c : ascii)
| TGroup0.

Inductive tmode : Type :=
| MText
| MEsc
| MG
| MName (name : string)
| MOct (v : Z) (more : nat)
| MDig1 (d1 : Z)
| MDig2 (d1 d2 : Z).

Definition backslash : ascii := Ascii.ascii_of_nat 92.

Definition code (c : ascii) : Z := Z.of_N (Ascii.N_of_ascii c).
Definition chr (v : Z) : ascii := Ascii.ascii_of_N (Z.to_N v).

Definition is_digit (c : ascii) : bool := (48 <=? code c) && (code c <=? 57).
Definition is_octal (c : ascii) : bool := (48 <=? code c) && (code c <=? 55).
Definition is_letter (c : ascii) : bool :=
  ((65 <=? code c) && (code c <=? 90)) || ((97 <=? code c) && (code c <=? 122)).
Definition digit_val (c : ascii) : Z := code c - 48.

(** [chr(v)] for [0 <= v < 256], as the bytes of its UTF-8 encoding. *)
Definition lit_chr (v : Z) (k : list titem) : list titem :=
  if v <? 128 then TLit (chr v) :: k
  else TLit (chr (192 + v / 64)) :: TLit (chr (128 + v mod 64)) :: k.

Definition simple_escape (c : ascii) : option Z :=
  if Ascii.eqb c "a" then Some 7 else
  if Ascii.eqb c "b" then Some 8 else
  if Ascii.eqb c "f" then Some 12 else
  if Ascii.eqb c "n" then Some 10 else
  if Ascii.eqb c "r" then Some 13 else
  if Ascii.eqb c "t" then Some 9 else
  if Ascii.eqb c "v" then Some 11 else
  if Ascii.eqb c backslash then Some 92 else None.

Definition is_identifier (s : string) : bool :=
  match s with
  | EmptyString => false
  | String c s' =>
      (is_letter c || Ascii.eqb c "_")
      && forallb (fun x => is_letter x || is_digit x || Ascii.eqb x "_")
           (list_ascii_of_string s')
  end.

(** The group named between [\g<] and [>]. *)
Definition group_ref (name : string) : result titem :=
  if is_identifier name then Raise IndexError
  else if negb (String.eqb name "")
          && forallb (Ascii.eqb "0") (list_ascii_of_string name)
       then Ok TGroup0
       else Raise ReError.

Definition cons_item (i : titem) (r : result (list titem)) : result (list titem) :=
  k <- r ;; Ok (i :: k).

Definition cons_chr (v : Z) (r : result (list titem)) : result (list titem) :=
  k <- r ;; Ok (lit_chr v k).

Fixpoint parse_template_from (m : tmode) (s : string) : result (list titem) :=
  match s with
  | EmptyString =>
      match m with
      | MText => Ok []
      | MOct v _ => Ok (lit_chr v [])
      | MEsc | MG | MName _ | MDig1 _ | MDig2 _ _ => Raise ReError
      end
  | String c s' =>
      let text :=
        if Ascii.eqb c backslash then parse_template_from MEsc s'
        else cons_item (TLit c) (parse_template_from MText s') in
      match m with
      | MText => text
      | MEsc =>
          if Ascii.eqb c "g" then parse_template_from MG s'
          else if Ascii.eqb c "0" then parse_template_from (MOct 0 2) s'
          else if is_digit c then parse_template_from (MDig1 (digit_val c)) s'
          else match simple_escape c with
               | Some v => cons_chr v (parse_template_from MText s')
               | None =>
                   if is_letter c then Raise ReError
                   else cons_item (TLit backslash)
                          (cons_item (TLit c) (parse_template_from MText s'))
               end
      | MG =>
          if Ascii.eqb c "<" then parse_template_from (MName "") s' else Raise ReError
      | MName name =>
          if Ascii.eqb c ">" then
            g <- group_ref name ;; cons_item g (parse_template_from MText s')
          else parse_template_from (MName (name +:+ String c "")) s'
      | MOct v more =>
          match more with
          | S k =>
              if is_octal c then parse_template_from (MOct (8 * v + digit_val c) k) s'
              else cons_chr v text
          | O => cons_chr v text
          end
      | MDig1 d1 =>
          if is_digit c then parse_template_from (MDig2 d1 (digit_val c)) s'
          else Raise ReError
      | MDig2 d1 d2 =>
          if (d1 <=? 7) && (d2 <=? 7) && is_octal c
             && (64 * d1 + 8 * d2 + digit_val c <=? 255)
          then cons_chr (64 * d1 + 8 * d2 + digit_val c) (parse_template_from MText s')
          else Raise ReError
      end
  end.

Definition parse_template (repl : string) : result (list titem) :=
  parse_template_from MText repl.

(** [match.expand(template)]: group 0 is the matched text. *)
Fixpoint expand (tpl : list titem) (matched : string) : string :=
  match tpl with
  | [] => ""
  | TLit c :: k => String c (expand k matched)
  | TGroup0 :: k => matched +:+ expand k matched
  end.

(** ** [re.sub(f'{start}.*?{stop}', repl, s, flags=re.DOTALL)]

    For non-empty [start] and [stop] without regular-expression
    metacharacters the pattern matches, scanning from the left, the text from
    an occurrence of [start] to the nearest following occurrence of [stop];
    with [re.DOTALL] the text in between may contain line breaks.  Every
    non-overlapping match is replaced.  When [start] occurs but no [stop]
    follows it, no later position can match either. *)

Fixpoint sub_from (fuel : nat) (start stop : string) (tpl : list titem) (s : string)
  : string :=
  match fuel with
  | O => s
  | S fuel' =>
      match split_at start s with
      | None => s
      | Some (before, rest) =>
          match split_at stop rest with
          | None => s
          | Some (inner, after) =>
              before +:+ expand tpl (start +:+ inner +:+ stop)
                     +:+ sub_from fuel' start stop tpl after
          end
      end
  end.

Definition re_sub (start stop repl s : string) : result string :=
  tpl <- parse_template repl ;;
  Ok (sub_from (S (String.length s)) start stop tpl s).

(** Characters with a special meaning in a regular expression. *)
Definition is_meta (c : ascii) : bool :=
  existsb (Ascii.eqb c) (list_ascii_of_string ".^$*+?{}[]\|()").

Definition literal_pattern (s : string) : bool :=
  negb (String.eqb s "") && forallb (fun c => negb (is_meta c)) (list_ascii_of_string s).

(** ** [datetime]

    The calendar arithmetic follows the proleptic Gregorian ordinal of the
    [datetime] module: day 1 is 0001-01-01. *)

Record datetime : Type := mkdt {
  year : Z; month : Z; day : Z;
  hour : Z; minute : Z; second : Z; microsecond : Z
}.

Definition is_leap (y : Z) : bool :=
  (y mod 4 =? 0) && (negb (y mod 100 =? 0) || (y mod 400 =? 0)).

Definition days_in_month (y m : Z) : Z :=
  if m =? 2 then (if is_leap y then 29 else 28)
  else if (m =? 4) || (m =? 6) || (m =? 9) || (m =? 11) then 30 else 31.

(** Days of a common year before the first day of month [m]. *)
Definition days_before_month_common (m : Z) : Z :=
  nth (Z.to_nat m) [0; 0; 31; 59; 90; 120; 151; 181; 212; 243; 273; 304; 334] 0.

Definition days_before_month (y m : Z) : Z :=
  days_before_month_common m + (if (2 <? m) && is_leap y then 1 else 0).

Definition days_before_year (y : Z) : Z :=
  let p := y - 1 in p * 365 + p / 4 - p / 100 + p / 400.

Definition ymd2ord (y m d : Z) : Z :=
  days_before_year y + days_before_month y m + d.

Definition ord2ymd (ordinal : Z) : Z * Z * Z :=
  let n := ordinal - 1 in
  let n400 := n / 146097 in
  let n := n mod 146097 in
  let n100 := n / 36524 in
  let n := n mod 36524 in
  let n4 := n / 1461 in
  let n := n mod 1461 in
  let n1 := n / 365 in
  let n := n mod 365 in
  let y := n400 * 400 + 1 + n100 * 100 + n4 * 4 + n1 in
  if (n1 =? 4) || (n100 =? 4) then (y - 1, 12, 31)
  else
    let leapyear := (n1 =? 3) && (negb (n4 =? 24) || (n100 =? 3)) in
    let m := Z.shiftr (n + 50) 5 in
    let preceding := days_before_month_common m + (if (2 <? m) && leapyear then 1 else 0) in
    if n <? preceding then
      let m' := m - 1 in
      let dim := if m' =? 2 then (if leapyear then 29 else 28)
                 else if (m' =? 4) || (m' =? 6) || (m' =? 9) || (m' =? 11) then 30 else 31 in
      (y, m', n - (preceding - dim) + 1)
    else (y, m, n - preceding + 1).

Definition valid_date (y m d : Z) : bool :=
  (1 <=? y) && (y <=? 9999) && (1 <=? m) && (m <=? 12)
  && (1 <=? d) && (d <=? days_in_month y m).

Definition valid_time (h mi s : Z) : bool :=
  (0 <=? h) && (h <=? 23) && (0 <=? mi) && (mi <=? 59) && (0 <=? s) && (s <=? 59).

Definition valid_datetime (t : datetime) : bool :=
  valid_date (year t) (month t) (day t)
  && valid_time (hour t) (minute t) (second t)
  && (0 <=? microsecond t) && (microsecond t <=? 999999).

(** [t - timedelta(days=n)] *)
Definition minus_days (t : datetime) (n : Z) : datetime :=
  let '(y, m, d) := ord2ymd (ymd2ord (year t) (month t) (day t) - n) in
  mkdt y m d (hour t) (minute t) (second t) (microsecond t).

(** [a < b] on [datetime] values: the order of the field tuples. *)
Fixpoint lex_ltb (a b : list Z) : bool :=
  match a, b with
  | x :: a', y :: b' => (x <? y) || ((x =? y) && lex_ltb a' b')
  | _, _ => false
  end.

Definition fields (t : datetime) : list Z :=
  [year t; month t; day t; hour t; minute t; second t; microsecond t].

Definition dt_ltb (a b : datetime) : bool := lex_ltb (fields a) (fields b).

(** [t.strftime('%Y-%m-%d')], [t.strftime('%m/%d')] and
    [t.strftime('%Y-%m-%d %H:%M UTC')]; the year is written in four digits,
    as the C library writes the years from 1000 on. *)
Definition strftime_ymd (t : datetime) : string :=
  pad4 (year t) +:+ "-" +:+ pad2 (month t) +:+ "-" +:+ pad2 (day t).

Definition strftime_md (t : datetime) : string :=
  pad2 (month t) +:+ "/" +:+ pad2 (day t).

Definition strftime_stamp (t : datetime) : string :=
  strftime_ymd t +:+ " " +:+ pad2 (hour t) +:+ ":" +:+ pad2 (minute t) +:+ " UTC".

(** *** [datetime.strptime]

    A parser state is the text still to read.  A numeric directive reads the
    digits its pattern admits ([%Y] exactly four, the others one or two) and
    fails on a value outside its range; a literal of the format matches
    without regard to case.  Digits are the ASCII digits. *)

Definition parser (A : Type) : Type := string -> result (A * string).

Definition pbind {A B : Type} (p : parser A) (k : A -> parser B) : parser B :=
  fun s => match p s with
           | Ok (a, s') => k a s'
           | Raise e => Raise e
           end.

Definition pret {A : Type} (a : A) : parser A := fun s => Ok (a, s).

Notation "x <~ p ;; k" := (pbind p (fun x => k))
  (at level 100, p at next level, right associativity).

Definition lower (c : ascii) : ascii :=
  if (65 <=? code c) && (code c <=? 90) then chr (code c + 32) else c.

Definition p_lit (c : ascii) : parser unit :=
  fun s => match s with
           | String x s' => if Ascii.eqb (lower x) (lower c) then Ok (tt, s') else Raise ValueError
           | EmptyString => Raise ValueError
           end.

Definition p_digit : parser Z :=
  fun s => match s with
           | String x s' => if is_digit x then Ok (digit_val x, s') else Raise ValueError
           | EmptyString => Raise ValueError
           end.

(** One or two digits, two when two are there. *)
Definition p_num2 : parser Z :=
  fun s => match s with
           | String x (String y s') =>
               if is_digit x && is_digit y then Ok (10 * digit_val x + digit_val y, s')
               else p_digit s
           | _ => p_digit s
           end.

Definition p_range (lo hi : Z) (p : parser Z) : parser Z :=
  v <~ p ;; fun s => if (lo <=? v) && (v <=? hi) then Ok (v, s) else Raise ValueError.

Definition p_Y : parser Z :=
  a <~ p_digit ;; b <~ p_digit ;; c <~ p_digit ;; d <~ p_digit ;;
  pret (1000 * a + 100 * b + 10 * c + d).

Definition p_m : parser Z := p_range 1 12 p_num2.

(** [%d] also admits a space before a single digit. *)
Definition p_d : parser Z :=
  fun s => match s with
           | String x (String y s') =>
               if Ascii.eqb x " " && is_digit y && negb (Ascii.eqb y "0")
               then Ok (digit_val y, s')
               else p_range 1 31 p_num2 s
           | _ => p_range 1 31 p_num2 s
           end.

Definition p_H : parser Z := p_range 0 23 p_num2.
Definition p_M : parser Z := p_range 0 59 p_num2.
Definition p_S : parser Z := p_range 0 61 p_num2.

Definition p_end {A : Type} (a : A) : parser A :=
  fun s => match s with
           | EmptyString => Ok (a, s)
           | String _ _ => Raise ValueError
           end.

(** The [datetime] constructor checks its fields. *)
Definition make_datetime (y m d h mi s : Z) : result datetime :=
  if valid_date y m d && valid_time h mi s then Ok (mkdt y m d h mi s 0)
  else Raise ValueError.

Definition run_parser {A : Type} (p : parser (result A)) (s : string) : result A :=
  match p s with
  | Ok (r, _) => r
  | Raise e => Raise e
  end.

(** [datetime.strptime(s, '%Y-%m-%dT%H:%M:%SZ')] *)
Definition strptime_iso : string -> result datetime :=
  run_parser
    (y <~ p_Y ;; _ <~ p_lit "-" ;; m <~ p_m ;; _ <~ p_lit "-" ;; d <~ p_d ;;
     _ <~ p_lit "T" ;; h <~ p_H ;; _ <~ p_lit ":" ;; mi <~ p_M ;; _ <~ p_lit ":" ;;
     s <~ p_S ;; _ <~ p_lit "Z" ;; p_end (make_datetime y m d h mi s)).

(** [datetime.strptime(s, '%Y-%m-%d')] *)
Definition strptime_ymd : string -> result datetime :=
  run_parser
    (y <~ p_Y ;; _ <~ p_lit "-" ;; m <~ p_m ;; _ <~ p_lit "-" ;; d <~ p_d ;;
     p_end (make_datetime y m d 0 0 0)).

(** ** Decoded JSON and the Python operations the script applies to it *)

#[local] Unset Elimination Schemes.
Inductive json : Type :=
| JNull
| JBool (b : bool)
| JNum (n : Z)
| JStr (s : string)
| JArr (items : list json)
| JObj (members : list (string * json)).
#[local] Set Elimination Schemes.

Fixpoint assoc (k : string) (members : list (string * json)) : option json :=
  match members with
  | [] => None
  | (k', v) :: rest => if String.eqb k k' then Some v else assoc k rest
  end.

(** [v[k]] for a string [k] *)
Definition subscript (v : json) (k : string) : result json :=
  match v with
  | JObj members =>
      match assoc k members with
      | Some x => Ok x
      | None => Raise KeyError
      end
  | _ => Raise TypeError
  end.

(** [v.get(k, default)] *)
Definition get (v : json) (k : string) (default : json) : result json :=
  match v with
  | JObj members =>
      match assoc k members with
      | Some x => Ok x
      | None => Ok default
      end
  | _ => Raise AttributeError
  end.

(** Code points of a UTF-8 string: the bytes that do not continue a sequence. *)
Definition code_points (s : string) : Z :=
  Z.of_nat (List.length (List.filter (fun c => negb ((128 <=? code c) && (code c <? 192)))
                           (list_ascii_of_string s))).

(** [len(v)] *)
Definition py_len (v : json) : result Z :=
  match v with
  | JArr items => Ok (Z.of_nat (List.length items))
  | JObj members => Ok (Z.of_nat (List.length members))
  | JStr s => Ok (code_points s)
  | _ => Raise TypeError
  end.

(** [bool(v)] *)
Definition truthy (v : json) : bool :=
  match v with
  | JNull => false
  | JBool b => b
  | JNum n => negb (n =? 0)
  | JStr s => negb (String.eqb s "")
  | JArr items => match items with [] => false | _ => true end
  | JObj members => match members with [] => false | _ => true end
  end.

(** [v == lit] for a string literal [lit] *)
Definition eq_str (v : json) (lit : string) : bool :=
  match v with
  | JStr s => String.eqb s lit
  | _ => false
  end.

(** The argument of [strptime] must be a [str]. *)
Definition as_str (v : json) : result string :=
  match v with
  | JStr s => Ok s
  | _ => Raise TypeError
  end.

(** Members of a [set]: hashable values up to [==], under which [True] is
    [1] and [False] is [0]. *)
Inductive hkey : Type :=
| KNone
| KInt (n : Z)
| KStr (s : string).

Definition hash_key (v : json) : result hkey :=
  match v with
  | JNull => Ok KNone
  | JBool b => Ok (KInt (if b then 1 else 0))
  | JNum n => Ok (KInt n)
  | JStr s => Ok (KStr s)
  | JArr _ | JObj _ => Raise TypeError
  end.

Definition hkey_to_sum (k : hkey) : unit + Z + string :=
  match k with
  | KNone => inl (inl tt)
  | KInt n => inl (inr n)
  | KStr s => inr s
  end.

Definition hkey_of_sum (x : unit + Z + string) : hkey :=
  match x with
  | inl (inl _) => KNone
  | inl (inr n) => KInt n
  | inr s => KStr s
  end.

#[global] Instance hkey_eq_dec : EqDecision hkey.
Proof. solve_decision. Defined.

#[global] Instance hkey_countable : Countable hkey.
Proof.
  apply (inj_countable' hkey_to_sum hkey_of_sum).
  intros []; reflexivity.
Defined.

(** ** Event aggregation *)

(** The [stats] dictionary while the loop of [analyze_events] runs. *)
Record tally : Type := mk_tally {
  t_commits : Z;
  t_prs_opened : Z;
  t_prs_merged : Z;
  t_issues_opened : Z;
  t_issues_commented : Z;
  t_repos : gset hkey;
  t_review_comments : Z;
  t_stars_given : Z;
  t_repos_created : Z;
  t_events_by_day : gmap string Z
}.

(** The [stats] dictionary that [analyze_events] returns. *)
Record stats : Type := mk_stats {
  commits : Z;
  prs_opened : Z;
  prs_merged : Z;
  issues_opened : Z;
  issues_commented : Z;
  repos_contributed : Z;
  review_comments : Z;
  stars_given : Z;
  repos_created : Z;
  events_by_day : gmap string Z
}.

Definition empty_tally : tally := mk_tally 0 0 0 0 0 ∅ 0 0 0 ∅.

(** [d[k] += 1] on a [defaultdict(int)] *)
Definition bump (k : string) (d : gmap string Z) : gmap string Z :=
  <[k := default 0 (d !! k) + 1]> d.

Definition add_commits (n : Z) (t : tally) : tally :=
  mk_tally (t_commits t + n) (t_prs_opened t) (t_prs_merged t) (t_issues_opened t)
    (t_issues_commented t) (t_repos t) (t_review_comments t) (t_stars_given t)
    (t_repos_created t) (t_events_by_day t).

Definition add_pr_opened (t : tally) : tally :=
  mk_tally (t_commits t) (t_prs_opened t + 1) (t_prs_merged t) (t_issues_opened t)
    (t_issues_commented t) (t_repos t) (t_review_comments t) (t_stars_given t)
    (t_repos_created t) (t_events_by_day t).

Definition add_pr_merged (t : tally) : tally :=
  mk_tally (t_commits t) (t_prs_opened t) (t_prs_merged t + 1) (t_issues_opened t)
    (t_issues_commented t) (t_repos t) (t_review_comments t) (t_stars_given t)
    (t_repos_created t) (t_events_by_day t).

Definition add_issue_opened (t : tally) : tally :=
  mk_tally (t_commits t) (t_prs_opened t) (t_prs_merged t) (t_issues_opened t + 1)
    (t_issues_commented t) (t_repos t) (t_review_comments t) (t_stars_given t)
    (t_repos_created t) (t_events_by_day t).

Definition add_issue_comment (t : tally) : tally :=
  mk_tally (t_commits t) (t_prs_opened t) (t_prs_merged t) (t_issues_opened t)
    (t_issues_commented t + 1) (t_repos t) (t_review_comments t) (t_stars_given t)
    (t_repos_created t) (t_events_by_day t).

Definition add_review_comment (t : tally) : tally :=
  mk_tally (t_commits t) (t_prs_opened t) (t_prs_merged t) (t_issues_opened t)
    (t_issues_commented t) (t_repos t) (t_review_comments t + 1) (t_stars_given t)
    (t_repos_created t) (t_events_by_day t).

Definition add_star (t : tally) : tally :=
  mk_tally (t_commits t) (t_prs_opened t) (t_prs_merged t) (t_issues_opened t)
    (t_issues_commented t) (t_repos t) (t_review_comments t) (t_stars_given t + 1)
    (t_repos_created t) (t_events_by_day t).

Definition add_repo_created (t : tally) : tally :=
  mk_tally (t_commits t) (t_prs_opened t) (t_prs_merged t) (t_issues_opened t)
    (t_issues_commented t) (t_repos t) (t_review_comments t) (t_stars_given t)
    (t_repos_created t + 1) (t_events_by_day t).

(** [stats['events_by_day'][day_key] += 1] then
    [stats['repos_contributed'].add(repo_name)] *)
Definition count_event (day_key : string) (repo : hkey) (t : tally) : tally :=
  mk_tally (t_commits t) (t_prs_opened t) (t_prs_merged t) (t_issues_opened t)
    (t_issues_commented t) ({[repo]} ∪ t_repos t) (t_review_comments t) (t_stars_given t)
    (t_repos_created t) (bump day_key (t_events_by_day t)).

(** The [if]/[elif] chain on [event_type] (lines 94-110). *)
Definition classify (event event_type : json) (t : tally) : result tally :=
  if eq_str event_type "PushEvent" then
    payload <- subscript event "payload" ;;
    cs <- get payload "commits" (JArr []) ;;
    n <- py_len cs ;;
    Ok (add_commits n t)
  else if eq_str event_type "PullRequestEvent" then
    payload <- subscript event "payload" ;;
    action <- subscript payload "action" ;;
    if eq_str action "opened" then Ok (add_pr_opened t)
    else if eq_str action "closed" then
      pr <- subscript payload "pull_request" ;;
      merged <- get pr "merged" JNull ;;
      if truthy merged then Ok (add_pr_merged t) else Ok t
    else Ok t
  else if eq_str event_type "IssuesEvent" then
    payload <- subscript event "payload" ;;
    action <- subscript payload "action" ;;
    if eq_str action "opened" then Ok (add_issue_opened t) else Ok t
  else if eq_str event_type "IssueCommentEvent" then Ok (add_issue_comment t)
  else if eq_str event_type "PullRequestReviewCommentEvent" then Ok (add_review_comment t)
  else if eq_str event_type "WatchEvent" then Ok (add_star t)
  else if eq_str event_type "CreateEvent" then
    payload <- subscript event "payload" ;;
    ref_type <- subscript payload "ref_type" ;;
    if eq_str ref_type "repository" then Ok (add_repo_created t) else Ok t
  else Ok t.

(** [datetime.strptime(event['created_at'], '%Y-%m-%dT%H:%M:%SZ')] *)
Definition event_date (event : json) : result datetime :=
  created <- subscript event "created_at" ;;
  text <- as_str created ;;
  strptime_iso text.

(** One iteration of the loop of [analyze_events] (lines 80-110). *)
Definition analyze_event (thirty_days_ago : datetime) (t : tally) (event : json)
  : result tally :=
  date <- event_date event ;;
  if dt_ltb date thirty_days_ago then Ok t
  else
    event_type <- subscript event "type" ;;
    repo <- subscript event "repo" ;;
    repo_name <- subscript repo "name" ;;
    let day_key := strftime_ymd date in
    name <- hash_key repo_name ;;
    classify event event_type (count_event day_key name t).

(** [stats['repos_contributed'] = len(stats['repos_contributed'])] *)
Definition finish (t : tally) : stats :=
  mk_stats (t_commits t) (t_prs_opened t) (t_prs_merged t) (t_issues_opened t)
    (t_issues_commented t) (Z.of_nat (size (t_repos t))) (t_review_comments t)
    (t_stars_given t) (t_repos_created t) (t_events_by_day t).

(** [analyze_events(events)], with [now] the reading of [datetime.utcnow()]. *)
Definition analyze_events (now : datetime) (events : list json) : result stats :=
  let thirty_days_ago := minus_days now 30 in
  t <- for_each (analyze_event thirty_days_ago) events empty_tally ;;
  Ok (finish t).

(** ** Chart rendering *)

(** [a / b] on [int]s, [b] not zero: the binary64 number nearest to the
    quotient. *)
Definition truediv (a b : Z) : result spec_float :=
  match a, b with
  | Z0, Zneg _ => Ok (S754_zero true)
  | Z0, _ => Ok (S754_zero false)
  | _, Z0 => Raise ZeroDivisionError
  | _, _ =>
      match SFdiv 53 1024 (S754_finite (a <? 0) (Z.to_pos (Z.abs a)) 0)
                          (S754_finite (b <? 0) (Z.to_pos (Z.abs b)) 0) with
      | S754_infinity _ => Raise OverflowError
      | q => Ok q
      end
  end.

(** [x * n] for a float [x] and a small [int] [n] *)
Definition fmul_int (x : spec_float) (n : positive) : spec_float :=
  SFmul 53 1024 x (S754_finite false n 0).

(** [int(x)]: truncation towards zero *)
Definition int_of_float (x : spec_float) : result Z :=
  match x with
  | S754_zero _ => Ok 0
  | S754_finite s m e =>
      let a := Z.shiftl (Zpos m) e in Ok (if s then - a else a)
  | S754_infinity _ => Raise OverflowError
  | S754_nan => Raise ValueError
  end.

(** [int((count / max_events) * 20) if max_events > 0 else 0] *)
Definition bar_length (count max_events : Z) : result Z :=
  if 0 <? max_events then
    q <- truediv count max_events ;;
    int_of_float (fmul_int q 20)
  else Ok 0.

Definition fill : string := "‚ñà".
Definition separator : string := "‚îÇ".

(** [max(xs)] for a non-empty list *)
Definition max_list (xs : list Z) : Z :=
  match xs with
  | [] => 0
  | x :: xs' => fold_left Z.max xs' x
  end.

Definition values (d : gmap string Z) : list Z := (map_to_list d).*2.

(** [range(29, -1, -1)] *)
Definition range_29_down : list Z := List.map Z.of_nat (rev (seq 0 30)).

(** The body of the loop over [days] (lines 134-138). *)
Definition chart_line (events_by_day : gmap string Z) (max_events : Z) (day : string)
  : result string :=
  let count := default 0 (events_by_day !! day) in
  bar_length <- bar_length count max_events ;;
  let bar := repeat_str fill (Z.to_nat bar_length) in
  date <- strptime_ymd day ;;
  let date_label := strftime_md date in
  Ok (date_label +:+ " " +:+ separator +:+ bar +:+ " " +:+ str_int count).

Fixpoint map_result {A B : Type} (f : A -> result B) (xs : list A) : result (list B) :=
  match xs with
  | [] => Ok []
  | x :: xs' => y <- f x ;; ys <- map_result f xs' ;; Ok (y :: ys)
  end.

(** [create_activity_chart(events_by_day)], with [today] the reading of
    [datetime.utcnow()]. *)
Definition create_activity_chart (today : datetime) (events_by_day : gmap string Z)
  : result string :=
  if bool_decide (events_by_day = ∅) then Ok "No activity in the last 30 days"
  else
    let days := List.map (fun i => strftime_ymd (minus_days today i)) range_29_down in
    let max_events :=
      if bool_decide (events_by_day = ∅) then 1 else max_list (values events_by_day) in
    bars <- map_result (chart_line events_by_day max_events) days ;;
    Ok (join nl (["```"; "Activity over the last 30 days:"; ""] ++ bars ++ ["```"])).

(** ** Section rendering *)

Definition generate_activity_section (today : datetime) (st : stats) : result string :=
  chart <- create_activity_chart today (events_by_day st) ;;
  Ok (join nl
        [ "### üéØ Activity Summary";
          "";
          "- **" +:+ str_int (commits st) +:+ "** commits pushed";
          "- **" +:+ str_int (prs_opened st) +:+ "** pull requests opened";
          "- **" +:+ str_int (issues_opened st) +:+ "** issues opened";
          "- **" +:+ str_int (issues_commented st) +:+ "** issue comments";
          "- **" +:+ str_int (review_comments st) +:+ "** review comments";
          "- **" +:+ str_int (repos_contributed st) +:+ "** repositories contributed to";
          "";
          chart ]).

(** [generate_stats_section(user_stats, recent_stats)]; [user_stats] holds the
    integer-valued members of the decoded profile. *)
Definition generate_stats_section (user_stats : gmap string Z) (recent_stats : stats)
  : string :=
  join nl
    [ "![Followers](https://img.shields.io/badge/Followers-"
        +:+ str_int (default 0 (user_stats !! "followers")) +:+ "-blue?style=flat-square)";
      "![Public Repos](https://img.shields.io/badge/Public_Repos-"
        +:+ str_int (default 0 (user_stats !! "public_repos")) +:+ "-green?style=flat-square)";
      "![Total Stars](https://img.shields.io/badge/Total_Stars-"
        +:+ str_int (default 0 (user_stats !! "public_gists")) +:+ "-yellow?style=flat-square)";
      "";
      "### üìà This Month's Highlights";
      "";
      "- üî® **" +:+ str_int (commits recent_stats) +:+ "** commits";
      "- üîÄ **" +:+ str_int (prs_opened recent_stats) +:+ "** PRs opened";
      "- ‚≠ê **" +:+ str_int (stars_given recent_stats) +:+ "** repositories starred";
      "- üì¶ **" +:+ str_int (repos_created recent_stats)
        +:+ "** new repositories created" ].

(** ** Document patching *)

Inductive section : Type := Activity | Stats | Date.

Definition start_marker (k : section) : string :=
  match k with
  | Activity => "<!-- ACTIVITY_START -->"
  | Stats => "<!-- STATS_START -->"
  | Date => "<!-- DATE_START -->"
  end.

Definition end_marker (k : section) : string :=
  match k with
  | Activity => "<!-- ACTIVITY_END -->"
  | Stats => "<!-- STATS_END -->"
  | Date => "<!-- DATE_END -->"
  end.

(** [activity_section], [stats_section] and [date_section] (lines 189-199). *)
Definition section_text (k : section) (content : string) : string :=
  match k with
  | Activity | Stats => start_marker k +:+ nl +:+ content +:+ nl +:+ end_marker k
  | Date => start_marker k +:+ content +:+ end_marker k
  end.

(** One of the three [re.sub] calls (lines 204-223). *)
Definition patch (k : section) (content readme : string) : result string :=
  re_sub (start_marker k) (end_marker k) (section_text k content) readme.

(** [update_readme(activity_content, stats_content)] as a function from the
    text read from [README.md] to the text written back, with [now] the
    reading of [datetime.utcnow()]. *)
Definition update_readme (now : datetime) (activity_content stats_content readme : string)
  : result string :=
  readme <- patch Activity activity_content readme ;;
  readme <- patch Stats stats_content readme ;;
  readme <- patch Date (strftime_stamp now) readme ;;
  Ok readme.

(** ** Fetching *)

(** What [requests.get] answers: the status code and the decoded body. *)
Record response (A : Type) : Type := mk_response {
  status_code : Z;
  body : A
}.

Arguments mk_response {A} status_code body.
Arguments status_code {A} r.
Arguments body {A} r.

(** The events endpoint answers a request for a page number and a page size
    with a JSON array. *)
Definition events_api : Type := Z -> Z -> response (list json).

(** [per_page=30] in the URL of every request. *)
Definition per_page : Z := 30.

(** [page_events[-1]] of a non-empty list *)
Definition last_event (page_events : list json) : json := List.last page_events JNull.

(** The [while page <= 10] loop of [fetch_user_events]; [clock page] is the
    reading of [datetime.utcnow()] while page [page] is examined.  Next to the
    result the loop reports the requests it made, in order: the page number
    and the page size of each. *)
Fixpoint fetch_loop (fuel : nat) (api : events_api) (clock : Z -> datetime)
  (page : Z) (events : list json) : list (Z * Z) * result (list json) :=
  match fuel with
  | O => ([], Ok events)
  | S fuel' =>
      if page <=? 10 then
        let response := api page per_page in
        let request := (page, per_page) in
        if negb (status_code response =? 200) then ([request], Ok events)
        else
          let page_events := body response in
          match page_events with
          | [] => ([request], Ok events)
          | _ :: _ =>
              let events := events ++ page_events in
              match event_date (last_event page_events) with
              | Raise e => ([request], Raise e)
              | Ok oldest_event =>
                  if dt_ltb oldest_event (minus_days (clock page) 30)
                  then ([request], Ok events)
                  else
                    let '(requested, r) := fetch_loop fuel' api clock (page + 1) events in
                    (request :: requested, r)
              end
          end
      else ([], Ok events)
  end.

Definition fetch_user_events (api : events_api) (clock : Z -> datetime)
  : list (Z * Z) * result (list json) :=
  fetch_loop 11 api clock 1 [].

(** [fetch_user_stats()] on the answer of the profile endpoint. *)
Definition fetch_user_stats (r : response (gmap string Z)) : gmap string Z :=
  if status_code r =? 200 then body r else ∅.

(** ** The run *)

(** The readings of [datetime.utcnow()] during a run: one in the fetcher for
    each page it examines, then one in [analyze_events], one in
    [create_activity_chart] and one in [update_readme]. *)
Record readings : Type := mk_readings {
  at_page : Z -> datetime;
  at_analysis : datetime;
  at_chart : datetime;
  at_update : datetime
}.

(** The calls of a run that reach outside the program may raise, and the
    script catches none of their exceptions: [requests.get], the decoding of
    an answer by [response.json()], the reading of [README.md] and the
    writing of it. *)
Inductive io_failure : Type :=
| RequestRaises
| JsonRaises
| ReadRaises
| WriteRaises.

(** How a part of the run ends: with a value, with an exception of the
    program's own computations, or with an exception of a call that reaches
    outside. *)
Inductive ending (A : Type) : Type :=
| Done (a : A)
| Uncaught (e : exn)
| Broken (f : io_failure).

Arguments Done {A} a.
Arguments Uncaught {A} e.
Arguments Broken {A} f.

Definition and_then {A B : Type} (r : ending A) (k : A -> ending B) : ending B :=
  match r with
  | Done a => k a
  | Uncaught e => Uncaught e
  | Broken f => Broken f
  end.

Notation "x <<- r ;; k" := (and_then r (fun x => k))
  (at level 100, r at next level, right associativity).

Definition computed {A : Type} (r : result A) : ending A :=
  match r with
  | Ok a => Done a
  | Raise e => Uncaught e
  end.

(** What [requests.get] gives for a page number and a page size: [None]
    when the call raises, an answer otherwise; the body of an answer is
    [None] when [response.json()] raises on it. *)
Definition events_net : Type := Z -> Z -> option (response (option (list json))).

(** The same for the request of the profile. *)
Definition profile_net : Type := option (response (option (gmap string Z))).

(** [fetch_user_events()] with the calls that may raise (lines 33-53). *)
Fixpoint fetch_loop_io (fuel : nat) (net : events_net) (clock : Z -> datetime)
  (page : Z) (events : list json) : ending (list json) :=
  match fuel with
  | O => Done events
  | S fuel' =>
      if page <=? 10 then
        match net page per_page with
        | None => Broken RequestRaises
        | Some response =>
            if negb (status_code response =? 200) then Done events
            else
              match body response with
              | None => Broken JsonRaises
              | Some [] => Done events
              | Some ((_ :: _) as page_events) =>
                  let events := events ++ page_events in
                  match event_date (last_event page_events) with
                  | Raise e => Uncaught e
                  | Ok oldest_event =>
                      if dt_ltb oldest_event (minus_days (clock page) 30)
                      then Done events
                      else fetch_loop_io fuel' net clock (page + 1) events
                  end
              end
        end
      else Done events
  end.

Definition fetch_user_events_io (net : events_net) (clock : Z -> datetime)
  : ending (list json) :=
  fetch_loop_io 11 net clock 1 [].

(** [fetch_user_stats()] with the calls that may raise (lines 57-61). *)
Definition fetch_user_stats_io (net : profile_net) : ending (gmap string Z) :=
  match net with
  | None => Broken RequestRaises
  | Some response =>
      if status_code response =? 200 then
        match body response with
        | Some profile => Done profile
        | None => Broken JsonRaises
        end
      else Done ∅
  end.

(** [update_readme(activity_content, stats_content)] with the file:
    [readme] is the text that reading [README.md] gives, [None] when [open]
    or [read] raises; [writable] tells whether opening the file for writing
    and writing to it succeed.  The result is the text written. *)
Definition update_readme_io (now : datetime) (activity_content stats_content : string)
  (readme : option string) (writable : bool) : ending string :=
  match readme with
  | None => Broken ReadRaises
  | Some text =>
      new <<- computed (update_readme now activity_content stats_content text) ;;
      if writable then Done new else Broken WriteRaises
  end.

(** [main()], from what a run meets (the answers of the two endpoints, the
    clock, the file) to the text that it writes to [README.md].  The
    progress messages are not modelled. *)
Definition main (net : events_net) (profile : profile_net) (clk : readings)
  (readme : option string) (writable : bool) : ending string :=
  events <<- fetch_user_events_io net (at_page clk) ;;
  stats <<- computed (analyze_events (at_analysis clk) events) ;;
  user_stats <<- fetch_user_stats_io profile ;;
  activity_content <<- computed (generate_activity_section (at_chart clk) stats) ;;
  let stats_content := generate_stats_section user_stats stats in
  update_readme_io (at_update clk) activity_content stats_content readme writable.

(** ** Vocabulary of the properties *)

(** The three profile badges, as [generate_stats_section] writes them for
    given values. *)
Definition badge_lines (followers public_repos public_gists : Z) : list string :=
  [ "![Followers](https://img.shields.io/badge/Followers-"
      +:+ str_int followers +:+ "-blue?style=flat-square)";
    "![Public Repos](https://img.shields.io/badge/Public_Repos-"
      +:+ str_int public_repos +:+ "-green?style=flat-square)";
    "![Total Stars](https://img.shields.io/badge/Total_Stars-"
      +:+ str_int public_gists +:+ "-yellow?style=flat-square)" ].

(** Sample inputs used to exercise the theorems below. *)
Definition sample_failed_profile : response (gmap string Z) :=
  mk_response 404 (<["followers" := 12]> ∅).

Definition sample_stats : stats := mk_stats 4 1 0 2 3 2 0 5 1 ∅.

(** The highlight bullets that follow the badges. *)
Definition highlight_lines (st : stats) : list string :=
  [ "";
    "### üìà This Month's Highlights";
    "";
    "- üî® **" +:+ str_int (commits st) +:+ "** commits";
    "- üîÄ **" +:+ str_int (prs_opened st) +:+ "** PRs opened";
    "- ‚≠ê **" +:+ str_int (stars_given st) +:+ "** repositories starred";
    "- üì¶ **" +:+ str_int (repos_created st) +:+ "** new repositories created" ].

(** *** Aggregation *)

(** An event counts when its timestamp is not before the window boundary,
    thirty days before [now]. *)
Definition in_window (now : datetime) (e : json) : bool :=
  match event_date e with
  | Ok d => negb (dt_ltb d (minus_days now 30))
  | Raise _ => false
  end.

(** The repository name of an event, as a set member. *)
Definition repo_key (e : json) : option hkey :=
  match (repo <- subscript e "repo" ;; name <- subscript repo "name" ;; hash_key name) with
  | Ok k => Some k
  | Raise _ => None
  end.

(** The set of repository names over a sequence of events. *)
Definition repo_names (events : list json) : gset hkey := list_to_set (omap repo_key events).

Definition is_push (e : json) : bool :=
  match subscript e "type" with
  | Ok ty => eq_str ty "PushEvent"
  | Raise _ => false
  end.

(** The length of the commit list in the payload of an event; 0 when the
    payload has none. *)
Definition commit_list_length (e : json) : Z :=
  match (payload <- subscript e "payload" ;; cs <- get payload "commits" (JArr []) ;; py_len cs) with
  | Ok n => n
  | Raise _ => 0
  end.

Definition sum_list (xs : list Z) : Z := foldr Z.add 0 xs.

(** The member of [v] reached by following [path] through nested objects. *)
Fixpoint at_path (v : json) (path : list string) : option json :=
  match path with
  | [] => Some v
  | k :: rest =>
      match v with
      | JObj members =>
          match assoc k members with
          | Some x => at_path x rest
          | None => None
          end
      | _ => None
      end
  end.

Definition carries (v : json) (path : list string) : bool :=
  match at_path v path with
  | Some _ => true
  | None => false
  end.

Definition is_ok {A : Type} (r : result A) : bool :=
  match r with
  | Ok _ => true
  | Raise _ => false
  end.

Definition type_is (e : json) (name : string) : bool :=
  match at_path e ["type"] with
  | Some ty => eq_str ty name
  | None => false
  end.

Definition action_is (e : json) (name : string) : bool :=
  match at_path e ["payload"; "action"] with
  | Some a => eq_str a name
  | None => false
  end.

(** ['created_at'] is there and is a timestamp in the format of the API. *)
Definition has_timestamp (e : json) : bool :=
  match at_path e ["created_at"] with
  | Some (JStr s) => is_ok (strptime_iso s)
  | _ => false
  end.

(** ['repo']['name'] is there and can be a member of a set. *)
Definition has_repo_name (e : json) : bool :=
  match at_path e ["repo"; "name"] with
  | Some (JArr _) | Some (JObj _) | None => false
  | Some _ => true
  end.

(** The payload of a closed pull request carries a ['pull_request'] object. *)
Definition has_pull_request (e : json) : bool :=
  match at_path e ["payload"; "pull_request"] with
  | Some (JObj _) => true
  | _ => false
  end.

(** The payload is an object whose ['commits'] member, when there is one,
    has a length. *)
Definition has_push_payload (e : json) : bool :=
  match at_path e ["payload"] with
  | Some (JObj members) =>
      match assoc "commits" members with
      | Some (JArr _) | Some (JObj _) | Some (JStr _) | None => true
      | Some _ => false
      end
  | _ => false
  end.

(** The field-presence precondition of [analyze_events] on one event. *)
Definition fields_present (e : json) : bool :=
  has_timestamp e && carries e ["type"] && has_repo_name e
  && (if type_is e "PullRequestEvent" || type_is e "IssuesEvent"
      then carries e ["payload"; "action"] else true)
  && (if type_is e "PullRequestEvent" && action_is e "closed"
      then has_pull_request e else true)
  && (if type_is e "CreateEvent" then carries e ["payload"; "ref_type"] else true)
  && (if type_is e "PushEvent" then has_push_payload e else true).

(** *** Sample events *)

Definition sample_now : datetime := mkdt 2026 11 3 12 0 0 5.

Definition mk_event (created type repo : string) (payload : list (string * json)) : json :=
  JObj [ ("type", JStr type); ("created_at", JStr created);
         ("repo", JObj [("name", JStr repo)]); ("payload", JObj payload) ].

Definition sample_events : list json :=
  [ mk_event "2026-11-02T08:00:00Z" "PushEvent" "me/a" [("commits", JArr [JNull; JNull])];
    mk_event "2026-10-01T08:00:00Z" "PushEvent" "me/b" [("commits", JArr [JNull; JNull; JNull])];
    mk_event "2026-10-20T09:30:00Z" "PullRequestEvent" "me/a" [("action", JStr "opened")];
    mk_event "2026-10-20T10:00:00Z" "WatchEvent" "you/c" [];
    mk_event "2026-10-04T13:00:00Z" "PushEvent" "you/c" [] ].

Definition sample_analysis : stats :=
  match analyze_events sample_now sample_events with
  | Ok st => st
  | Raise _ => mk_stats 0 0 0 0 0 0 0 0 0 ∅
  end.

(** Events inside the window of [sample_now], each lacking one field. *)
Definition lacks_created_at : json :=
  JObj [("type", JStr "WatchEvent"); ("repo", JObj [("name", JStr "me/a")]); ("payload", JObj [])].

Definition lacks_type : json :=
  JObj [("created_at", JStr "2026-11-02T08:00:00Z"); ("repo", JObj [("name", JStr "me/a")]);
        ("payload", JObj [])].

Definition lacks_repo_name : json :=
  JObj [("type", JStr "WatchEvent"); ("created_at", JStr "2026-11-02T08:00:00Z");
        ("repo", JObj []); ("payload", JObj [])].

Definition pull_request_lacks_action : json :=
  mk_event "2026-11-02T08:00:00Z" "PullRequestEvent" "me/a" [].

Definition issues_lacks_action : json :=
  mk_event "2026-11-02T08:00:00Z" "IssuesEvent" "me/a" [].

Definition closed_lacks_pull_request : json :=
  mk_event "2026-11-02T08:00:00Z" "PullRequestEvent" "me/a" [("action", JStr "closed")].

Definition create_lacks_ref_type : json :=
  mk_event "2026-11-02T08:00:00Z" "CreateEvent" "me/a" [].

Definition push_lacks_commits : json :=
  mk_event "2026-11-02T08:00:00Z" "PushEvent" "me/a" [].

(** An event before the window of [sample_now] that carries a timestamp only. *)
Definition old_bare_event : json := JObj [("created_at", JStr "2026-09-01T08:00:00Z")].

(** *** Calendar *)

(** The order of dates, as triples of year, month and day. *)
Definition ymd_ltb (a b : Z * Z * Z) : bool :=
  let '(y, m, d) := a in
  let '(y', m', d') := b in
  lex_ltb [y; m; d] [y'; m'; d'].

(** The integers [lo], [lo + 1], ... : [n] of them. *)
Fixpoint range_from (lo : Z) (n : nat) : list Z :=
  match n with
  | O => []
  | S k => lo :: range_from (lo + 1) k
  end.

Definition range (lo n : Z) : list Z := range_from lo (Z.to_nat n).

(** Month lengths and month starts for a year that is leap or not. *)
Definition month_length (leap : bool) (m : Z) : Z :=
  if m =? 2 then (if leap then 29 else 28)
  else if (m =? 4) || (m =? 6) || (m =? 9) || (m =? 11) then 30 else 31.

Definition month_start (leap : bool) (m : Z) : Z :=
  days_before_month_common m + (if (2 <? m) && leap then 1 else 0).

(** The last step of [ord2ymd]: month and day of day [n] of a year, counted
    from 0. *)
Definition month_and_day (leap : bool) (n : Z) : Z * Z :=
  let m := Z.shiftr (n + 50) 5 in
  let preceding := month_start leap m in
  if n <? preceding then (m - 1, n - (preceding - month_length leap (m - 1)) + 1)
  else (m, n - preceding + 1).

(** Day [n] of a year is the date it should be: the month and the day exist
    and lie [n] days after the first of January. *)
Definition day_of_year_ok (leap : bool) (n : Z) : bool :=
  let '(m, d) := month_and_day leap n in
  (1 <=? m) && (m <=? 12) && (1 <=? d) && (d <=? month_length leap m)
  && (month_start leap m + d =? n + 1).

(** Each month starts where the month before it ends, and December ends
    with the year. *)
Definition month_ok (leap : bool) (m : Z) : bool :=
  (0 <=? month_start leap m) && (1 <=? month_length leap m)
  && (month_start leap m + month_length leap m
      =? (if m =? 12 then (if leap then 366 else 365) else month_start leap (m + 1))).

(** *** Chart *)

(** The line of the chart for day [d] when bars are scaled by [max]: the
    bar has [floor(count * 20 / max)] fill units. *)
Definition day_line (events_by_day : gmap string Z) (max : Z) (d : datetime) : string :=
  let count := default 0 (events_by_day !! strftime_ymd d) in
  strftime_md d +:+ " " +:+ separator +:+ repeat_str fill (Z.to_nat (20 * count / max))
    +:+ " " +:+ str_int count.

(** The trailing 30 calendar days, oldest first. *)
Definition rendered_days (today : datetime) : list datetime :=
  List.map (fun i => minus_days today (29 - Z.of_nat i)) (seq 0 30).

Definition chart_text (events_by_day : gmap string Z) (max : Z) (today : datetime) : string :=
  join nl (["```"; "Activity over the last 30 days:"; ""]
           ++ List.map (day_line events_by_day max) (rendered_days today)
           ++ ["```"]).

(** The largest count among the 30 rendered days. *)
Definition rendered_max (events_by_day : gmap string Z) (today : datetime) : Z :=
  max_list (List.map (fun d => default 0 (events_by_day !! strftime_ymd d))
              (rendered_days today)).

(** The clock shows a date whose trailing 30 days all have a four-digit year. *)
Definition four_digit_years (today : datetime) : bool :=
  valid_datetime today && (1001 <=? year today).

(** Counts that the fetcher's ceiling of 10 pages of 30 events allows. *)
Definition count_limit : Z := 300.

Definition bar_agrees (max count : Z) : bool :=
  match bar_length count max with
  | Ok n => n =? 20 * count / max
  | Raise _ => false
  end.

Definition bars_agree_up_to (max : Z) : bool :=
  forallb (bar_agrees max) (range 0 (max + 1)).

(** Two events on the day that begins the 30-day window of [sample_now] and
    lies before the 30 rendered days, one event today. *)
Definition sample_edge_events : list json :=
  [ mk_event "2026-11-03T09:00:00Z" "WatchEvent" "me/a" [];
    mk_event "2026-10-04T14:00:00Z" "WatchEvent" "me/a" [];
    mk_event "2026-10-04T13:00:00Z" "WatchEvent" "me/b" [] ].

Definition sample_edge_days : gmap string Z :=
  match analyze_events sample_now sample_edge_events with
  | Ok st => events_by_day st
  | Raise _ => ∅
  end.

Definition sample_days : gmap string Z := events_by_day sample_analysis.

(** The proleptic Gregorian ordinal of the date of [t]. *)
Definition toordinal (t : datetime) : Z := ymd2ord (year t) (month t) (day t).

(** *** Fetching *)

(** The requests for [n] consecutive pages starting at [page]. *)
Definition requests (page : Z) (n : nat) : list (Z * Z) :=
  List.map (fun p => (p, per_page)) (range_from page n).

(** The events of [n] consecutive pages starting at [page]. *)
Fixpoint collect (api : events_api) (page : Z) (n : nat) : list json :=
  match n with
  | O => []
  | S k => body (api page per_page) ++ collect api (page + 1) k
  end.

(** The reasons for which the loop of [fetch_user_events] ends at a page. *)
Definition not_success (api : events_api) (p : Z) : Prop :=
  status_code (api p per_page) <> 200.

Definition empty_page (api : events_api) (p : Z) : Prop :=
  status_code (api p per_page) = 200 /\ body (api p per_page) = [].

(** The last event of the page, the oldest one, is older than 30 days. *)
Definition oldest_outside (api : events_api) (clock : Z -> datetime) (p : Z) : Prop :=
  status_code (api p per_page) = 200 /\ body (api p per_page) <> []
  /\ exists d, event_date (last_event (body (api p per_page))) = Ok d
               /\ dt_ltb d (minus_days (clock p) 30) = true.

(** None of them: the page is not empty and its oldest event is in the window. *)
Definition goes_on (api : events_api) (clock : Z -> datetime) (p : Z) : Prop :=
  status_code (api p per_page) = 200 /\ body (api p per_page) <> []
  /\ exists d, event_date (last_event (body (api p per_page))) = Ok d
               /\ dt_ltb d (minus_days (clock p) 30) = false.

(** The timestamp of the last event of the page cannot be read. *)
Definition unreadable (api : events_api) (p : Z) (e : exn) : Prop :=
  status_code (api p per_page) = 200 /\ body (api p per_page) <> []
  /\ event_date (last_event (body (api p per_page))) = Raise e.

(** How the loop ends when [n + 1] pages from [page] on were requested after
    [acc] had been collected. *)
Definition ends_at (api : events_api) (clock : Z -> datetime) (page : Z) (n : nat)
  (acc : list json) (r : result (list json)) : Prop :=
  let last := page + Z.of_nat n in
  (not_success api last /\ r = Ok (acc ++ collect api page n))
  \/ (empty_page api last /\ r = Ok (acc ++ collect api page n))
  \/ (oldest_outside api clock last /\ r = Ok (acc ++ collect api page (S n)))
  \/ (last = 10 /\ goes_on api clock last /\ r = Ok (acc ++ collect api page (S n)))
  \/ (exists e, unreadable api last e /\ r = Raise e).

(** A sample API: two full pages, then a page whose oldest event is exactly
    31 days older than the clock, then pages that are never requested. *)
Definition sample_clock (page : Z) : datetime := mkdt 2026 11 3 12 0 0 0.

Definition sample_api : events_api :=
  fun page _ =>
    if page =? 1 then
      mk_response 200 [ mk_event "2026-11-03T09:00:00Z" "WatchEvent" "me/a" [];
                        mk_event "2026-10-30T09:00:00Z" "WatchEvent" "me/a" [] ]
    else if page =? 2 then
      mk_response 200 [ mk_event "2026-10-20T09:00:00Z" "WatchEvent" "me/a" [] ]
    else if page =? 3 then
      mk_response 200 [ mk_event "2026-10-10T09:00:00Z" "WatchEvent" "me/b" [];
                        mk_event "2026-10-03T12:00:00Z" "WatchEvent" "me/b" [] ]
    else mk_response 200 [ mk_event "2026-09-01T09:00:00Z" "WatchEvent" "me/c" [] ].

(** The same API failing on its second page. *)
Definition sample_failing_api : events_api :=
  fun page size => if page =? 2 then mk_response 502 [] else sample_api page size.

(** An API that always has one more page of fresh events. *)
Definition sample_endless_api : events_api :=
  fun _ _ => mk_response 200 [ mk_event "2026-11-03T09:00:00Z" "WatchEvent" "me/a" [] ].

(** *** The stopping rule, in the words of the specification

    The definitions below say what is asked of the fetcher without the
    help of its code: the page size is written out, and the oldest event of
    a page is the one that the page lists last. *)

(** The answer to the request for page [p] with 30 events per page. *)
Definition answer (api : events_api) (p : Z) : response (list json) := api p 30.

(** The requests for the pages 1 to [k], each for 30 events. *)
Definition requests_through (k : nat) : list (Z * Z) :=
  List.map (fun p => (p, 30)) (range_from 1 k).

(** The events of the pages 1 to [k], page after page. *)
Definition pages_through (api : events_api) (k : nat) : list json :=
  concat (List.map (fun p => body (answer api p)) (range_from 1 k)).

(** [e] is the event that the page lists last: the endpoint lists the newest
    first, so this is the oldest event of the page. *)
Definition oldest_on (page_events : list json) (e : json) : Prop :=
  exists newer, page_events = newer ++ [e].

(** [d] is the time written in ['created_at'] of [e]. *)
Definition stamped (e : json) (d : datetime) : Prop :=
  exists s, at_path e ["created_at"] = Some (JStr s) /\ strptime_iso s = Ok d.

(** [d] is more than 30 days before [now]. *)
Definition before_window (now d : datetime) : Prop := dt_ltb d (minus_days now 30) = true.

(** Page [p] is answered with success and its oldest event is inside the
    window when the clock reads [now]: fetching goes on after it. *)
Definition page_within (api : events_api) (now : datetime) (p : Z) : Prop :=
  status_code (answer api p) = 200
  /\ exists e d, oldest_on (body (answer api p)) e /\ stamped e d /\ ~ before_window now d.

(** The ways in which fetching ends at page [k], and what is returned. *)
Inductive stop_at (api : events_api) (now : datetime) (k : nat) :
  result (list json) -> Prop :=
| stop_failed :
    status_code (answer api (Z.of_nat k)) <> 200 ->
    stop_at api now k (Ok (pages_through api (k - 1)))
| stop_empty :
    status_code (answer api (Z.of_nat k)) = 200 ->
    body (answer api (Z.of_nat k)) = [] ->
    stop_at api now k (Ok (pages_through api (k - 1)))
| stop_old (e : json) (d : datetime) :
    status_code (answer api (Z.of_nat k)) = 200 ->
    oldest_on (body (answer api (Z.of_nat k))) e -> stamped e d -> before_window now d ->
    stop_at api now k (Ok (pages_through api k))
| stop_ceiling :
    k = 10%nat -> page_within api now 10 ->
    stop_at api now k (Ok (pages_through api 10))
| stop_unreadable (e : json) (x : exn) :
    status_code (answer api (Z.of_nat k)) = 200 ->
    oldest_on (body (answer api (Z.of_nat k))) e -> (forall d, ~ stamped e d) ->
    stop_at api now k (Raise x).

(** *** Patching *)

(** [pat] begins at the end of [before +:+ pat] and nowhere earlier in it:
    in [before +:+ pat +:+ rest] the leftmost occurrence of [pat] is the one
    written. *)
Definition first_at (pat before : string) : Prop :=
  forall a b, before +:+ pat = a +:+ pat +:+ b -> b = "".

(** The template that stands for a replacement text without escapes. *)
Fixpoint literal_items (s : string) : list titem :=
  match s with
  | EmptyString => []
  | String c s' => TLit c :: literal_items s'
  end.

(** Text without a backslash and without ["<"]: as a replacement it is
    taken literally, and it contains no marker. *)
Definition plain (s : string) : bool :=
  negb (has_char backslash s) && negb (has_char "<" s).

(** What the patcher writes between the two markers of a section. *)
Definition middle (k : section) (content : string) : string :=
  match k with
  | Activity | Stats => nl +:+ content +:+ nl
  | Date => content
  end.

(** The content that [update_readme] gives to each section. *)
Definition content_of (now : datetime) (activity_content stats_content : string)
  (k : section) : string :=
  match k with
  | Activity => activity_content
  | Stats => stats_content
  | Date => strftime_stamp now
  end.

(** The six marker strings. *)
Inductive marker : Type :=
| Start (k : section)
| End_ (k : section).

Definition marker_text (m : marker) : string :=
  match m with
  | Start k => start_marker k
  | End_ k => end_marker k
  end.

Definition marker_eqb (a b : marker) : bool :=
  match a, b with
  | Start Activity, Start Activity | Start Stats, Start Stats | Start Date, Start Date
  | End_ Activity, End_ Activity | End_ Stats, End_ Stats | End_ Date, End_ Date => true
  | _, _ => false
  end.

(** A document laid out as texts separated by markers: after the text [t0]
    comes, for each entry, a marker and the text that follows it. *)
Fixpoint weave_tail (l : list (marker * string)) : string :=
  match l with
  | [] => ""
  | (m, t) :: l' => marker_text m +:+ t +:+ weave_tail l'
  end.

Definition weave (t0 : string) (l : list (marker * string)) : string :=
  t0 +:+ weave_tail l.

(** A text in which none of the six markers begins. *)
Definition marker_free (t : string) : Prop :=
  forall m, occurrences (marker_text m) t = 0%nat.

(** All matches of a text replaced, for a parsed template. *)
Definition sub_all (start stop : string) (tpl : list titem) (s : string) : string :=
  sub_from (S (String.length s)) start stop tpl s.

(** A document with one date region. *)
Definition sample_date_readme : string :=
  "Last updated: <!-- DATE_START -->never<!-- DATE_END -->.".

(** A replacement text that itself contains the end marker of the section. *)
Definition sample_hostile_content : string := "x<!-- ACTIVITY_END -->y".

Definition sample_activity_readme : string :=
  "# Me" +:+ nl +:+ "<!-- ACTIVITY_START -->" +:+ nl +:+ "old" +:+ nl
  +:+ "<!-- ACTIVITY_END -->" +:+ nl +:+ "bye".

(** Marker [m] is none of the markers of [l] and begins in none of its texts. *)
Definition clear_of (m : marker) (l : list (marker * string)) : Prop :=
  Forall (fun e => marker_eqb m (fst e) = false
                   /\ occurrences (marker_text m) (snd e) = 0%nat) l.

(** The result of a search with the text [t] put back in front. *)
Definition prepend (t : string) (o : option (string * string)) : option (string * string) :=
  match o with
  | Some (a, b) => Some (t +:+ a, b)
  | None => None
  end.

(** A document with its three regions, stats first. *)
Definition sample_readme : string :=
  "# Me" +:+ nl +:+ "<!-- STATS_START -->" +:+ nl +:+ "old stats" +:+ nl
  +:+ "<!-- STATS_END -->" +:+ nl +:+ "## Activity" +:+ nl
  +:+ "<!-- ACTIVITY_START -->" +:+ "<!-- ACTIVITY_END -->" +:+ nl
  +:+ "Updated <!-- DATE_START -->never<!-- DATE_END --> by a script.".

(** A document with the three regions one after the other, in the order
    [k1], [k2], [k3]: the texts [p0] to [p3] lie outside the regions, [x1] to
    [x3] between the markers. *)
Definition three_regions (k1 k2 k3 : section) (p0 x1 p1 x2 p2 x3 p3 : string) : string :=
  p0 +:+ start_marker k1 +:+ x1 +:+ end_marker k1
     +:+ p1 +:+ start_marker k2 +:+ x2 +:+ end_marker k2
     +:+ p2 +:+ start_marker k3 +:+ x3 +:+ end_marker k3 +:+ p3.

(** *** Counters *)

(** The number of events of a list for which [p] holds. *)
Definition count_where (p : json -> bool) (events : list json) : Z :=
  Z.of_nat (List.length (List.filter p events)).

(** The key of [events_by_day] under which an event is counted: the day of
    its timestamp. *)
Definition day_key (e : json) : option string :=
  match event_date e with
  | Ok d => Some (strftime_ymd d)
  | Raise _ => None
  end.

Definition on_day (k : string) (e : json) : bool :=
  match day_key e with
  | Some k' => String.eqb k k'
  | None => false
  end.

(** The pull request of the payload has a true ['merged']. *)
Definition merged (e : json) : bool :=
  match at_path e ["payload"; "pull_request"; "merged"] with
  | Some v => truthy v
  | None => false
  end.

Definition ref_type_is (e : json) (name : string) : bool :=
  match at_path e ["payload"; "ref_type"] with
  | Some r => eq_str r name
  | None => false
  end.

(** The counters that an event moves by one, and the events that move them. *)
Inductive counter : Type :=
| PrsOpened
| PrsMerged
| IssuesOpened
| IssuesCommented
| ReviewComments
| StarsGiven
| ReposCreated.

Definition moves (c : counter) (e : json) : bool :=
  match c with
  | PrsOpened => type_is e "PullRequestEvent" && action_is e "opened"
  | PrsMerged => type_is e "PullRequestEvent" && action_is e "closed" && merged e
  | IssuesOpened => type_is e "IssuesEvent" && action_is e "opened"
  | IssuesCommented => type_is e "IssueCommentEvent"
  | ReviewComments => type_is e "PullRequestReviewCommentEvent"
  | StarsGiven => type_is e "WatchEvent"
  | ReposCreated => type_is e "CreateEvent" && ref_type_is e "repository"
  end.

Definition t_counter (c : counter) (t : tally) : Z :=
  match c with
  | PrsOpened => t_prs_opened t
  | PrsMerged => t_prs_merged t
  | IssuesOpened => t_issues_opened t
  | IssuesCommented => t_issues_commented t
  | ReviewComments => t_review_comments t
  | StarsGiven => t_stars_given t
  | ReposCreated => t_repos_created t
  end.

Definition counter_of (c : counter) (st : stats) : Z :=
  match c with
  | PrsOpened => prs_opened st
  | PrsMerged => prs_merged st
  | IssuesOpened => issues_opened st
  | IssuesCommented => issues_commented st
  | ReviewComments => review_comments st
  | StarsGiven => stars_given st
  | ReposCreated => repos_created st
  end.

(** An event stamped at the very second that lies 30 days before
    [sample_now]. *)
Definition sample_boundary_event : json :=
  mk_event "2026-10-04T12:00:00Z" "WatchEvent" "me/a" [].

(** The fields of a [datetime] down to the second. *)
Definition to_the_second (t : datetime) : list Z :=
  [year t; month t; day t; hour t; minute t; second t].

(** The endpoint honours the page size: no answer holds more than
    [per_page] events. *)
Definition honours_page_size (api : events_api) : Prop :=
  forall p, 1 <= p <= 10 -> Z.of_nat (List.length (body (api p per_page))) <= per_page.

(** A line of the chart with an empty bar. *)
Definition flat_line (events_by_day : gmap string Z) (d : datetime) : string :=
  strftime_md d +:+ " " +:+ separator +:+ " "
    +:+ str_int (default 0 (events_by_day !! strftime_ymd d)).

(** A timestamp as the events endpoint writes it. *)
Definition iso_stamp (t : datetime) : string :=
  strftime_ymd t +:+ "T" +:+ pad2 (hour t) +:+ ":" +:+ pad2 (minute t) +:+ ":"
    +:+ pad2 (second t) +:+ "Z".

(** The same reading without its microseconds, and at midnight. *)
Definition whole_second (t : datetime) : datetime :=
  mkdt (year t) (month t) (day t) (hour t) (minute t) (second t) 0.

Definition midnight (t : datetime) : datetime :=
  mkdt (year t) (month t) (day t) 0 0 0 0.

(** A map with a single day whose count is zero. *)
Definition sample_zero_days : gmap string Z := {[ "2026-11-03" := 0 ]}.

(** A letter after a backslash that [re] does not know as an escape. *)
Definition unknown_escape (c : ascii) : bool :=
  is_letter c && negb (Ascii.eqb c "g")
  && match simple_escape c with Some _ => false | None => true end.

(** What [generate_activity_section] renders for [sample_analysis]. *)
Definition sample_activity_content : string :=
  match generate_activity_section sample_now sample_analysis with
  | Ok content => content
  | Raise _ => ""
  end.

(** *** The run *)

(** The statistics of a run without events, and the activity section that
    is rendered for them. *)
Definition idle_stats : stats := mk_stats 0 0 0 0 0 0 0 0 0 ∅.

Definition idle_activity_content : string :=
  join nl
    [ "### üéØ Activity Summary";
      "";
      "- **0** commits pushed";
      "- **0** pull requests opened";
      "- **0** issues opened";
      "- **0** issue comments";
      "- **0** review comments";
      "- **0** repositories contributed to";
      "";
      "No activity in the last 30 days" ].

(** Every event that the endpoint serves carries the fields that
    [analyze_events] reads. *)
Definition serves_complete_events (api : events_api) : Prop :=
  forall p e, 1 <= p <= 10 -> status_code (api p per_page) = 200 ->
              In e (body (api p per_page)) -> fields_present e = true.

Definition sample_readings : readings :=
  mk_readings sample_clock sample_now sample_now sample_now.

Definition sample_profile : response (gmap string Z) :=
  mk_response 200 {[ "followers" := 12; "public_repos" := 7 ]}.

(** The number that a string of decimal digits denotes, after [acc]. *)
Fixpoint decimal_value (acc : Z) (s : string) : Z :=
  match s with
  | EmptyString => acc
  | String c s' => decimal_value (10 * acc + digit_val c) s'
  end.

Definition all_digits (s : string) : bool := forallb is_digit (list_ascii_of_string s).

(** A document whose date region was never closed; an end marker stands
    before the start marker. *)
Definition sample_unclosed_readme : string :=
  "<!-- DATE_END --> Updated <!-- DATE_START -->never".

(** *** Documents with the six markers in any order *)

(** The entries of a woven document up to the first one whose marker is
    [m], the text that follows that marker, and the entries after it. *)
Fixpoint find_marker (m : marker) (l : list (marker * string))
  : option (list (marker * string) * string * list (marker * string)) :=
  match l with
  | [] => None
  | (n, t) :: l' =>
      if marker_eqb m n then Some ([], t, l')
      else match find_marker m l' with
           | Some (pre, x, post) => Some ((n, t) :: pre, x, post)
           | None => None
           end
  end.

(** What one substitution does to the entries of a document in which the
    start marker of the section occurs once at most: from the start marker
    to the nearest end marker after it, the entries give way to the new
    text between the two markers. *)
Definition patch_entries (k : section) (content : string) (l : list (marker * string))
  : list (marker * string) :=
  match find_marker (Start k) l with
  | None => l
  | Some (pre, _, rest) =>
      match find_marker (End_ k) rest with
      | None => l
      | Some (_, t, post) => pre ++ (Start k, middle k content) :: (End_ k, t) :: post
      end
  end.

Definition has_marker (m : marker) (l : list (marker * string)) : bool :=
  existsb (fun e => marker_eqb m (fst e)) l.

Definition count_marker (m : marker) (l : list (marker * string)) : nat :=
  List.length (List.filter (fun e => marker_eqb m (fst e)) l).

Definition section_eqb (a b : section) : bool :=
  match a, b with
  | Activity, Activity | Stats, Stats | Date, Date => true
  | _, _ => false
  end.

(** The region of a section reaches from its start marker to its end marker,
    when the end marker comes after the start marker.  Going through the
    entries, [open] lists the sections whose region has begun and not ended:
    a text lies outside the regions when no region is open where it stands.
    Each entry comes with whether its text lies outside the regions. *)
Fixpoint outside_from (open : list section) (l : list (marker * string))
  : list (bool * (marker * string)) :=
  match l with
  | [] => []
  | (m, t) :: l' =>
      let open' :=
        match m with
        | Start k => if has_marker (End_ k) l' then k :: open else open
        | End_ k => List.filter (fun j => negb (section_eqb j k)) open
        end in
      (match open' with [] => true | _ :: _ => false end, (m, t)) :: outside_from open' l'
  end.

Definition outside_entries (l : list (marker * string)) : list (bool * (marker * string)) :=
  outside_from [] l.

(** [kept_outside l r]: the entries [r] are the entries of [l] with every
    entry outside the regions kept as it is, where it is; in the place of
    the entries inside the regions other entries may stand. *)
Inductive kept_outside : list (bool * (marker * string)) -> list (marker * string) -> Prop :=
| kept_nil : kept_outside [] []
| kept_keep (e : marker * string) (l : list (bool * (marker * string)))
    (r : list (marker * string)) :
    kept_outside l r -> kept_outside ((true, e) :: l) (e :: r)
| kept_region (e : marker * string) (l : list (bool * (marker * string)))
    (r : list (marker * string)) :
    kept_outside l r -> kept_outside ((false, e) :: l) r
| kept_new (e e' : marker * string) (l : list (bool * (marker * string)))
    (r : list (marker * string)) :
    kept_outside ((false, e) :: l) r -> kept_outside ((false, e) :: l) (e' :: r).

(** The markers [ms] are the six markers, each once; [used] lists the
    markers met before. *)
Fixpoint arrangement (used ms : list marker) : bool :=
  match ms with
  | [] => Nat.eqb (List.length used) 6
  | m :: ms' => negb (existsb (marker_eqb m) used) && arrangement (m :: used) ms'
  end.

(** A document whose activity and stats regions overlap: the stats region
    begins inside the activity region and ends after it. *)
Definition sample_interleaved_readme : string :=
  "a<!-- ACTIVITY_START -->b<!-- STATS_START -->c<!-- ACTIVITY_END -->d"
  +:+ "<!-- STATS_END -->e<!-- DATE_START -->f<!-- DATE_END -->g".

(** A network on which every request for events is answered and every
    answer decodes: it answers as [api] does. *)
Definition answers (api : events_api) : events_net :=
  fun page size => Some (mk_response (status_code (api page size)) (Some (body (api page size)))).

(** The profile request answered with [r], decoded. *)
Definition answered (r : response (gmap string Z)) : profile_net :=
  Some (mk_response (status_code r) (Some (body r))).

(** A network whose events endpoint answers every request with status 502
    and a body that is not JSON. *)
Definition sample_down_net : events_net := fun _ _ => Some (mk_response 502 None).

(** * Properties *)

(** ** Sanity checks of the embedding *)

Example str_int_samples :
  str_int 0 = "0" /\ str_int 7 = "7" /\ str_int 10 = "10" /\ str_int 300 = "300"
  /\ str_int (-45) = "-45" /\ str_int 1024 = "1024" /\ pad2 3 = "03" /\ pad4 2026 = "2026".
Proof. repeat split; reflexivity. Qed.

Example re_sub_samples :
  re_sub "<a>" "<b>" "X" "p<a>q<b>r<a><b><a>" = Ok "pXrX<a>"
  /\ re_sub "<a>" "<b>" "[\g<0>]\n" "p<a>q<b>r" = Ok ("p[<a>q<b>]" +:+ nl +:+ "r")
  /\ re_sub "<a>" "<b>" "\d" "p" = Raise ReError.
Proof. repeat split; reflexivity. Qed.

Example markers_are_literal (k : section) :
  literal_pattern (start_marker k) = true /\ literal_pattern (end_marker k) = true.
Proof. destruct k; split; reflexivity. Qed.

Example datetime_samples :
  ymd2ord 2026 11 3 = 739923
  /\ ord2ymd 739923 = (2026, 11, 3)
  /\ ord2ymd (ymd2ord 2024 3 1 - 1) = (2024, 2, 29)
  /\ ord2ymd (ymd2ord 2024 12 31) = (2024, 12, 31)
  /\ ord2ymd 1 = (1, 1, 1)
  /\ strptime_iso "2026-11-03T10:20:30Z" = Ok (mkdt 2026 11 3 10 20 30 0)
  /\ strptime_iso "2026-02-30T10:20:30Z" = Raise ValueError
  /\ strptime_iso "2026-11-03 10:20:30" = Raise ValueError
  /\ strptime_ymd "2026-11-03" = Ok (mkdt 2026 11 3 0 0 0 0)
  /\ strftime_stamp (mkdt 2026 11 3 9 5 30 17) = "2026-11-03 09:05 UTC"
  /\ strftime_ymd (minus_days (mkdt 2026 11 3 9 5 30 17) 30) = "2026-10-04".
Proof. repeat split; reflexivity. Qed.

Example bar_length_samples :
  bar_length 1 3 = Ok 6 /\ bar_length 3 20 = Ok 3 /\ bar_length 7 20 = Ok 7
  /\ bar_length 300 300 = Ok 20 /\ bar_length 0 5 = Ok 0 /\ bar_length 5 0 = Ok 0.
Proof. repeat split; reflexivity. Qed.

(** ** Profile fetcher and stats section *)

Lemma fetch_user_stats_failure (r : response (gmap string Z)) :
  status_code r <> 200 -> fetch_user_stats r = ∅.
Proof.
  intros Hne. unfold fetch_user_stats.
  destruct (Z.eqb_spec (status_code r) 200) as [Heq | _]; [contradiction | reflexivity].
Qed.

(** C7. When the profile request does not succeed, [fetch_user_stats] returns
    the empty record, and the stats section rendered from it shows 0 in each
    of the three badges (followers, public repositories, gists).  Both
    functions are total: nothing is raised. *)
Theorem profile_failure_renders_zero_badges (r : response (gmap string Z)) (st : stats) :
  status_code r <> 200 ->
  fetch_user_stats r = ∅
  /\ generate_stats_section (fetch_user_stats r) st
     = join nl
         ([ "![Followers](https://img.shields.io/badge/Followers-0-blue?style=flat-square)";
            "![Public Repos](https://img.shields.io/badge/Public_Repos-0-green?style=flat-square)";
            "![Total Stars](https://img.shields.io/badge/Total_Stars-0-yellow?style=flat-square)" ]
          ++ highlight_lines st).
Proof.
  intros Hne. rewrite (fetch_user_stats_failure r Hne). split; [reflexivity |].
  unfold generate_stats_section. rewrite !lookup_empty. reflexivity.
Qed.

Lemma profile_failure_renders_zero_badges_witness :
  status_code sample_failed_profile <> 200
  /\ fetch_user_stats sample_failed_profile = ∅
  /\ generate_stats_section (fetch_user_stats sample_failed_profile) sample_stats
     = join nl
         ([ "![Followers](https://img.shields.io/badge/Followers-0-blue?style=flat-square)";
            "![Public Repos](https://img.shields.io/badge/Public_Repos-0-green?style=flat-square)";
            "![Total Stars](https://img.shields.io/badge/Total_Stars-0-yellow?style=flat-square)" ]
          ++ highlight_lines sample_stats).
Proof.
  assert (Hne : status_code sample_failed_profile <> 200) by (simpl; lia).
  split; [exact Hne |].
  exact (profile_failure_renders_zero_badges sample_failed_profile sample_stats Hne).
Defined.

(** When the request succeeds the badges show the profile's own values. *)
Lemma generate_stats_section_badges (user_stats : gmap string Z) (st : stats) :
  generate_stats_section user_stats st
  = join nl (badge_lines (default 0 (user_stats !! "followers"))
                         (default 0 (user_stats !! "public_repos"))
                         (default 0 (user_stats !! "public_gists"))
             ++ highlight_lines st).
Proof. reflexivity. Qed.

(** ** Chart renderer *)

(** C8. On an empty per-day map [create_activity_chart] returns exactly the
    fixed no-activity message, whatever the clock reads. *)
Theorem chart_of_empty_map (today : datetime) :
  create_activity_chart today ∅ = Ok "No activity in the last 30 days".
Proof.
  unfold create_activity_chart.
  rewrite bool_decide_eq_true_2 by reflexivity. reflexivity.
Qed.

(** ** Event aggregator *)

Lemma bind_ok {A B : Type} (r : result A) (k : A -> result B) (b : B) :
  (x <- r ;; k x) = Ok b -> exists a, r = Ok a /\ k a = Ok b.
Proof. destruct r as [a | e]; simpl; [eauto | discriminate]. Qed.

(** [classify] only moves counters: the repository set and the per-day map
    are as before, and the commit counter grows by the length of the commit
    list of a push event. *)
Lemma classify_effect (e ty : json) (t t' : tally) :
  classify e ty t = Ok t' ->
  t_repos t' = t_repos t
  /\ t_events_by_day t' = t_events_by_day t
  /\ t_commits t' = t_commits t + (if eq_str ty "PushEvent" then commit_list_length e else 0).
Proof.
  unfold classify, commit_list_length. intros H.
  repeat match type of H with
         | context [if ?b then _ else _] => destruct b
         | context [bind ?r _] => destruct r; simpl in H |- *
         end;
    try discriminate; injection H as <-; simpl; repeat split; lia.
Qed.

(** An event before the boundary leaves the tally as it is. *)
Lemma analyze_event_outside (now : datetime) (t t' : tally) (e : json) :
  analyze_event (minus_days now 30) t e = Ok t' -> in_window now e = false -> t' = t.
Proof.
  unfold analyze_event, in_window. intros H Hout.
  destruct (event_date e) as [d | x]; simpl in H; [| discriminate].
  destruct (dt_ltb d (minus_days now 30)); [congruence | discriminate].
Qed.

(** An event inside the window adds its repository name to the set and, when
    it is a push, the length of its commit list to the commit counter. *)
Lemma analyze_event_inside (now : datetime) (t t' : tally) (e : json) :
  analyze_event (minus_days now 30) t e = Ok t' -> in_window now e = true ->
  exists k, repo_key e = Some k
    /\ t_repos t' = {[k]} ∪ t_repos t
    /\ t_commits t' = t_commits t + (if is_push e then commit_list_length e else 0).
Proof.
  unfold analyze_event, in_window, repo_key, is_push. intros H Hin.
  destruct (event_date e) as [d | x]; simpl in H; [| discriminate].
  destruct (dt_ltb d (minus_days now 30)); [discriminate |].
  destruct (subscript e "type") as [ty | x]; simpl in H; [| discriminate].
  destruct (subscript e "repo") as [repo | x]; simpl in H |- *; [| discriminate].
  destruct (subscript repo "name") as [name | x]; simpl in H |- *; [| discriminate].
  destruct (hash_key name) as [k | x]; simpl in H |- *; [| discriminate].
  exists k. apply classify_effect in H as (Hr & _ & Hc).
  simpl in Hr, Hc. auto.
Qed.

(** The loop never looks at the events outside the window again. *)
Lemma loop_ignores_outside (now : datetime) (events : list json) (t t' : tally) :
  for_each (analyze_event (minus_days now 30)) events t = Ok t' ->
  for_each (analyze_event (minus_days now 30)) (List.filter (in_window now) events) t = Ok t'.
Proof.
  revert t. induction events as [| e es IH]; intros t H; simpl in *; [exact H |].
  apply bind_ok in H as (t1 & Hstep & Hrest).
  destruct (in_window now e) eqn:Hw; simpl.
  - rewrite Hstep. simpl. auto.
  - apply analyze_event_outside in Hstep; [subst t1; auto | exact Hw].
Qed.

Lemma loop_inside (now : datetime) (events : list json) (t t' : tally) :
  for_each (analyze_event (minus_days now 30)) events t = Ok t' ->
  Forall (fun e => in_window now e = true) events ->
  t_repos t' = repo_names events ∪ t_repos t
  /\ t_commits t' = t_commits t + sum_list (List.map commit_list_length (List.filter is_push events)).
Proof.
  revert t. induction events as [| e es IH]; intros t H Hall; simpl in *.
  - injection H as <-. unfold repo_names. simpl.
    rewrite union_empty_l_L. split; [reflexivity | lia].
  - apply bind_ok in H as (t1 & Hstep & Hrest).
    inversion Hall as [| ? ? Hw Hall']; subst.
    apply analyze_event_inside in Hstep as (k & Hk & Hr & Hc); [| exact Hw].
    destruct (IH _ Hrest Hall') as (Hr' & Hc').
    unfold repo_names in *. simpl. rewrite Hk. simpl. split.
    + rewrite Hr', Hr, !(assoc_L (∪)).
      f_equal. apply (comm_L (∪)).
    + rewrite Hc', Hc. destruct (is_push e); simpl; lia.
Qed.

Lemma filter_all_inside (now : datetime) (events : list json) :
  Forall (fun e => in_window now e = true) (List.filter (in_window now) events).
Proof.
  apply Forall_forall. intros e He.
  apply list_elem_of_In, filter_In in He. tauto.
Qed.

(** C4. Whenever [analyze_events] returns: the events before the 30-day
    boundary are ignored entirely (the result is the one obtained from the
    in-window events alone), [repos_contributed] is the cardinality of the
    set of repository names over the in-window events, and [commits] is the
    sum, over the in-window push events, of the length of the commit list. *)
Theorem analyze_events_aggregates (now : datetime) (events : list json) (st : stats) :
  analyze_events now events = Ok st ->
  analyze_events now (List.filter (in_window now) events) = Ok st
  /\ repos_contributed st
     = Z.of_nat (size (repo_names (List.filter (in_window now) events)))
  /\ commits st
     = sum_list (List.map commit_list_length
                   (List.filter is_push (List.filter (in_window now) events))).
Proof.
  unfold analyze_events. intros H.
  apply bind_ok in H as (t & Hloop & Hst). injection Hst as <-.
  apply loop_ignores_outside in Hloop. rewrite Hloop. simpl.
  destruct (loop_inside _ _ _ _ Hloop (filter_all_inside now events)) as (Hr & Hc).
  simpl in Hr, Hc. repeat split.
  - rewrite Hr. f_equal. f_equal. apply union_empty_r_L.
  - rewrite Hc. lia.
Qed.
(** *** The field-presence precondition *)

Ltac crunch_event :=
  repeat (simpl;
          match goal with
          | |- ?x = ?x => reflexivity
          | |- context [String.eqb ?s ?lit] =>
              is_var s; destruct (String.eqb_spec s lit); [subst s |]
          | |- context [assoc ?k ?ms] =>
              is_var ms; destruct (assoc k ms) as [[] |]
          | |- context [strptime_iso ?s] => destruct (strptime_iso s)
          | |- context [dt_ltb ?a ?b] => destruct (dt_ltb a b)
          | |- context [is_ok (if ?b then _ else _)] => destruct b
          end).

(** One iteration of the loop returns exactly when the timestamp can be read
    and, for an event inside the window, the fields are present. *)
Lemma analyze_event_ok (cutoff : datetime) (t : tally) (e : json) :
  is_ok (analyze_event cutoff t e)
  = match event_date e with
    | Ok d => dt_ltb d cutoff || fields_present e
    | Raise _ => false
    end.
Proof.
  unfold analyze_event, event_date, fields_present, has_timestamp, carries, has_repo_name,
    type_is, action_is, has_pull_request, has_push_payload, classify, subscript, get,
    as_str, hash_key, py_len, eq_str, at_path.
  destruct e; crunch_event.
Qed.

Lemma has_timestamp_event_date (e : json) : has_timestamp e = is_ok (event_date e).
Proof.
  unfold has_timestamp, event_date, subscript, as_str, at_path.
  destruct e; simpl; try reflexivity.
  destruct (assoc "created_at" members) as [[] |]; reflexivity.
Qed.

Lemma fields_present_timestamp (e : json) :
  fields_present e = true -> has_timestamp e = true.
Proof.
  unfold fields_present. intros H.
  repeat (apply andb_true_iff in H as [H _]). exact H.
Qed.

(** Whether the loop returns does not depend on the tally it starts from. *)
Lemma for_each_analyze_ok (cutoff : datetime) (events : list json) (t : tally) :
  is_ok (for_each (analyze_event cutoff) events t)
  = forallb (fun e => is_ok (analyze_event cutoff empty_tally e)) events.
Proof.
  revert t. induction events as [| e es IH]; intros t; simpl; [reflexivity |].
  rewrite (analyze_event_ok cutoff empty_tally e).
  pose proof (analyze_event_ok cutoff t e) as Hstep.
  destruct (analyze_event cutoff t e) as [t1 | x]; simpl in *.
  - rewrite <- Hstep. simpl. apply IH.
  - rewrite <- Hstep. reflexivity.
Qed.

Lemma is_ok_returns {A : Type} (r : result A) : is_ok r = true <-> returns r.
Proof.
  unfold returns. destruct r; simpl; split; eauto; try discriminate.
  intros [a H]. discriminate.
Qed.

Lemma analyze_events_is_ok (now : datetime) (events : list json) :
  is_ok (analyze_events now events)
  = forallb (fun e => is_ok (analyze_event (minus_days now 30) empty_tally e)) events.
Proof.
  unfold analyze_events. rewrite <- (for_each_analyze_ok _ events empty_tally).
  destruct (for_each _ events empty_tally); reflexivity.
Qed.

(** Totality under the precondition. *)
Lemma analyze_events_total (now : datetime) (events : list json) :
  Forall (fun e => fields_present e = true) events -> returns (analyze_events now events).
Proof.
  intros Hall. apply is_ok_returns. rewrite analyze_events_is_ok.
  apply forallb_forall. intros e He.
  rewrite Forall_forall in Hall. apply list_elem_of_In in He.
  specialize (Hall e He). rewrite analyze_event_ok.
  pose proof (fields_present_timestamp e Hall) as Hts.
  rewrite has_timestamp_event_date in Hts.
  destruct (event_date e); [| discriminate].
  rewrite Hall. apply orb_true_r.
Qed.

(** What a normal return tells about each event. *)
Lemma analyze_events_needs_fields (now : datetime) (events : list json) (e : json) :
  returns (analyze_events now events) -> In e events ->
  has_timestamp e = true /\ (in_window now e = true -> fields_present e = true).
Proof.
  intros Hret He. apply is_ok_returns in Hret. rewrite analyze_events_is_ok in Hret.
  rewrite forallb_forall in Hret. specialize (Hret e He).
  rewrite analyze_event_ok in Hret. rewrite has_timestamp_event_date.
  unfold in_window. destruct (event_date e) as [d | x]; [| discriminate].
  split; [reflexivity |].
  intros Hin. apply negb_true_iff in Hin. rewrite Hin in Hret. exact Hret.
Qed.

(** A push event whose payload has no commit list adds no commit. *)
Lemma push_without_commits (now : datetime) (t : tally) (e : json) :
  fields_present e = true -> type_is e "PushEvent" = true ->
  carries e ["payload"; "commits"] = false ->
  exists t', analyze_event (minus_days now 30) t e = Ok t' /\ t_commits t' = t_commits t.
Proof.
  intros Hf Hty Hnc.
  assert (Hret : is_ok (analyze_event (minus_days now 30) t e) = true).
  { rewrite analyze_event_ok.
    pose proof (fields_present_timestamp e Hf) as Hts.
    rewrite has_timestamp_event_date in Hts.
    destruct (event_date e); [| discriminate]. rewrite Hf. apply orb_true_r. }
  destruct (analyze_event (minus_days now 30) t e) as [t' | x] eqn:Hstep; [| discriminate].
  exists t'. split; [reflexivity |].
  destruct (in_window now e) eqn:Hw.
  - apply analyze_event_inside in Hstep as (k & _ & _ & Hc); [| exact Hw].
    rewrite Hc.
    assert (Hlen : commit_list_length e = 0).
    { clear - Hf Hty Hnc. unfold fields_present in Hf. rewrite Hty in Hf.
      apply andb_true_iff in Hf as [_ Hp].
      unfold has_push_payload, carries, commit_list_length, subscript, get in *.
      simpl in *. destruct e; try discriminate.
      destruct (assoc "payload" members) as [[] |]; try discriminate. simpl in *.
      destruct (assoc "commits" members0); [discriminate | reflexivity]. }
    rewrite Hlen. destruct (is_push e); lia.
  - apply analyze_event_outside in Hstep; [subst; reflexivity | exact Hw].
Qed.

(** C10. [analyze_events] is total under the field-presence precondition and
    not without it.  If every event carries ['created_at'] (a timestamp),
    ['type'] and ['repo']['name'], the payload of every pull-request and
    issues event carries ['action'], the payload of every closed pull request
    carries ['pull_request'] and the payload of every create event carries
    ['ref_type'], then the function returns; whenever it returns, every event
    carries its timestamp and every event inside the window carries all of
    them.  The lookups are unguarded: for each of these fields there is an
    event lacking just it on which the function raises [KeyError].  A push
    event without a commit list does not fail and counts zero commits. *)
Theorem analyze_events_field_precondition (now : datetime) (events : list json) :
  (Forall (fun e => fields_present e = true) events -> returns (analyze_events now events))
  /\ (returns (analyze_events now events) ->
      forall e, In e events ->
        has_timestamp e = true /\ (in_window now e = true -> fields_present e = true))
  /\ (analyze_events sample_now [lacks_created_at] = Raise KeyError
      /\ analyze_events sample_now [lacks_type] = Raise KeyError
      /\ analyze_events sample_now [lacks_repo_name] = Raise KeyError
      /\ analyze_events sample_now [pull_request_lacks_action] = Raise KeyError
      /\ analyze_events sample_now [issues_lacks_action] = Raise KeyError
      /\ analyze_events sample_now [closed_lacks_pull_request] = Raise KeyError
      /\ analyze_events sample_now [create_lacks_ref_type] = Raise KeyError)
  /\ (forall t e,
        fields_present e = true -> type_is e "PushEvent" = true ->
        carries e ["payload"; "commits"] = false ->
        exists t', analyze_event (minus_days now 30) t e = Ok t' /\ t_commits t' = t_commits t)
  /\ (exists st, analyze_events sample_now [push_lacks_commits] = Ok st /\ commits st = 0).
Proof.
  split; [apply analyze_events_total |].
  split; [intros Hret e He; exact (analyze_events_needs_fields now events e Hret He) |].
  split; [repeat split; reflexivity |].
  split; [intros t e; apply push_without_commits |].
  eexists. split; [vm_compute; reflexivity | reflexivity].
Qed.

Lemma analyze_events_field_precondition_witness :
  Forall (fun e => fields_present e = true) sample_events
  /\ returns (analyze_events sample_now sample_events).
Proof.
  assert (H : Forall (fun e => fields_present e = true) sample_events)
    by (repeat constructor).
  split; [exact H |].
  exact (proj1 (analyze_events_field_precondition sample_now sample_events) H).
Defined.

(** An event before the window needs its timestamp only. *)
Example old_event_needs_timestamp_only :
  fields_present old_bare_event = false
  /\ in_window sample_now old_bare_event = false
  /\ returns (analyze_events sample_now [old_bare_event]).
Proof. repeat split. eexists. vm_compute. reflexivity. Qed.

Lemma analyze_events_aggregates_witness :
  analyze_events sample_now sample_events = Ok sample_analysis
  /\ repos_contributed sample_analysis = 2
  /\ commits sample_analysis = 2
  /\ repos_contributed sample_analysis
     = Z.of_nat (size (repo_names (List.filter (in_window sample_now) sample_events)))
  /\ commits sample_analysis
     = sum_list (List.map commit_list_length
                   (List.filter is_push (List.filter (in_window sample_now) sample_events))).
Proof.
  assert (H : analyze_events sample_now sample_events = Ok sample_analysis)
    by (vm_compute; reflexivity).
  split; [exact H |].
  split; [vm_compute; reflexivity |].
  split; [vm_compute; reflexivity |].
  exact (proj2 (analyze_events_aggregates sample_now sample_events sample_analysis H)).
Defined.

(** ** Calendar *)

Lemma in_range_from (n : nat) (lo x : Z) :
  lo <= x < lo + Z.of_nat n -> In x (range_from lo n).
Proof.
  revert lo. induction n as [| n IH]; intros lo H; [lia |].
  change (range_from lo (S n)) with (lo :: range_from (lo + 1) n).
  destruct (Z.eq_dec lo x) as [-> | Hne]; [left; reflexivity | right].
  apply IH. lia.
Qed.

Lemma in_range (lo n x : Z) : lo <= x < lo + n -> In x (range lo n).
Proof. intros H. apply in_range_from. lia. Qed.

Lemma days_of_year_checked :
  forallb (fun leap => forallb (day_of_year_ok leap) (range 0 365)) [false; true] = true.
Proof. vm_compute. reflexivity. Qed.

Lemma months_checked :
  forallb (fun leap => forallb (month_ok leap) (range 1 12)) [false; true] = true.
Proof. vm_compute. reflexivity. Qed.

Lemma day_of_year (leap : bool) (n : Z) :
  0 <= n < 365 -> day_of_year_ok leap n = true.
Proof.
  intros H. pose proof days_of_year_checked as Hall. cbn [forallb] in Hall.
  apply andb_true_iff in Hall as [Hf Ht]. apply andb_true_iff in Ht as [Ht _].
  rewrite forallb_forall in Hf, Ht.
  destruct leap; [apply Ht | apply Hf]; apply in_range; lia.
Qed.

Lemma month_facts (leap : bool) (m : Z) :
  1 <= m <= 12 ->
  0 <= month_start leap m /\ 1 <= month_length leap m
  /\ month_start leap m + month_length leap m
     = (if m =? 12 then (if leap then 366 else 365) else month_start leap (m + 1)).
Proof.
  intros H. pose proof months_checked as Hall. cbn [forallb] in Hall.
  apply andb_true_iff in Hall as [Hf Ht]. apply andb_true_iff in Ht as [Ht _].
  rewrite forallb_forall in Hf, Ht.
  assert (Hok : month_ok leap m = true)
    by (destruct leap; [apply Ht | apply Hf]; apply in_range; lia).
  unfold month_ok in Hok.
  apply andb_true_iff in Hok as [Hok H3]. apply andb_true_iff in Hok as [H1 H2].
  apply Z.leb_le in H1, H2. apply Z.eqb_eq in H3. auto.
Qed.

Lemma days_in_month_length (y m : Z) : days_in_month y m = month_length (is_leap y) m.
Proof. reflexivity. Qed.

Lemma days_before_month_start (y m : Z) : days_before_month y m = month_start (is_leap y) m.
Proof. reflexivity. Qed.

(** The months of a year start in increasing order. *)
Lemma month_start_increasing (leap : bool) (m m' : Z) :
  1 <= m -> m < m' -> m' <= 12 ->
  month_start leap m + month_length leap m <= month_start leap m'.
Proof.
  intros H1 Hlt H12.
  replace m' with (m + 1 + Z.of_nat (Z.to_nat (m' - m - 1))) in * by lia.
  induction (Z.to_nat (m' - m - 1)) as [| j IH].
  - destruct (month_facts leap m ltac:(lia)) as (_ & _ & ->).
    destruct (Z.eqb_spec m 12); [lia |].
    replace (m + 1 + Z.of_nat 0) with (m + 1) by lia. lia.
  - assert (IH' := IH ltac:(lia) ltac:(lia)).
    destruct (month_facts leap (m + 1 + Z.of_nat j) ltac:(lia)) as (_ & Hpos & Hnext).
    destruct (Z.eqb_spec (m + 1 + Z.of_nat j) 12); [lia |].
    replace (m + 1 + Z.of_nat (S j)) with (m + 1 + Z.of_nat j + 1) by lia. lia.
Qed.

(** A day of a month lies within the year. *)
Lemma month_day_within_year (leap : bool) (m d : Z) :
  1 <= m <= 12 -> 1 <= d <= month_length leap m ->
  1 <= month_start leap m + d <= (if leap then 366 else 365).
Proof.
  intros Hm Hd. destruct (month_facts leap m Hm) as (H0 & _ & Hend).
  split; [lia |]. destruct (Z.eqb_spec m 12) as [-> | Hne]; [lia |].
  pose proof (month_start_increasing leap m 12 ltac:(lia) ltac:(lia) ltac:(lia)) as Hinc.
  destruct (month_facts leap 12 ltac:(lia)) as (_ & Hpos & Hdec).
  cbn [Z.eqb Pos.eqb] in Hdec. lia.
Qed.

(** The leap years, in terms of the position of a year in its 400 years. *)
Lemma is_leap_position (q n100 n4 n1 : Z) :
  0 <= n100 <= 3 -> 0 <= n4 <= 24 -> 0 <= n1 <= 3 ->
  is_leap (q * 400 + 1 + n100 * 100 + n4 * 4 + n1)
  = (n1 =? 3) && (negb (n4 =? 24) || (n100 =? 3)).
Proof.
  intros H100 H4 H1. unfold is_leap.
  set (y := q * 400 + 1 + n100 * 100 + n4 * 4 + n1).
  assert (E4 : y mod 4 = (n1 + 1) mod 4).
  { unfold y. replace (q * 400 + 1 + n100 * 100 + n4 * 4 + n1)
      with (n1 + 1 + (q * 100 + n100 * 25 + n4) * 4) by lia. apply Z.mod_add. lia. }
  assert (E100 : y mod 100 = (n4 * 4 + n1 + 1) mod 100).
  { unfold y. replace (q * 400 + 1 + n100 * 100 + n4 * 4 + n1)
      with (n4 * 4 + n1 + 1 + (q * 4 + n100) * 100) by lia. apply Z.mod_add. lia. }
  assert (E400 : y mod 400 = (n100 * 100 + n4 * 4 + n1 + 1) mod 400).
  { unfold y. replace (q * 400 + 1 + n100 * 100 + n4 * 4 + n1)
      with (n100 * 100 + n4 * 4 + n1 + 1 + q * 400) by lia. apply Z.mod_add. lia. }
  rewrite E4, E100, E400.
  destruct (Z.eqb_spec n1 3) as [-> | Hn1].
  - replace ((3 + 1) mod 4) with 0 by reflexivity. cbn [Z.eqb andb].
    destruct (Z.eqb_spec n4 24) as [-> | Hn4].
    + replace ((24 * 4 + 3 + 1) mod 100) with 0 by reflexivity. cbn [Z.eqb negb orb].
      destruct (Z.eqb_spec n100 3) as [-> | Hn100]; [reflexivity |].
      rewrite Z.mod_small by lia.
      destruct (Z.eqb_spec (n100 * 100 + 24 * 4 + 3 + 1) 0); [lia | reflexivity].
    + rewrite (Z.mod_small (n4 * 4 + 3 + 1)) by lia.
      destruct (Z.eqb_spec (n4 * 4 + 3 + 1) 0); [lia | reflexivity].
  - rewrite (Z.mod_small (n1 + 1)) by lia.
    destruct (Z.eqb_spec (n1 + 1) 0); [lia | reflexivity].
Qed.

(** The days before a year, in the same terms. *)
Lemma days_before_year_position (q n100 n4 n1 : Z) :
  0 <= n100 <= 3 -> 0 <= n4 <= 24 -> 0 <= n1 <= 3 ->
  days_before_year (q * 400 + 1 + n100 * 100 + n4 * 4 + n1)
  = q * 146097 + n100 * 36524 + n4 * 1461 + n1 * 365.
Proof.
  intros H100 H4 H1. unfold days_before_year. cbv zeta.
  replace (q * 400 + 1 + n100 * 100 + n4 * 4 + n1 - 1)
    with (q * 400 + n100 * 100 + n4 * 4 + n1) by lia.
  assert (E4 : (q * 400 + n100 * 100 + n4 * 4 + n1) / 4 = q * 100 + n100 * 25 + n4).
  { replace (q * 400 + n100 * 100 + n4 * 4 + n1)
      with (n1 + (q * 100 + n100 * 25 + n4) * 4) by lia.
    rewrite Z.div_add by lia. rewrite Z.div_small by lia. lia. }
  assert (E100 : (q * 400 + n100 * 100 + n4 * 4 + n1) / 100 = q * 4 + n100).
  { replace (q * 400 + n100 * 100 + n4 * 4 + n1)
      with (n4 * 4 + n1 + (q * 4 + n100) * 100) by lia.
    rewrite Z.div_add by lia. rewrite Z.div_small by lia. lia. }
  assert (E400 : (q * 400 + n100 * 100 + n4 * 4 + n1) / 400 = q).
  { replace (q * 400 + n100 * 100 + n4 * 4 + n1)
      with (n100 * 100 + n4 * 4 + n1 + q * 400) by lia.
    rewrite Z.div_add by lia. rewrite Z.div_small by lia. lia. }
  rewrite E4, E100, E400. lia.
Qed.

Lemma ord2ymd_unfold (n : Z) :
  ord2ymd n
  = let q := (n - 1) / 146097 in
    let r := (n - 1) mod 146097 in
    let n100 := r / 36524 in
    let r1 := r mod 36524 in
    let n4 := r1 / 1461 in
    let r2 := r1 mod 1461 in
    let n1 := r2 / 365 in
    let doy := r2 mod 365 in
    let y := q * 400 + 1 + n100 * 100 + n4 * 4 + n1 in
    let leap := (n1 =? 3) && (negb (n4 =? 24) || (n100 =? 3)) in
    if (n1 =? 4) || (n100 =? 4) then (y - 1, 12, 31)
    else (y, fst (month_and_day leap doy), snd (month_and_day leap doy)).
Proof.
  unfold ord2ymd, month_and_day, month_start, month_length. cbv zeta.
  repeat match goal with |- context [if ?b then _ else _] => destruct b end; reflexivity.
Qed.

(** Every ordinal denotes a date whose month and day exist, and is the
    ordinal of that date. *)
Lemma ord2ymd_valid (n : Z) :
  exists y m d,
    ord2ymd n = (y, m, d)
    /\ 1 <= m <= 12 /\ 1 <= d <= days_in_month y m
    /\ ymd2ord y m d = n.
Proof.
  rewrite ord2ymd_unfold. cbv zeta.
  pose proof (Z.div_mod (n - 1) 146097 ltac:(lia)) as E0.
  pose proof (Z.mod_pos_bound (n - 1) 146097 ltac:(lia)) as B0.
  set (q := (n - 1) / 146097) in *. set (r := (n - 1) mod 146097) in *.
  pose proof (Z.div_mod r 36524 ltac:(lia)) as E1.
  pose proof (Z.mod_pos_bound r 36524 ltac:(lia)) as B1.
  set (n100 := r / 36524) in *. set (r1 := r mod 36524) in *.
  pose proof (Z.div_mod r1 1461 ltac:(lia)) as E2.
  pose proof (Z.mod_pos_bound r1 1461 ltac:(lia)) as B2.
  set (n4 := r1 / 1461) in *. set (r2 := r1 mod 1461) in *.
  pose proof (Z.div_mod r2 365 ltac:(lia)) as E3.
  pose proof (Z.mod_pos_bound r2 365 ltac:(lia)) as B3.
  set (n1 := r2 / 365) in *. set (doy := r2 mod 365) in *.
  clearbody q r n100 r1 n4 r2 n1 doy.
  assert (H100 : 0 <= n100 <= 4) by lia.
  assert (H4 : 0 <= n4 <= 24) by lia.
  assert (H1 : 0 <= n1 <= 4) by lia.
  destruct (Z.eqb_spec n1 4) as [Hn1 | Hn1]; cbn [orb].
  - (* the last day of a leap year that ends a cycle of four years *)
    assert (H4' : n4 <= 23) by lia. assert (H100' : n100 <= 3) by lia.
    exists (q * 400 + 1 + n100 * 100 + n4 * 4 + n1 - 1), 12, 31.
    replace (q * 400 + 1 + n100 * 100 + n4 * 4 + n1 - 1)
      with (q * 400 + 1 + n100 * 100 + n4 * 4 + 3) by lia.
    unfold ymd2ord. rewrite days_in_month_length, days_before_month_start.
    rewrite is_leap_position, days_before_year_position by lia.
    destruct (Z.eqb_spec n4 24) as [? | _]; [lia |]. cbn.
    change (month_start true 12) with 335. repeat split; lia.
  - destruct (Z.eqb_spec n100 4) as [Hn100 | Hn100].
    + (* the last day of the 400 years *)
      exists (q * 400 + 1 + n100 * 100 + n4 * 4 + n1 - 1), 12, 31.
      replace (q * 400 + 1 + n100 * 100 + n4 * 4 + n1 - 1)
        with (q * 400 + 1 + 3 * 100 + 24 * 4 + 3) by lia.
      unfold ymd2ord. rewrite days_in_month_length, days_before_month_start.
      rewrite is_leap_position, days_before_year_position by lia.
      cbn. change (month_start true 12) with 335. repeat split; lia.
    + set (leap := (n1 =? 3) && (negb (n4 =? 24) || (n100 =? 3))).
      pose proof (day_of_year leap doy B3) as Hok. unfold day_of_year_ok in Hok.
      destruct (month_and_day leap doy) as [m d]. cbn [fst snd].
      repeat (apply andb_true_iff in Hok as [Hok ?]).
      repeat match goal with
             | H : (_ <=? _) = true |- _ => apply Z.leb_le in H
             | H : (_ =? _) = true |- _ => apply Z.eqb_eq in H
             end.
      exists (q * 400 + 1 + n100 * 100 + n4 * 4 + n1), m, d.
      unfold ymd2ord. rewrite days_in_month_length, days_before_month_start.
      rewrite is_leap_position, days_before_year_position by lia.
      fold leap. repeat split; lia.
Qed.

Lemma days_before_year_next (y : Z) :
  days_before_year (y + 1) = days_before_year y + (if is_leap y then 366 else 365).
Proof.
  unfold days_before_year, is_leap. cbv zeta.
  replace (y + 1 - 1) with (y - 1 + 1) by lia.
  destruct (Z.eqb_spec (y mod 4) 0); destruct (Z.eqb_spec (y mod 100) 0);
    destruct (Z.eqb_spec (y mod 400) 0); cbn [negb andb orb];
    Z.div_mod_to_equations; lia.
Qed.

Lemma days_before_year_increasing (y y' : Z) :
  y < y' -> days_before_year y + (if is_leap y then 366 else 365) <= days_before_year y'.
Proof.
  intros Hlt. rewrite <- days_before_year_next.
  replace y' with (y + 1 + Z.of_nat (Z.to_nat (y' - y - 1))) by lia.
  induction (Z.to_nat (y' - y - 1)) as [| j IH].
  - replace (y + 1 + Z.of_nat 0) with (y + 1) by lia. lia.
  - replace (y + 1 + Z.of_nat (S j)) with (y + 1 + Z.of_nat j + 1) by lia.
    rewrite (days_before_year_next (y + 1 + Z.of_nat j)).
    destruct (is_leap (y + 1 + Z.of_nat j)); lia.
Qed.

Lemma ymd_ltb_cases (y m d y' m' d' : Z) :
  ymd_ltb (y, m, d) (y', m', d') = true <->
  y < y' \/ (y = y' /\ (m < m' \/ (m = m' /\ d < d'))).
Proof.
  unfold ymd_ltb, lex_ltb.
  destruct (Z.ltb_spec y y'); destruct (Z.eqb_spec y y');
    destruct (Z.ltb_spec m m'); destruct (Z.eqb_spec m m');
    destruct (Z.ltb_spec d d'); destruct (Z.eqb_spec d d');
    cbn [orb andb]; split; intros Hcase; try discriminate; try reflexivity; lia.
Qed.

(** A later date has a greater ordinal. *)
Lemma ymd2ord_increasing (y m d y' m' d' : Z) :
  1 <= m <= 12 -> 1 <= d <= days_in_month y m ->
  1 <= m' <= 12 -> 1 <= d' <= days_in_month y' m' ->
  ymd_ltb (y, m, d) (y', m', d') = true ->
  ymd2ord y m d < ymd2ord y' m' d'.
Proof.
  intros Hm Hd Hm' Hd' Hlt. apply ymd_ltb_cases in Hlt.
  unfold ymd2ord. rewrite !days_before_month_start.
  rewrite days_in_month_length in Hd, Hd'.
  pose proof (month_day_within_year _ m d Hm Hd) as Hin.
  pose proof (month_day_within_year _ m' d' Hm' Hd') as Hin'.
  destruct Hlt as [Hy | [-> [Hmm | [-> Hdd]]]].
  - pose proof (days_before_year_increasing y y' Hy). lia.
  - pose proof (month_start_increasing (is_leap y') m m' ltac:(lia) Hmm ltac:(lia)). lia.
  - lia.
Qed.

Lemma ymd_ltb_total (a b : Z * Z * Z) : a = b \/ ymd_ltb a b = true \/ ymd_ltb b a = true.
Proof.
  destruct a as [[y m] d], b as [[y' m'] d']. rewrite !ymd_ltb_cases.
  destruct (Z.lt_trichotomy y y') as [? | [-> | ?]]; [lia | | lia].
  destruct (Z.lt_trichotomy m m') as [? | [-> | ?]]; [lia | | lia].
  destruct (Z.lt_trichotomy d d') as [? | [-> | ?]]; [lia | | lia].
  now left.
Qed.

(** Every ordinal is the ordinal of the date it denotes, that date has a
    month and a day that exist, and the next ordinal denotes a later date. *)
Lemma ord2ymd_spec (n : Z) :
  exists y m d,
    ord2ymd n = (y, m, d)
    /\ 1 <= m <= 12 /\ 1 <= d <= days_in_month y m
    /\ ymd2ord y m d = n
    /\ ymd_ltb (y, m, d) (ord2ymd (n + 1)) = true.
Proof.
  destruct (ord2ymd_valid n) as (y & m & d & Hn & Hm & Hd & Ho).
  destruct (ord2ymd_valid (n + 1)) as (y' & m' & d' & Hn' & Hm' & Hd' & Ho').
  exists y, m, d. rewrite Hn'. repeat split; try assumption; try lia.
  destruct (ymd_ltb_total (y, m, d) (y', m', d')) as [Heq | [Hlt | Hgt]].
  - injection Heq as -> -> ->. lia.
  - exact Hlt.
  - pose proof (ymd2ord_increasing _ _ _ _ _ _ Hm' Hd' Hm Hd Hgt). lia.
Qed.

(** A date is the date of its own ordinal. *)
Lemma ord2ymd_ymd2ord (y m d : Z) :
  1 <= m <= 12 -> 1 <= d <= days_in_month y m -> ord2ymd (ymd2ord y m d) = (y, m, d).
Proof.
  intros Hm Hd.
  destruct (ord2ymd_valid (ymd2ord y m d)) as (y' & m' & d' & Hn & Hm' & Hd' & Ho).
  rewrite Hn.
  destruct (ymd_ltb_total (y', m', d') (y, m, d)) as [Heq | [Hlt | Hgt]].
  - exact Heq.
  - pose proof (ymd2ord_increasing _ _ _ _ _ _ Hm' Hd' Hm Hd Hlt). lia.
  - pose proof (ymd2ord_increasing _ _ _ _ _ _ Hm Hd Hm' Hd' Hgt). lia.
Qed.

Lemma ymd_ltb_trans (a b c : Z * Z * Z) :
  ymd_ltb a b = true -> ymd_ltb b c = true -> ymd_ltb a c = true.
Proof.
  destruct a as [[y1 m1] d1], b as [[y2 m2] d2], c as [[y3 m3] d3].
  unfold ymd_ltb, lex_ltb. intros H1 H2.
  repeat match goal with
         | H : _ && _ = true |- _ => apply andb_true_iff in H as [? ?]
         | H : _ || _ = true |- _ => apply orb_true_iff in H as [? | ?]
         | H : (_ <? _) = true |- _ => apply Z.ltb_lt in H
         | H : (_ =? _) = true |- _ => apply Z.eqb_eq in H
         | H : false = true |- _ => discriminate H
         end;
    repeat match goal with
           | |- context [?a <? ?b] => destruct (Z.ltb_spec a b)
           | |- context [?a =? ?b] => destruct (Z.eqb_spec a b)
           end; simpl; try reflexivity; lia.
Qed.

Lemma ord2ymd_next (n : Z) : ymd_ltb (ord2ymd n) (ord2ymd (n + 1)) = true.
Proof. destruct (ord2ymd_spec n) as (y & m & d & -> & _ & _ & _ & H). exact H. Qed.

(** Later ordinals denote later dates. *)
Lemma ord2ymd_increasing (n k : Z) :
  0 < k -> ymd_ltb (ord2ymd n) (ord2ymd (n + k)) = true.
Proof.
  intros Hk. replace k with (Z.of_nat (Z.to_nat (k - 1)) + 1) by lia.
  induction (Z.to_nat (k - 1)) as [| j IH].
  - apply ord2ymd_next.
  - apply ymd_ltb_trans with (1 := IH).
    replace (n + (Z.of_nat (S j) + 1)) with (n + (Z.of_nat j + 1) + 1) by lia.
    apply ord2ymd_next.
Qed.

Lemma ymd_ltb_year (y m d y' m' d' : Z) :
  ymd_ltb (y, m, d) (y', m', d') = true -> y <= y'.
Proof.
  unfold ymd_ltb, lex_ltb. intros H.
  apply orb_true_iff in H as [H | H]; [apply Z.ltb_lt in H; lia |].
  apply andb_true_iff in H as [H _]. apply Z.eqb_eq in H. lia.
Qed.

Lemma days_before_year_step (y : Z) :
  days_before_year y + 365 <= days_before_year (y + 1).
Proof.
  unfold days_before_year. cbv zeta.
  replace (y + 1 - 1) with (y - 1 + 1) by lia.
  pose proof (Z.div_mod (y - 1) 4 ltac:(lia)).
  pose proof (Z.mod_pos_bound (y - 1) 4 ltac:(lia)).
  pose proof (Z.div_mod (y - 1 + 1) 4 ltac:(lia)).
  pose proof (Z.mod_pos_bound (y - 1 + 1) 4 ltac:(lia)).
  pose proof (Z.div_mod (y - 1) 100 ltac:(lia)).
  pose proof (Z.mod_pos_bound (y - 1) 100 ltac:(lia)).
  pose proof (Z.div_mod (y - 1 + 1) 100 ltac:(lia)).
  pose proof (Z.mod_pos_bound (y - 1 + 1) 100 ltac:(lia)).
  pose proof (Z.div_mod (y - 1) 400 ltac:(lia)).
  pose proof (Z.mod_pos_bound (y - 1) 400 ltac:(lia)).
  pose proof (Z.div_mod (y - 1 + 1) 400 ltac:(lia)).
  pose proof (Z.mod_pos_bound (y - 1 + 1) 400 ltac:(lia)).
  lia.
Qed.

Lemma days_before_month_nonneg (y m : Z) : 0 <= days_before_month y m.
Proof.
  unfold days_before_month, days_before_month_common.
  assert (0 <= nth (Z.to_nat m) [0; 0; 31; 59; 90; 120; 151; 181; 212; 243; 273; 304; 334] 0).
  { generalize (Z.to_nat m). intros k.
    do 13 (destruct k as [| k]; [simpl; lia |]). simpl. destruct k; lia. }
  destruct ((2 <? m) && is_leap y); lia.
Qed.

(** Going back at most a year from a valid date of year 2 or later gives a
    valid date of that year or the year before. *)
Lemma minus_days_valid (t : datetime) (i : Z) :
  valid_datetime t = true -> 2 <= year t -> 0 <= i <= 365 ->
  valid_datetime (minus_days t i) = true
  /\ year t - 1 <= year (minus_days t i) <= year t.
Proof.
  unfold valid_datetime, valid_date, valid_time, minus_days. intros Hv Hy Hi.
  repeat (apply andb_true_iff in Hv as [Hv ?]).
  repeat match goal with
         | H : (_ <=? _) = true |- _ => apply Z.leb_le in H
         end.
  set (o := ymd2ord (year t) (month t) (day t)).
  destruct (ord2ymd_spec (o - i)) as (y & m & d & Ho & Hm & Hd & _ & _).
  rewrite Ho. simpl.
  assert (Hup : y <= year t).
  { destruct (Z.eq_dec i 0) as [-> | Hne].
    - replace (o - 0) with o in Ho by lia. unfold o in Ho.
      rewrite ord2ymd_ymd2ord in Ho by lia. injection Ho as <- _ _. lia.
    - pose proof (ord2ymd_increasing (o - i) i ltac:(lia)) as Hlt.
      replace (o - i + i) with o in Hlt by lia. unfold o in Hlt at 2.
      rewrite ord2ymd_ymd2ord, Ho in Hlt by lia.
      eapply ymd_ltb_year. exact Hlt. }
  assert (Hlow : year t - 1 <= y).
  { assert (Hord : ymd2ord (year t - 1) 1 1 <= o - i).
    { unfold o, ymd2ord. pose proof (days_before_year_step (year t - 1)) as Hs.
      replace (year t - 1 + 1) with (year t) in Hs by lia.
      pose proof (days_before_month_nonneg (year t) (month t)).
      change (days_before_month (year t - 1) 1) with 0. lia. }
    destruct (Z.eq_dec (ymd2ord (year t - 1) 1 1) (o - i)) as [Heq | Hne].
    - rewrite <- Heq, ord2ymd_ymd2ord in Ho; [injection Ho as <- _ _; lia | lia |].
      unfold days_in_month. simpl. lia.
    - pose proof (ord2ymd_increasing (ymd2ord (year t - 1) 1 1)
                    (o - i - ymd2ord (year t - 1) 1 1) ltac:(lia)) as Hlt.
      replace (ymd2ord (year t - 1) 1 1 + (o - i - ymd2ord (year t - 1) 1 1))
        with (o - i) in Hlt by lia.
      rewrite ord2ymd_ymd2ord, Ho in Hlt; [| lia | unfold days_in_month; simpl; lia].
      eapply ymd_ltb_year. exact Hlt. }
  split; [| lia].
  repeat (apply andb_true_iff; split); apply Z.leb_le; lia.
Qed.

(** The day 31 days back is before the day 30 days back. *)
Lemma minus_31_before_minus_30 (t : datetime) :
  dt_ltb (minus_days t 31) (minus_days t 30) = true.
Proof.
  unfold minus_days.
  set (o := ymd2ord (year t) (month t) (day t)).
  pose proof (ord2ymd_next (o - 31)) as H.
  replace (o - 31 + 1) with (o - 30) in H by lia.
  destruct (ord2ymd (o - 31)) as [[y m] d]. destruct (ord2ymd (o - 30)) as [[y' m'] d'].
  unfold dt_ltb, fields. simpl. unfold ymd_ltb, lex_ltb in H.
  rewrite !Z.ltb_irrefl, !Z.eqb_refl. simpl. exact H.
Qed.

(** ** Strings *)

Lemma app_cons (c : ascii) (a b : string) : String c a +:+ b = String c (a +:+ b).
Proof. reflexivity. Qed.

Lemma app_nil_l (b : string) : "" +:+ b = b.
Proof. reflexivity. Qed.

(** ** Reading back what [strftime] wrote *)

Ltac decimal_cases a :=
  let H := fresh in
  assert (H : a = 0 \/ a = 1 \/ a = 2 \/ a = 3 \/ a = 4 \/ a = 5 \/ a = 6 \/ a = 7
              \/ a = 8 \/ a = 9) by lia;
  repeat (destruct H as [H | H]; [subst a |]); [.. | subst a].

Lemma p_digit_char (a : Z) (s : string) :
  0 <= a <= 9 -> p_digit (String (digit_char a) s) = Ok (a, s).
Proof. intros H. decimal_cases a; reflexivity. Qed.

Lemma p_num2_chars (a b : Z) (s : string) :
  0 <= a <= 9 -> 0 <= b <= 9 ->
  p_num2 (String (digit_char a) (String (digit_char b) s)) = Ok (10 * a + b, s).
Proof. intros Ha Hb. decimal_cases a; decimal_cases b; reflexivity. Qed.

Lemma digit_char_not_space (a : Z) : 0 <= a <= 9 -> Ascii.eqb (digit_char a) " " = false.
Proof. intros H. decimal_cases a; reflexivity. Qed.

Lemma digit_range (x : Z) : 0 <= x mod 10 <= 9.
Proof. pose proof (Z.mod_pos_bound x 10 ltac:(lia)). lia. Qed.

Lemma p_Y_pad4 (y : Z) (s : string) :
  0 <= y <= 9999 -> p_Y (pad4 y +:+ s) = Ok (y, s).
Proof.
  intros Hy. unfold p_Y, pad4, pad2, pbind, pret. rewrite ?app_cons, ?app_nil_l.
  rewrite !p_digit_char by (apply digit_range).
  do 2 f_equal.
  pose proof (Z.div_mod y 1000 ltac:(lia)). pose proof (Z.mod_pos_bound y 1000 ltac:(lia)).
  pose proof (Z.div_mod y 100 ltac:(lia)). pose proof (Z.mod_pos_bound y 100 ltac:(lia)).
  pose proof (Z.div_mod y 10 ltac:(lia)). pose proof (Z.mod_pos_bound y 10 ltac:(lia)).
  pose proof (Z.div_mod (y / 1000) 10 ltac:(lia)).
  pose proof (Z.mod_pos_bound (y / 1000) 10 ltac:(lia)).
  pose proof (Z.div_mod (y / 100) 10 ltac:(lia)).
  pose proof (Z.mod_pos_bound (y / 100) 10 ltac:(lia)).
  pose proof (Z.div_mod (y / 10) 10 ltac:(lia)).
  pose proof (Z.mod_pos_bound (y / 10) 10 ltac:(lia)).
  lia.
Qed.

Lemma pad2_value (n : Z) : 0 <= n <= 99 -> 10 * (n / 10 mod 10) + n mod 10 = n.
Proof.
  intros Hn.
  pose proof (Z.div_mod n 10 ltac:(lia)). pose proof (Z.mod_pos_bound n 10 ltac:(lia)).
  pose proof (Z.div_mod (n / 10) 10 ltac:(lia)).
  pose proof (Z.mod_pos_bound (n / 10) 10 ltac:(lia)).
  lia.
Qed.

Lemma p_num2_pad2 (n : Z) (s : string) :
  0 <= n <= 99 -> p_num2 (pad2 n +:+ s) = Ok (n, s).
Proof.
  intros Hn. unfold pad2. rewrite ?app_cons, ?app_nil_l.
  rewrite p_num2_chars by (apply digit_range).
  now rewrite pad2_value.
Qed.

Lemma p_range_pad2 (lo hi n : Z) (s : string) :
  0 <= n <= 99 -> lo <= n <= hi -> p_range lo hi p_num2 (pad2 n +:+ s) = Ok (n, s).
Proof.
  intros Hn Hr. unfold p_range, pbind. rewrite p_num2_pad2 by exact Hn.
  destruct (Z.leb_spec lo n); [| lia]. destruct (Z.leb_spec n hi); [| lia]. reflexivity.
Qed.

Lemma p_d_pad2 (n : Z) (s : string) :
  1 <= n <= 31 -> p_d (pad2 n +:+ s) = Ok (n, s).
Proof.
  intros Hn. pose proof (p_range_pad2 1 31 n s ltac:(lia) Hn) as H.
  unfold p_d, pad2 in *. rewrite ?app_cons, ?app_nil_l in *.
  rewrite digit_char_not_space by (apply digit_range). exact H.
Qed.

Lemma p_lit_app (c : ascii) (s : string) : p_lit c (String c "" +:+ s) = Ok (tt, s).
Proof. unfold p_lit. rewrite app_cons, app_nil_l, Ascii.eqb_refl. reflexivity. Qed.

Lemma days_in_month_le_31 (y m : Z) : days_in_month y m <= 31.
Proof.
  unfold days_in_month.
  repeat match goal with |- context [if ?b then _ else _] => destruct b end; lia.
Qed.

(** [strptime] reads a day written by [strftime('%Y-%m-%d')] back as that
    day, at midnight. *)
Lemma strptime_ymd_strftime (t : datetime) :
  valid_date (year t) (month t) (day t) = true ->
  strptime_ymd (strftime_ymd t) = Ok (mkdt (year t) (month t) (day t) 0 0 0 0).
Proof.
  intros Hv. pose proof Hv as Hv'. unfold valid_date in Hv'.
  repeat (apply andb_true_iff in Hv' as [Hv' ?]).
  repeat match goal with H : (_ <=? _) = true |- _ => apply Z.leb_le in H end.
  pose proof (days_in_month_le_31 (year t) (month t)).
  unfold strptime_ymd, strftime_ymd, run_parser, pbind.
  rewrite p_Y_pad4 by lia.
  rewrite p_lit_app. unfold p_m. rewrite p_range_pad2 by lia.
  rewrite p_lit_app.
  change (pad2 (day t)) with (pad2 (day t) +:+ "").
  rewrite p_d_pad2 by lia. simpl.
  unfold make_datetime. rewrite Hv. reflexivity.
Qed.

(** ** Chart renderer: bars *)

Lemma bars_checked : forallb bars_agree_up_to (range 1 count_limit) = true.
Proof. vm_cast_no_check (eq_refl true). Qed.

(** For counts up to [count_limit] the binary64 computation
    [int((count / max_events) * 20)] is [floor(20 * count / max_events)]. *)
Lemma bar_length_floor (count max : Z) :
  0 <= count <= max -> 1 <= max <= count_limit ->
  bar_length count max = Ok (20 * count / max).
Proof.
  intros Hc Hm. pose proof bars_checked as Hall.
  rewrite forallb_forall in Hall.
  specialize (Hall max (in_range 1 count_limit max ltac:(lia))).
  unfold bars_agree_up_to in Hall. rewrite forallb_forall in Hall.
  specialize (Hall count (in_range 0 (max + 1) count ltac:(lia))).
  unfold bar_agrees in Hall.
  destruct (bar_length count max) as [n | e]; [| discriminate].
  apply Z.eqb_eq in Hall. now subst.
Qed.

Lemma bar_length_no_max (count max : Z) : max <= 0 -> bar_length count max = Ok 0.
Proof.
  intros H. unfold bar_length. destruct (Z.ltb_spec 0 max); [lia | reflexivity].
Qed.

Lemma fold_max_ge (xs : list Z) (a : Z) :
  a <= fold_left Z.max xs a /\ forall x, In x xs -> x <= fold_left Z.max xs a.
Proof.
  revert a. induction xs as [| y ys IH]; intros a; simpl; [split; [lia | tauto] |].
  destruct (IH (Z.max a y)) as [H1 H2]. split; [lia |].
  intros x [-> | Hx]; [lia | auto].
Qed.

Lemma fold_max_in (xs : list Z) (a : Z) : In (fold_left Z.max xs a) (a :: xs).
Proof.
  revert a. induction xs as [| y ys IH]; intros a; simpl; [auto |].
  destruct (IH (Z.max a y)) as [H | H]; [| auto].
  rewrite <- H. destruct (Z.max_spec a y) as [[_ ->] | [_ ->]]; auto.
Qed.

Lemma max_list_ge (xs : list Z) (x : Z) : In x xs -> x <= max_list xs.
Proof.
  destruct xs as [| a xs]; [intros [] |]. simpl.
  destruct (fold_max_ge xs a) as [H1 H2]. intros [<- | Hx]; auto.
Qed.

Lemma max_list_in (xs : list Z) : xs <> [] -> In (max_list xs) xs.
Proof. destruct xs as [| a xs]; [congruence | intros _; apply fold_max_in]. Qed.

Lemma in_values (d : gmap string Z) (v : Z) :
  In v (values d) <-> exists k, d !! k = Some v.
Proof.
  unfold values. rewrite <- list_elem_of_In, list_elem_of_fmap. split.
  - intros [[k v'] [-> Hkv]]. exists k. now apply elem_of_map_to_list.
  - intros [k Hk]. exists (k, v). split; [reflexivity | now apply elem_of_map_to_list].
Qed.

Lemma values_nonempty (d : gmap string Z) : d <> ∅ -> values d <> [].
Proof.
  intros Hne Hnil. apply Hne. apply map_to_list_empty_iff.
  unfold values in Hnil. destruct (map_to_list d); [reflexivity | discriminate].
Qed.

(** [max(events_by_day.values())] is one of the counts and bounds them all. *)
Lemma max_of_values (d : gmap string Z) :
  d <> ∅ ->
  (exists k, d !! k = Some (max_list (values d)))
  /\ (forall k v, d !! k = Some v -> v <= max_list (values d)).
Proof.
  intros Hne. split.
  - apply in_values, max_list_in, values_nonempty, Hne.
  - intros k v Hk. apply max_list_ge, in_values. eauto.
Qed.

Lemma map_result_map {A B C : Type} (f : B -> result C) (g : A -> B) (h : A -> C)
  (xs : list A) :
  (forall x, In x xs -> f (g x) = Ok (h x)) ->
  map_result f (List.map g xs) = Ok (List.map h xs).
Proof.
  induction xs as [| x xs IH]; intros H; simpl; [reflexivity |].
  rewrite (H x (or_introl eq_refl)). simpl.
  rewrite IH by (intros y Hy; apply H; now right). reflexivity.
Qed.

Lemma rendered_days_range (today : datetime) :
  List.map (fun i => strftime_ymd (minus_days today i)) range_29_down
  = List.map strftime_ymd (rendered_days today).
Proof. reflexivity. Qed.

Lemma in_rendered_days (today d : datetime) :
  In d (rendered_days today) -> exists i, 0 <= i <= 29 /\ d = minus_days today i.
Proof.
  unfold rendered_days. intros H. apply in_map_iff in H as (i & <- & Hi).
  apply in_seq in Hi. exists (29 - Z.of_nat i). split; [lia | reflexivity].
Qed.

(** The ordinal of the day reached by going back [i] days is [i] less. *)
Lemma minus_days_ordinal (t : datetime) (i : Z) :
  toordinal (minus_days t i) = toordinal t - i.
Proof.
  unfold toordinal, minus_days.
  destruct (ord2ymd_spec (ymd2ord (year t) (month t) (day t) - i))
    as (y & m & d & -> & _ & _ & H & _).
  exact H.
Qed.

(** One line of the chart: the count of the day, a bar of
    [floor(20 * count / max)] fill units, the day as month/day. *)
Lemma chart_line_rendered (events_by_day : gmap string Z) (max : Z) (d : datetime) :
  valid_datetime d = true ->
  (forall k v, events_by_day !! k = Some v -> 0 <= v <= max) ->
  0 <= max <= count_limit ->
  chart_line events_by_day max (strftime_ymd d) = Ok (day_line events_by_day max d).
Proof.
  intros Hv Hcounts Hmax. unfold chart_line, day_line.
  set (count := default 0 (events_by_day !! strftime_ymd d)).
  assert (Hc : 0 <= count <= max).
  { unfold count. destruct (events_by_day !! strftime_ymd d) as [v |] eqn:Hk; simpl.
    - eapply Hcounts, Hk.
    - lia. }
  assert (Hbar : bar_length count max = Ok (20 * count / max)).
  { destruct (Z.eq_dec max 0) as [-> | Hne].
    - rewrite bar_length_no_max by lia. now rewrite Z.div_0_r.
    - apply bar_length_floor; lia. }
  rewrite Hbar. simpl.
  unfold valid_datetime in Hv. apply andb_true_iff in Hv as [Hv _].
  apply andb_true_iff in Hv as [Hv _]. apply andb_true_iff in Hv as [Hv _].
  rewrite strptime_ymd_strftime by exact Hv. reflexivity.
Qed.

Lemma four_digit_years_rendered (today d : datetime) :
  four_digit_years today = true -> In d (rendered_days today) ->
  valid_datetime d = true /\ 1000 <= year d <= 9999.
Proof.
  unfold four_digit_years. intros H Hd.
  apply andb_true_iff in H as [Hv Hy]. apply Z.leb_le in Hy.
  apply in_rendered_days in Hd as (i & Hi & ->).
  destruct (minus_days_valid today i Hv ltac:(lia) ltac:(lia)) as [Hv' Hy'].
  split; [exact Hv' |].
  unfold valid_datetime, valid_date in Hv.
  repeat (apply andb_true_iff in Hv as [Hv ?]).
  repeat match goal with H : (_ <=? _) = true |- _ => apply Z.leb_le in H end.
  lia.
Qed.

(** C5, as the code has it.  For a non-empty map whose counts are between 0
    and [count_limit], [create_activity_chart] returns the chart block with
    one line per day for the trailing 30 calendar days, oldest first (their
    ordinals are the 30 that end at today's); the bar of a day has
    [floor(20 * count / max)] fill units, where [max] is the largest count
    of the whole map, also of the days that are not rendered.  A day whose
    count is [max] (when positive) gets 20 units, a lesser count fewer. *)
Theorem chart_scaled_by_largest_count (today : datetime) (events_by_day : gmap string Z) :
  events_by_day <> ∅ -> four_digit_years today = true ->
  (forall k v, events_by_day !! k = Some v -> 0 <= v <= count_limit) ->
  exists max,
    (exists k, events_by_day !! k = Some max)
    /\ (forall k v, events_by_day !! k = Some v -> v <= max)
    /\ create_activity_chart today events_by_day = Ok (chart_text events_by_day max today)
    /\ List.map toordinal (rendered_days today)
       = List.map (fun i => toordinal today - 29 + Z.of_nat i) (seq 0 30)
    /\ (0 < max -> 20 * max / max = 20)
    /\ (forall count, 0 <= count < max -> 0 <= 20 * count / max < 20).
Proof.
  intros Hne Hyears Hcounts.
  destruct (max_of_values events_by_day Hne) as [[kmax Hkmax] Hbound].
  exists (max_list (values events_by_day)).
  split; [eauto |]. split; [exact Hbound |]. split; [| split; [| split]].
  - unfold create_activity_chart, chart_text.
    rewrite !bool_decide_eq_false_2 by exact Hne.
    rewrite rendered_days_range.
    rewrite (map_result_map _ _ (day_line events_by_day (max_list (values events_by_day)))).
    + reflexivity.
    + intros d Hd.
      destruct (four_digit_years_rendered today d Hyears Hd) as [Hv _].
      apply chart_line_rendered; [exact Hv | |].
      * intros k v Hk. split; [apply (Hcounts k v Hk) | apply (Hbound k v Hk)].
      * pose proof (Hcounts kmax _ Hkmax). lia.
  - unfold rendered_days. rewrite map_map. apply map_ext. intros i.
    rewrite minus_days_ordinal. lia.
  - intros Hpos. apply Z.div_mul. lia.
  - intros count Hc. split.
    + apply Z.div_pos; lia.
    + apply Z.div_lt_upper_bound; lia.
Qed.

Lemma sample_edge_days_listed :
  map_to_list sample_edge_days = [("2026-11-03", 1); ("2026-10-04", 2)].
Proof. vm_compute. reflexivity. Qed.

Lemma sample_edge_days_nonempty : sample_edge_days <> ∅.
Proof.
  intros H. apply map_to_list_empty_iff in H.
  rewrite sample_edge_days_listed in H. discriminate H.
Qed.

Lemma chart_scaled_by_largest_count_witness :
  sample_edge_days <> ∅
  /\ four_digit_years sample_now = true
  /\ (forall k v, sample_edge_days !! k = Some v -> 0 <= v <= count_limit)
  /\ exists max,
       (exists k, sample_edge_days !! k = Some max)
       /\ (forall k v, sample_edge_days !! k = Some v -> v <= max)
       /\ create_activity_chart sample_now sample_edge_days
          = Ok (chart_text sample_edge_days max sample_now)
       /\ List.map toordinal (rendered_days sample_now)
          = List.map (fun i => toordinal sample_now - 29 + Z.of_nat i) (seq 0 30)
       /\ (0 < max -> 20 * max / max = 20)
       /\ (forall count, 0 <= count < max -> 0 <= 20 * count / max < 20).
Proof.
  assert (Hy : four_digit_years sample_now = true) by reflexivity.
  assert (Hc : forall k v, sample_edge_days !! k = Some v -> 0 <= v <= count_limit).
  { intros k v H. apply elem_of_map_to_list in H.
    rewrite sample_edge_days_listed in H. apply list_elem_of_In in H. simpl in H.
    unfold count_limit.
    destruct H as [H | [H | []]]; injection H as <- <-; lia. }
  split; [exact sample_edge_days_nonempty |].
  split; [exact Hy |]. split; [exact Hc |].
  exact (chart_scaled_by_largest_count sample_now sample_edge_days
           sample_edge_days_nonempty Hy Hc).
Defined.

(** C5 as the specification words it takes the maximum over the 30 rendered
    days.  The aggregator's window reaches back 30 times 24 hours, into a
    31st calendar day that the chart does not render: with two events on
    that day and one today, today holds the largest rendered count (1) but
    its bar has 10 fill units, not 20, because the scale is the largest
    count of the map (2). *)
Lemma chart_max_not_of_rendered_days :
  analyze_events sample_now sample_edge_events
  = Ok (mk_stats 0 0 0 0 0 2 0 3 0 sample_edge_days)
  /\ rendered_max sample_edge_days sample_now = 1
  /\ create_activity_chart sample_now sample_edge_days
     = Ok (chart_text sample_edge_days 2 sample_now)
  /\ create_activity_chart sample_now sample_edge_days
     <> Ok (chart_text sample_edge_days (rendered_max sample_edge_days sample_now)
              sample_now).
Proof.
  split; [vm_compute; reflexivity |].
  split; [vm_compute; reflexivity |].
  split; [vm_compute; reflexivity |].
  intros H. vm_compute in H. discriminate H.
Qed.

(** ** Event fetcher *)

Ltac stops_here :=
  exists 0%nat; unfold ends_at; cbn [Z.of_nat]; rewrite ?Z.add_0_r;
  unfold requests; cbn [range_from List.map collect fst snd];
  split; [lia |]; split; [intros i Hi; lia |]; split; [reflexivity |].

Lemma fetch_loop_spec (api : events_api) (clock : Z -> datetime) (fuel : nat) :
  forall (page : Z) (acc : list json),
    1 <= page <= 10 -> Z.of_nat fuel = 12 - page ->
    exists n : nat,
      page + Z.of_nat n <= 10
      /\ (forall i : nat, (i < n)%nat -> goes_on api clock (page + Z.of_nat i))
      /\ fst (fetch_loop fuel api clock page acc) = requests page (S n)
      /\ ends_at api clock page n acc (snd (fetch_loop fuel api clock page acc)).
Proof.
  induction fuel as [| fuel IH]; intros page acc Hpage Hfuel; [lia |].
  cbn [fetch_loop]. destruct (Z.leb_spec page 10) as [_ | Hgt]; [| lia].
  destruct (Z.eqb_spec (status_code (api page per_page)) 200) as [Hst | Hst]; cbn [negb].
  2: { stops_here. left. split; [exact Hst | now rewrite app_nil_r]. }
  destruct (body (api page per_page)) as [| ev evs] eqn:Hbody.
  { stops_here. right; left. split; [split; assumption | now rewrite app_nil_r]. }
  destruct (event_date (last_event (ev :: evs))) as [d | e] eqn:Hdate.
  2: { stops_here. do 4 right. exists e. split; [| reflexivity].
       unfold unreadable. rewrite Hbody.
       split; [exact Hst |]. split; [discriminate | exact Hdate]. }
  destruct (dt_ltb d (minus_days (clock page) 30)) eqn:Hold.
  { stops_here. do 2 right; left. split.
    - unfold oldest_outside. rewrite Hbody.
      split; [exact Hst |]. split; [discriminate | eauto].
    - now rewrite Hbody, app_nil_r. }
  assert (Hgo : goes_on api clock page).
  { unfold goes_on. rewrite Hbody. split; [exact Hst |]. split; [discriminate | eauto]. }
  destruct (Z.eq_dec page 10) as [-> | Hlt].
  - assert (Hf : fuel = 1%nat) by lia. subst fuel. cbn [fetch_loop Z.leb Z.compare Pos.compare Pos.compare_cont].
    stops_here. do 3 right; left. split; [reflexivity |]. split; [exact Hgo |].
    now rewrite Hbody, app_nil_r.
  - destruct (IH (page + 1) (acc ++ ev :: evs) ltac:(lia) ltac:(lia))
      as (n & Hn & Hbefore & Hreq & Hend).
    destruct (fetch_loop fuel api clock (page + 1) (acc ++ ev :: evs)) as [requested r].
    cbn [fst snd] in *. exists (S n).
    split; [lia |]. split; [| split].
    + intros [| i] Hi; [now rewrite Z.add_0_r |].
      replace (page + Z.of_nat (S i)) with (page + 1 + Z.of_nat i) by lia.
      apply Hbefore. lia.
    + rewrite Hreq. reflexivity.
    + unfold ends_at in *.
      replace (page + Z.of_nat (S n)) with (page + 1 + Z.of_nat n) by lia.
      cbn [collect] in *. rewrite Hbody. rewrite <- !app_assoc in Hend.
      exact Hend.
Qed.

Lemma in_range_from_inv (n : nat) (lo x : Z) :
  In x (range_from lo n) -> lo <= x < lo + Z.of_nat n.
Proof.
  revert lo. induction n as [| n IH]; intros lo; cbn [range_from]; [intros [] |].
  intros [<- | H]; [lia |]. apply IH in H. lia.
Qed.

Lemma in_requests (n : nat) (lo p : Z) :
  In (p, per_page) (requests lo n) -> lo <= p < lo + Z.of_nat n.
Proof.
  unfold requests. intros H. apply in_map_iff in H as (x & Hx & Hin).
  injection Hx as ->. now apply in_range_from_inv.
Qed.

(** The loop in the terms of its own code: the pages requested, and the
    reason for which the loop ends at the last of them. *)
Lemma fetch_loop_stops (api : events_api) (clock : Z -> datetime) :
  exists n : nat,
    1 + Z.of_nat n <= 10
    /\ fst (fetch_user_events api clock) = requests 1 (S n)
    /\ (forall p, 1 <= p < 1 + Z.of_nat n -> goes_on api clock p)
    /\ ends_at api clock 1 n [] (snd (fetch_user_events api clock))
    /\ (forall p, In (p, per_page) (fst (fetch_user_events api clock)) -> not_success api p ->
          p = 1 + Z.of_nat n
          /\ snd (fetch_user_events api clock) = Ok (collect api 1 n))
    /\ (forall p, In (p, per_page) (fst (fetch_user_events api clock)) ->
          status_code (api p per_page) = 200 -> body (api p per_page) <> [] ->
          event_date (last_event (body (api p per_page))) = Ok (minus_days (clock p) 31) ->
          p = 1 + Z.of_nat n
          /\ snd (fetch_user_events api clock) = Ok (collect api 1 (S n))).
Proof.
  unfold fetch_user_events.
  destruct (fetch_loop_spec api clock 11 1 [] ltac:(lia) ltac:(lia))
    as (n & Hn & Hbefore & Hreq & Hend).
  assert (Hgo : forall p, 1 <= p < 1 + Z.of_nat n -> goes_on api clock p).
  { intros p Hp. replace p with (1 + Z.of_nat (Z.to_nat (p - 1))) by lia.
    apply Hbefore. lia. }
  exists n. split; [exact Hn |]. split; [exact Hreq |].
  split; [exact Hgo |]. split; [exact Hend |]. split.
  - intros p Hp Hfail. rewrite Hreq in Hp. apply in_requests in Hp.
    assert (Hk : p = 1 + Z.of_nat n).
    { destruct (Z.eq_dec p (1 + Z.of_nat n)) as [-> | Hne]; [reflexivity |].
      destruct (Hgo p ltac:(lia)) as (Hst & _). contradiction. }
    split; [exact Hk |]. subst p. unfold ends_at in Hend. cbn [app] in Hend.
    destruct Hend as [[_ Hr] | [[[Hst _] _] | [[[Hst _] _] | [(_ & [Hst _] & _) | (e & [Hst _] & _)]]]];
      [exact Hr | contradiction ..].
  - intros p Hp Hst Hbody Hdate. rewrite Hreq in Hp. apply in_requests in Hp.
    pose proof (minus_31_before_minus_30 (clock p)) as Hold.
    assert (Hk : p = 1 + Z.of_nat n).
    { destruct (Z.eq_dec p (1 + Z.of_nat n)) as [-> | Hne]; [reflexivity |].
      destruct (Hgo p ltac:(lia)) as (_ & _ & d & Hd & Hin).
      rewrite Hdate in Hd. injection Hd as <-. congruence. }
    split; [exact Hk |]. subst p. unfold ends_at in Hend. cbn [app] in Hend.
    destruct Hend as [[Hfail _] | [[[_ He] _] | [[_ Hr] | [(_ & (_ & _ & d & Hd & Hin) & _) | (e & (_ & _ & He) & _)]]]].
    + contradiction.
    + contradiction.
    + exact Hr.
    + rewrite Hdate in Hd. injection Hd as <-. congruence.
    + congruence.
Qed.

(** *** The stopping rule, in the words of the specification *)

Lemma pages_through_collect (api : events_api) (k : nat) :
  collect api 1 k = pages_through api k.
Proof.
  unfold pages_through, answer. generalize 1. induction k as [| k IH]; intros p.
  - reflexivity.
  - cbn [collect range_from List.map concat]. now rewrite IH.
Qed.

(** [page_events[-1]] is the event that the page lists last. *)
Lemma last_event_oldest (page_events : list json) :
  page_events <> [] -> oldest_on page_events (last_event page_events).
Proof.
  intros Hne. destruct (exists_last Hne) as (newer & e & ->).
  exists newer. unfold last_event. now rewrite last_last.
Qed.

Lemma oldest_on_unique (page_events : list json) (e e' : json) :
  oldest_on page_events e -> oldest_on page_events e' -> e = e'.
Proof.
  intros [newer ->] [newer' H]. apply app_inj_tail in H. tauto.
Qed.

Lemma oldest_on_not_empty (page_events : list json) (e : json) :
  oldest_on page_events e -> page_events <> [].
Proof. intros [newer ->]. destruct newer; discriminate. Qed.

(** What [datetime.strptime(e['created_at'], ...)] returns is the time
    written in the event. *)
Lemma event_date_stamped (e : json) (d : datetime) : event_date e = Ok d <-> stamped e d.
Proof.
  unfold event_date, stamped, subscript, as_str, at_path. split.
  - intros H. destruct e; try discriminate H.
    destruct (assoc "created_at" members) as [[] |]; try discriminate H. simpl in H. eauto.
  - intros (s & Hs & Hd). destruct e; try discriminate Hs.
    destruct (assoc "created_at" members) as [v |]; [| discriminate Hs].
    injection Hs as ->. exact Hd.
Qed.

Lemma goes_on_within (api : events_api) (clock : Z -> datetime) (p : Z) :
  goes_on api clock p -> page_within api (clock p) p.
Proof.
  intros (Hst & Hbody & d & Hd & Hin). split; [exact Hst |].
  exists (last_event (body (api p per_page))), d.
  split; [now apply last_event_oldest |]. split; [now apply event_date_stamped |].
  unfold before_window. now rewrite Hin.
Qed.

(** C6. [fetch_user_events] requests the pages 1, 2, ... up to a page [k] of
    at most 10, each for 30 events.  Every page before [k] was answered with
    success and had its oldest event, the one listed last, inside the 30-day
    window; page [k] is where a reason to stop first holds: a non-success
    answer (the events of the earlier pages are returned, nothing is
    raised), an empty page, an oldest event before the window (its page is
    kept), or the ceiling of 10 pages.  A page whose oldest event is stamped
    exactly 31 days before the clock is the last page requested.  The one
    other way to end is an oldest event whose timestamp cannot be read, which
    raises. *)
Theorem fetch_stops_exactly (api : events_api) (clock : Z -> datetime) :
  exists k : nat,
    (1 <= k <= 10)%nat
    /\ fst (fetch_user_events api clock) = requests_through k
    /\ (forall p, 1 <= p < Z.of_nat k -> page_within api (clock p) p)
    /\ stop_at api (clock (Z.of_nat k)) k (snd (fetch_user_events api clock))
    /\ (forall p, In (p, 30) (fst (fetch_user_events api clock)) ->
          status_code (answer api p) <> 200 ->
          p = Z.of_nat k
          /\ snd (fetch_user_events api clock) = Ok (pages_through api (k - 1)))
    /\ (forall p e, In (p, 30) (fst (fetch_user_events api clock)) ->
          status_code (answer api p) = 200 ->
          oldest_on (body (answer api p)) e -> stamped e (minus_days (clock p) 31) ->
          p = Z.of_nat k
          /\ snd (fetch_user_events api clock) = Ok (pages_through api k)).
Proof.
  destruct (fetch_loop_stops api clock) as (n & Hn & Hreq & Hgo & Hend & Hfail & Hold).
  assert (HZ : 1 + Z.of_nat n = Z.of_nat (S n)) by lia.
  assert (Hpred : collect api 1 n = pages_through api (S n - 1)).
  { rewrite pages_through_collect. f_equal. lia. }
  exists (S n). split; [lia |]. split; [now rewrite Hreq |].
  split; [intros p Hp; apply goes_on_within, Hgo; lia |].
  split; [| split].
  - unfold ends_at in Hend. cbn [app] in Hend. rewrite HZ in Hend.
    destruct Hend as [[Hst ->] | [[[Hst Hbody] ->] | [[(Hst & Hbody & d & Hd & Hin) ->]
                     | [(Hten & Hgo10 & ->) | (x & (Hst & Hbody & Hx) & ->)]]]];
      rewrite ?Hpred, ?pages_through_collect.
    + apply stop_failed. exact Hst.
    + apply stop_empty; assumption.
    + eapply stop_old; [exact Hst | apply last_event_oldest, Hbody | | exact Hin].
      apply event_date_stamped, Hd.
    + assert (Hk : S n = 10%nat) by lia. rewrite Hk in *.
      apply stop_ceiling; [reflexivity |]. apply goes_on_within, Hgo10.
    + eapply stop_unreadable; [exact Hst | apply last_event_oldest, Hbody |].
      intros d Hd. apply event_date_stamped in Hd.
      discriminate (eq_trans (eq_sym Hx) Hd).
  - intros p Hp Hst. rewrite <- Hpred, <- HZ. apply (Hfail p Hp Hst).
  - intros p e Hp Hst He Hd.
    pose proof (oldest_on_not_empty _ _ He) as Hbody.
    rewrite <- pages_through_collect, <- HZ.
    apply (Hold p Hp Hst Hbody).
    pose proof (oldest_on_unique _ _ _ (last_event_oldest _ Hbody) He) as Hlast.
    unfold answer in Hlast. change 30 with per_page in Hlast. rewrite Hlast.
    apply event_date_stamped, Hd.
Qed.

Lemma fetch_stops_exactly_witness :
  fst (fetch_user_events sample_api sample_clock) = [(1, 30); (2, 30); (3, 30)]
  /\ oldest_on (body (answer sample_api 3))
       (mk_event "2026-10-03T12:00:00Z" "WatchEvent" "me/b" [])
  /\ stamped (mk_event "2026-10-03T12:00:00Z" "WatchEvent" "me/b" [])
       (minus_days (sample_clock 3) 31)
  /\ snd (fetch_user_events sample_api sample_clock)
     = Ok (body (answer sample_api 1) ++ body (answer sample_api 2)
           ++ body (answer sample_api 3)).
Proof.
  assert (Hreq : fst (fetch_user_events sample_api sample_clock) = [(1, 30); (2, 30); (3, 30)])
    by reflexivity.
  assert (He : oldest_on (body (answer sample_api 3))
                 (mk_event "2026-10-03T12:00:00Z" "WatchEvent" "me/b" []))
    by (eexists [_]; reflexivity).
  assert (Hd : stamped (mk_event "2026-10-03T12:00:00Z" "WatchEvent" "me/b" [])
                 (minus_days (sample_clock 3) 31))
    by (eexists; split; reflexivity).
  split; [exact Hreq |]. split; [exact He |]. split; [exact Hd |].
  destruct (fetch_stops_exactly sample_api sample_clock) as (k & _ & _ & _ & _ & _ & Hold).
  destruct (Hold 3 _ ltac:(rewrite Hreq; simpl; tauto) ltac:(reflexivity) He Hd) as [Hk ->].
  replace k with 3%nat by lia. unfold pages_through.
  cbn [range_from List.map concat Z.add Pos.add Pos.succ]. now rewrite app_nil_r.
Defined.

Example fetch_samples :
  fetch_user_events sample_api sample_clock
  = ([(1, 30); (2, 30); (3, 30)], Ok (collect sample_api 1 3))
  /\ event_date (last_event (body (sample_api 3 30))) = Ok (minus_days (sample_clock 3) 31)
  /\ fetch_user_events sample_failing_api sample_clock
     = ([(1, 30); (2, 30)], Ok (body (sample_api 1 30)))
  /\ fst (fetch_user_events sample_endless_api sample_clock) = requests 1 10
  /\ (exists evs, snd (fetch_user_events sample_endless_api sample_clock) = Ok evs
                  /\ List.length evs = 10%nat).
Proof.
  repeat split; try (vm_compute; reflexivity).
  eexists. split; vm_compute; reflexivity.
Qed.

(** ** Strings: prefixes and leftmost occurrences *)

Lemma app_assoc_str (a b c : string) : (a +:+ b) +:+ c = a +:+ b +:+ c.
Proof. induction a as [| x a IH]; [reflexivity |]. rewrite !app_cons, IH. reflexivity. Qed.

Lemma app_nil_r_str (a : string) : a +:+ "" = a.
Proof. induction a as [| x a IH]; [reflexivity |]. rewrite app_cons, IH. reflexivity. Qed.

Lemma length_app_str (a b : string) :
  String.length (a +:+ b) = (String.length a + String.length b)%nat.
Proof. induction a as [| x a IH]; [reflexivity |]. rewrite app_cons. simpl. now rewrite IH. Qed.

Lemma app_inv_head_str (a b c : string) : a +:+ b = a +:+ c -> b = c.
Proof.
  induction a as [| x a IH]; [now rewrite !app_nil_l |].
  rewrite !app_cons. intros H. injection H as H. auto.
Qed.

Lemma starts_with_app (p s : string) : starts_with p (p +:+ s) = true.
Proof.
  induction p as [| x p IH]; [reflexivity |].
  rewrite app_cons. simpl. now rewrite Ascii.eqb_refl.
Qed.

Lemma starts_with_inv (p s : string) :
  starts_with p s = true -> s = p +:+ drop_str (String.length p) s.
Proof.
  revert s. induction p as [| x p IH]; intros s H; [reflexivity |].
  destruct s as [| y s]; [discriminate |]. simpl in H.
  destruct (Ascii.eqb_spec x y) as [-> | _]; [| discriminate].
  rewrite app_cons. simpl. f_equal. now apply IH.
Qed.

Lemma drop_str_app (p s : string) : drop_str (String.length p) (p +:+ s) = s.
Proof. induction p as [| x p IH]; [reflexivity |]. rewrite app_cons. simpl. exact IH. Qed.

(** A prefix test looks at no more than the length of the pattern. *)
Lemma starts_with_longer (p a b : string) :
  (String.length p <= String.length a)%nat ->
  starts_with p (a +:+ b) = starts_with p a.
Proof.
  revert a. induction p as [| x p IH]; intros a H; [reflexivity |].
  destruct a as [| y a]; [simpl in H; lia |].
  rewrite app_cons. simpl. destruct (Ascii.eqb x y); [| reflexivity].
  apply IH. simpl in H. lia.
Qed.

Lemma split_at_sound (pat s a b : string) :
  split_at pat s = Some (a, b) -> s = a +:+ pat +:+ b.
Proof.
  revert a b. induction s as [| c s IH]; intros a b H.
  - simpl in H. destruct (starts_with pat "") eqn:Hp; [| discriminate].
    injection H as <- <-. rewrite app_nil_l. now apply starts_with_inv.
  - cbn [split_at] in H. destruct (starts_with pat (String c s)) eqn:Hp.
    + injection H as <- <-. rewrite app_nil_l. now apply starts_with_inv.
    + destruct (split_at pat s) as [[a' b'] |]; [| discriminate].
      injection H as <- <-. rewrite app_cons. f_equal. now apply IH.
Qed.

Lemma first_at_tail (pat : string) (c : ascii) (before : string) :
  first_at pat (String c before) -> first_at pat before.
Proof.
  intros H a b Hab. apply (H (String c a) b). rewrite !app_cons. now f_equal.
Qed.

(** [split_at] finds the leftmost occurrence, and only that. *)
Lemma split_at_first (pat before rest : string) :
  first_at pat before -> split_at pat (before +:+ pat +:+ rest) = Some (before, rest).
Proof.
  induction before as [| c before IH]; intros Hfirst.
  - rewrite app_nil_l.
    assert (Hp : starts_with pat (pat +:+ rest) = true) by apply starts_with_app.
    destruct (pat +:+ rest) as [| x s] eqn:Hs; cbn [split_at]; rewrite Hp;
      rewrite <- Hs, drop_str_app; reflexivity.
  - rewrite app_cons. cbn [split_at].
    destruct (starts_with pat (String c (before +:+ pat +:+ rest))) eqn:Hp.
    + exfalso. rewrite <- app_cons, <- app_assoc_str in Hp.
      rewrite starts_with_longer in Hp
        by (rewrite length_app_str; simpl; lia).
      apply starts_with_inv in Hp.
      specialize (Hfirst "" _ Hp).
      apply (f_equal String.length) in Hp.
      rewrite Hfirst, app_nil_r_str, length_app_str in Hp. simpl in Hp. lia.
    + rewrite IH by (eapply first_at_tail; exact Hfirst). reflexivity.
Qed.

Lemma split_at_is_first (pat s a b : string) :
  pat <> "" -> split_at pat s = Some (a, b) -> first_at pat a.
Proof.
  intros Hne. revert a b. induction s as [| c s IH]; intros a b H.
  - simpl in H. destruct (starts_with pat "") eqn:Hp; [| discriminate].
    destruct pat; [congruence | discriminate].
  - cbn [split_at] in H. destruct (starts_with pat (String c s)) eqn:Hp.
    + injection H as <- <-. intros a' b' Hab. rewrite app_nil_l in Hab.
      apply (f_equal String.length) in Hab. rewrite !length_app_str in Hab.
      destruct b'; [reflexivity | simpl in Hab; lia].
    + destruct (split_at pat s) as [[a0 b0] |] eqn:Hs; [| discriminate].
      injection H as <- <-. specialize (IH _ _ eq_refl).
      pose proof (split_at_sound _ _ _ _ Hs) as Hsound.
      intros a' b' Hab. destruct a' as [| x a'].
      * rewrite app_nil_l in Hab.
        assert (Hp' : starts_with pat (String c s) = true).
        { rewrite Hsound, <- app_cons, <- app_assoc_str, Hab, app_assoc_str.
          apply starts_with_app. }
        congruence.
      * rewrite !app_cons in Hab. injection Hab as _ Hab. eauto.
Qed.

Lemma split_at_none (pat s : string) : split_at pat s = None -> ~ occurs pat s.
Proof.
  intros Hnone (a & b & Hs). subst s. revert Hnone.
  induction a as [| c a IH]; intros Hnone.
  - rewrite app_nil_l in Hnone.
    pose proof (starts_with_app pat b) as Hp.
    destruct (pat +:+ b); cbn [split_at] in Hnone; rewrite Hp in Hnone; discriminate.
  - rewrite app_cons in Hnone. cbn [split_at] in Hnone.
    destruct (starts_with pat (String c (a +:+ pat +:+ b))); [discriminate |].
    destruct (split_at pat (a +:+ pat +:+ b)) as [[? ?] |]; [discriminate |].
    now apply IH.
Qed.

Lemma split_at_absent (pat s : string) : ~ occurs pat s -> split_at pat s = None.
Proof.
  intros Hno. destruct (split_at pat s) as [[a b] |] eqn:H; [| reflexivity].
  exfalso. apply Hno. exists a, b. now apply split_at_sound.
Qed.

Lemma occurs_in_part (pat a s b : string) : occurs pat s -> occurs pat (a +:+ s +:+ b).
Proof.
  intros (x & y & ->). exists (a +:+ x), (y +:+ b).
  now rewrite !app_assoc_str.
Qed.

(** ** The substitution *)

Lemma split_at_shorter (start s before rest : string) :
  start <> "" -> split_at start s = Some (before, rest) ->
  (String.length rest < String.length s)%nat.
Proof.
  intros Hne H. apply split_at_sound in H. subst s.
  rewrite !length_app_str. destruct start; [congruence | simpl; lia].
Qed.

Lemma split_at_not_longer (stop s inner after : string) :
  split_at stop s = Some (inner, after) -> (String.length after <= String.length s)%nat.
Proof.
  intros H. apply split_at_sound in H. subst s. rewrite !length_app_str. lia.
Qed.

(** More fuel than the length of the text changes nothing: the recursion is
    on a strictly shorter text. *)
Lemma sub_from_fuel (start stop : string) (tpl : list titem) :
  start <> "" ->
  forall (f1 f2 : nat) (s : string),
    (String.length s < f1)%nat -> (String.length s < f2)%nat ->
    sub_from f1 start stop tpl s = sub_from f2 start stop tpl s.
Proof.
  intros Hne. induction f1 as [| f1 IH]; intros f2 s H1 H2; [lia |].
  destruct f2 as [| f2]; [lia |]. cbn [sub_from].
  destruct (split_at start s) as [[before rest] |] eqn:Hs; [| reflexivity].
  destruct (split_at stop rest) as [[inner after] |] eqn:He; [| reflexivity].
  pose proof (split_at_shorter _ _ _ _ Hne Hs).
  pose proof (split_at_not_longer _ _ _ _ He).
  f_equal. f_equal. apply IH; lia.
Qed.

Lemma sub_from_step (fuel : nat) (start stop : string) (tpl : list titem) (s : string) :
  sub_from (S fuel) start stop tpl s
  = match split_at start s with
    | None => s
    | Some (before, rest) =>
        match split_at stop rest with
        | None => s
        | Some (inner, after) =>
            before +:+ expand tpl (start +:+ inner +:+ stop)
                   +:+ sub_from fuel start stop tpl after
        end
    end.
Proof. reflexivity. Qed.

Lemma sub_all_unfold (start stop : string) (tpl : list titem) (s : string) :
  start <> "" ->
  sub_all start stop tpl s
  = match split_at start s with
    | None => s
    | Some (before, rest) =>
        match split_at stop rest with
        | None => s
        | Some (inner, after) =>
            before +:+ expand tpl (start +:+ inner +:+ stop) +:+ sub_all start stop tpl after
        end
    end.
Proof.
  intros Hne. unfold sub_all. rewrite sub_from_step.
  destruct (split_at start s) as [[before rest] |] eqn:Hs; [| reflexivity].
  destruct (split_at stop rest) as [[inner after] |] eqn:He; [| reflexivity].
  pose proof (split_at_shorter _ _ _ _ Hne Hs).
  pose proof (split_at_not_longer _ _ _ _ He).
  f_equal. f_equal. apply sub_from_fuel; [exact Hne | lia | lia].
Qed.

(** ** Templates without escapes *)

Lemma expand_literal (s matched : string) : expand (literal_items s) matched = s.
Proof. induction s as [| c s IH]; [reflexivity |]. simpl. now rewrite IH. Qed.

Lemma parse_template_literal (s : string) :
  has_char backslash s = false -> parse_template s = Ok (literal_items s).
Proof.
  unfold parse_template, has_char. induction s as [| c s IH]; intros H; [reflexivity |].
  cbn [list_ascii_of_string existsb] in H. apply orb_false_iff in H as [Hc Hs].
  cbn [parse_template_from]. rewrite Ascii.eqb_sym, Hc.
  unfold cons_item. rewrite (IH Hs). reflexivity.
Qed.

Lemma re_sub_literal (start stop repl s : string) :
  has_char backslash repl = false ->
  re_sub start stop repl s = Ok (sub_all start stop (literal_items repl) s).
Proof. intros H. unfold re_sub. rewrite (parse_template_literal _ H). reflexivity. Qed.

(** ** One substitution of the patcher *)

Lemma has_char_app (c : ascii) (a b : string) :
  has_char c (a +:+ b) = has_char c a || has_char c b.
Proof.
  unfold has_char. induction a as [| x a IH]; [reflexivity |].
  rewrite app_cons. cbn [list_ascii_of_string existsb]. rewrite IH.
  now rewrite orb_assoc.
Qed.

Lemma section_text_middle (k : section) (content : string) :
  section_text k content = start_marker k +:+ middle k content +:+ end_marker k.
Proof. destruct k; unfold section_text, middle; now rewrite ?app_assoc_str. Qed.

Lemma section_text_no_backslash (k : section) (content : string) :
  has_char backslash content = false ->
  has_char backslash (section_text k content) = false.
Proof.
  intros H. destruct k; unfold section_text; rewrite !has_char_app, H; reflexivity.
Qed.

Lemma start_marker_not_empty (k : section) : start_marker k <> "".
Proof. destruct k; discriminate. Qed.

(** A substitution, for a content without escapes, in terms of [split_at]. *)
Lemma patch_unfold (k : section) (content readme : string) :
  has_char backslash content = false ->
  patch k content readme
  = Ok (sub_all (start_marker k) (end_marker k) (literal_items (section_text k content))
          readme).
Proof.
  intros H. unfold patch. apply re_sub_literal. now apply section_text_no_backslash.
Qed.

(** C9. When the start marker or the end marker of a section does not occur
    in the document, the substitution for that section matches nothing,
    raises nothing and returns the document as it is. *)
Theorem patch_absent_pair (k : section) (content readme : string) :
  has_char backslash content = false ->
  ~ occurs (start_marker k) readme \/ ~ occurs (end_marker k) readme ->
  patch k content readme = Ok readme.
Proof.
  intros Hplain Habsent. rewrite patch_unfold by exact Hplain. f_equal.
  rewrite sub_all_unfold by apply start_marker_not_empty.
  destruct (split_at (start_marker k) readme) as [[before rest] |] eqn:Hs; [| reflexivity].
  destruct (split_at (end_marker k) rest) as [[inner after] |] eqn:He; [| reflexivity].
  exfalso. apply split_at_sound in Hs, He. subst rest.
  destruct Habsent as [Hno | Hno]; apply Hno.
  - exists before, (inner +:+ end_marker k +:+ after). exact Hs.
  - exists (before +:+ start_marker k +:+ inner), after.
    rewrite Hs. now rewrite !app_assoc_str.
Qed.

Lemma patch_absent_pair_witness :
  has_char backslash "new" = false
  /\ (~ occurs (start_marker Stats) sample_date_readme
      \/ ~ occurs (end_marker Stats) sample_date_readme)
  /\ patch Stats "new" sample_date_readme = Ok sample_date_readme.
Proof.
  assert (Hp : has_char backslash "new" = false) by reflexivity.
  assert (Ha : ~ occurs (start_marker Stats) sample_date_readme
               \/ ~ occurs (end_marker Stats) sample_date_readme).
  { left. apply split_at_none. reflexivity. }
  split; [exact Hp |]. split; [exact Ha |].
  exact (patch_absent_pair Stats "new" sample_date_readme Hp Ha).
Defined.

(** C1, as the code has it.  For the leftmost region of section [k] (the
    start marker, any text up to the nearest end marker, line breaks
    included, and that end marker) the substitution writes the start marker,
    the content and the end marker in its place: with a line break on each
    side of the content for the activity and stats sections, with none for
    the date section.  What precedes the region is kept; what follows it is
    patched in the same way. *)
Theorem patch_replaces_region (k : section) (content before inner after : string) :
  has_char backslash content = false ->
  first_at (start_marker k) before -> first_at (end_marker k) inner ->
  exists rest,
    patch k content after = Ok rest
    /\ patch k content (before +:+ start_marker k +:+ inner +:+ end_marker k +:+ after)
       = Ok (before +:+ start_marker k +:+ middle k content +:+ end_marker k +:+ rest)
    /\ middle k content
       = match k with
         | Activity | Stats => nl +:+ content +:+ nl
         | Date => content
         end.
Proof.
  intros Hplain Hstart Hend.
  exists (sub_all (start_marker k) (end_marker k) (literal_items (section_text k content))
            after).
  split; [now apply patch_unfold |]. split; [| reflexivity].
  rewrite patch_unfold by exact Hplain. f_equal.
  rewrite sub_all_unfold by apply start_marker_not_empty.
  rewrite (split_at_first _ _ _ Hstart), (split_at_first _ _ _ Hend).
  rewrite expand_literal, section_text_middle, !app_assoc_str. reflexivity.
Qed.

Lemma first_at_computed (pat before : string) :
  split_at pat (before +:+ pat) = Some (before, "") -> pat <> "" -> first_at pat before.
Proof. intros H Hne. eapply split_at_is_first; [exact Hne | exact H]. Qed.

Lemma patch_replaces_region_witness :
  has_char backslash "new" = false
  /\ first_at (start_marker Activity) ("# Me" +:+ nl)
  /\ first_at (end_marker Activity) (nl +:+ "old" +:+ nl)
  /\ patch Activity "new" sample_activity_readme
     = Ok ("# Me" +:+ nl +:+ "<!-- ACTIVITY_START -->" +:+ nl +:+ "new" +:+ nl
           +:+ "<!-- ACTIVITY_END -->" +:+ nl +:+ "bye").
Proof.
  assert (Hp : has_char backslash "new" = false) by reflexivity.
  assert (Hs : first_at (start_marker Activity) ("# Me" +:+ nl))
    by (apply first_at_computed; [reflexivity | discriminate]).
  assert (He : first_at (end_marker Activity) (nl +:+ "old" +:+ nl))
    by (apply first_at_computed; [reflexivity | discriminate]).
  split; [exact Hp |]. split; [exact Hs |]. split; [exact He |].
  destruct (patch_replaces_region Activity "new" ("# Me" +:+ nl) (nl +:+ "old" +:+ nl)
              (nl +:+ "bye") Hp Hs He) as (rest & Hrest & Hpatch & _).
  assert (Hr : rest = nl +:+ "bye").
  { assert (Hc : patch Activity "new" (nl +:+ "bye") = Ok (nl +:+ "bye")) by reflexivity.
    rewrite Hc in Hrest. now injection Hrest. }
  subst rest. exact Hpatch.
Defined.

(** C1 as worded gives all three sections a line break on each side of the
    content; the date section is written without any. *)
Lemma date_section_has_no_line_breaks :
  update_readme sample_now "a" "s" sample_date_readme
  = Ok "Last updated: <!-- DATE_START -->2026-11-03 12:00 UTC<!-- DATE_END -->."
  /\ update_readme sample_now "a" "s" sample_date_readme
     <> Ok ("Last updated: " +:+ start_marker Date +:+ nl +:+ strftime_stamp sample_now
            +:+ nl +:+ end_marker Date +:+ ".").
Proof. split; [reflexivity | intros H; vm_compute in H; discriminate H]. Qed.

(** ** Idempotence *)

Lemma prefix_before_lt (p x r b : string) :
  has_char "<" p = false -> x +:+ String "<" r = p +:+ b -> exists x', x = p +:+ x'.
Proof.
  revert x. induction p as [| c p IH]; intros x Hp H; [exists x; reflexivity |].
  unfold has_char in Hp. cbn [list_ascii_of_string existsb] in Hp.
  apply orb_false_iff in Hp as [Hc Hp].
  destruct x as [| c' x]; rewrite ?app_nil_l, !app_cons in H; injection H as Hcc H.
  - subst c. now rewrite Ascii.eqb_refl in Hc.
  - subst c'. destruct (IH x Hp H) as [x' ->]. exists x'. now rewrite app_cons.
Qed.

(** A marker begins with ["<"] and has no other: when it does not occur in a
    text, it does not begin inside that text followed by the marker. *)
Lemma first_at_marker (tail x : string) :
  has_char "<" tail = false -> ~ occurs (String "<" tail) x ->
  first_at (String "<" tail) x.
Proof.
  intros Htail Hno a. revert x Hno. induction a as [| c a IH]; intros x Hno b Hab.
  - rewrite app_nil_l in Hab. destruct x as [| c x].
    + rewrite app_nil_l in Hab. apply (f_equal String.length) in Hab.
      rewrite length_app_str in Hab. destruct b; [reflexivity | simpl in Hab; lia].
    + exfalso. rewrite !app_cons in Hab. injection Hab as -> Hab.
      destruct (prefix_before_lt _ _ _ _ Htail Hab) as [x' ->].
      apply Hno. exists "", x'. now rewrite app_nil_l, app_cons.
  - destruct x as [| c' x].
    + rewrite app_nil_l in Hab. apply (f_equal String.length) in Hab.
      rewrite app_cons in Hab. cbn [String.length] in Hab.
      rewrite !length_app_str in Hab. cbn [String.length] in Hab. lia.
    + rewrite !app_cons in Hab. injection Hab as _ Hab.
      apply (IH x); [| exact Hab].
      intros (u & v & ->). apply Hno. exists (String c' u), v. now rewrite app_cons.
Qed.

Lemma snoc_inv (a u v : string) (c : ascii) :
  a +:+ String c "" = u +:+ v ->
  v = "" \/ exists v', v = v' +:+ String c "" /\ a = u +:+ v'.
Proof.
  revert a. induction u as [| x u IH]; intros a H.
  - rewrite app_nil_l in H. right. exists a. now rewrite app_nil_l.
  - destruct a as [| y a].
    + rewrite app_nil_l, app_cons in H. injection H as _ H.
      left. destruct u; [now rewrite app_nil_l in H | discriminate].
    + rewrite !app_cons in H. injection H as -> H.
      destruct (IH a H) as [-> | (v' & -> & ->)]; [now left |].
      right. exists v'. now rewrite app_cons.
Qed.

(** A pattern without line breaks that occurs in a text wrapped in line
    breaks occurs in the text. *)
Lemma occurs_between_line_breaks (pat c : string) :
  pat <> "" -> has_char LF pat = false ->
  occurs pat (nl +:+ c +:+ nl) -> occurs pat c.
Proof.
  intros Hne Hlf (a & b & H). unfold nl in H.
  destruct a as [| x a].
  - exfalso. rewrite app_nil_l in H. destruct pat as [| y pat]; [congruence |].
    rewrite !app_cons in H. injection H as <- _.
    unfold has_char in Hlf. cbn [list_ascii_of_string existsb] in Hlf.
    now rewrite Ascii.eqb_refl in Hlf.
  - rewrite !app_cons, app_nil_l in H. injection H as _ H.
    rewrite <- app_assoc_str in H.
    destruct (snoc_inv _ _ _ _ H) as [Hb | (v' & Hv & Hc)].
    + exfalso. rewrite Hb, app_nil_r_str in H.
      destruct (snoc_inv _ _ _ _ H) as [Hp | (p' & Hp & _)]; [congruence |].
      rewrite Hp, has_char_app in Hlf. apply orb_false_iff in Hlf as [_ Hlf].
      unfold has_char in Hlf. cbn [list_ascii_of_string existsb] in Hlf.
      now rewrite Ascii.eqb_refl in Hlf.
    + exists a, v'. rewrite Hc. apply app_assoc_str.
Qed.

Lemma end_marker_shape (k : section) :
  exists tail, end_marker k = String "<" tail /\ has_char "<" tail = false
               /\ has_char LF (end_marker k) = false.
Proof. destruct k; eexists; repeat split; reflexivity. Qed.

(** The end marker written after the content is the nearest one when the
    content does not contain it. *)
Lemma first_at_middle (k : section) (content : string) :
  ~ occurs (end_marker k) content -> first_at (end_marker k) (middle k content).
Proof.
  intros Hno. destruct (end_marker_shape k) as (tail & Hshape & Htail & Hlf).
  rewrite Hshape. apply first_at_marker; [exact Htail |]. rewrite <- Hshape.
  destruct k; unfold middle; try exact Hno;
    intros Hocc; apply Hno;
    (apply occurs_between_line_breaks; [discriminate | exact Hlf | exact Hocc]).
Qed.

Lemma sub_all_idempotent (start stop mid : string) :
  start <> "" -> first_at stop mid ->
  forall (n : nat) (s : string),
    (String.length s < n)%nat ->
    sub_all start stop (literal_items (start +:+ mid +:+ stop))
      (sub_all start stop (literal_items (start +:+ mid +:+ stop)) s)
    = sub_all start stop (literal_items (start +:+ mid +:+ stop)) s.
Proof.
  intros Hne Hmid. induction n as [| n IH]; intros s Hlen; [lia |].
  rewrite (sub_all_unfold start stop _ s) by exact Hne.
  destruct (split_at start s) as [[before rest] |] eqn:Hs.
  2: { rewrite sub_all_unfold by exact Hne. now rewrite Hs. }
  destruct (split_at stop rest) as [[inner after] |] eqn:He.
  2: { rewrite sub_all_unfold by exact Hne. now rewrite Hs, He. }
  rewrite expand_literal, !app_assoc_str.
  rewrite sub_all_unfold by exact Hne.
  rewrite (split_at_first start before _ (split_at_is_first _ _ _ _ Hne Hs)).
  rewrite (split_at_first stop mid _ Hmid).
  rewrite expand_literal, !app_assoc_str.
  rewrite IH; [reflexivity |].
  pose proof (split_at_shorter _ _ _ _ Hne Hs).
  pose proof (split_at_not_longer _ _ _ _ He). lia.
Qed.

(** C3, as the code has it.  For a content without escapes that does not
    contain the end marker of its section, patching a document a second
    time with the same content leaves the result of the first time as it
    is. *)
Theorem patch_idempotent (k : section) (content readme : string) :
  has_char backslash content = false -> ~ occurs (end_marker k) content ->
  exists once,
    patch k content readme = Ok once /\ patch k content once = Ok once.
Proof.
  intros Hplain Hno. eexists. split; [apply patch_unfold, Hplain |].
  rewrite patch_unfold by exact Hplain. f_equal.
  rewrite section_text_middle.
  apply (sub_all_idempotent _ _ _ (start_marker_not_empty k) (first_at_middle k content Hno)
           (S (String.length readme))).
  lia.
Qed.

Lemma patch_idempotent_witness :
  has_char backslash "new" = false
  /\ ~ occurs (end_marker Activity) "new"
  /\ exists once,
       patch Activity "new" sample_activity_readme = Ok once
       /\ patch Activity "new" once = Ok once.
Proof.
  assert (Hp : has_char backslash "new" = false) by reflexivity.
  assert (Hn : ~ occurs (end_marker Activity) "new")
    by (apply split_at_none; reflexivity).
  split; [exact Hp |]. split; [exact Hn |].
  exact (patch_idempotent Activity "new" sample_activity_readme Hp Hn).
Defined.

(** C3 as worded holds for every content.  A content that contains the end
    marker of its section is written anew each time: the second pass ends
    its match at the marker inside the content. *)
Lemma patch_twice_differs :
  has_char backslash sample_hostile_content = false
  /\ patch Activity sample_hostile_content "<!-- ACTIVITY_START --><!-- ACTIVITY_END -->"
     = Ok ("<!-- ACTIVITY_START -->" +:+ nl +:+ "x<!-- ACTIVITY_END -->y" +:+ nl
           +:+ "<!-- ACTIVITY_END -->")
  /\ patch Activity sample_hostile_content
       ("<!-- ACTIVITY_START -->" +:+ nl +:+ "x<!-- ACTIVITY_END -->y" +:+ nl
        +:+ "<!-- ACTIVITY_END -->")
     = Ok ("<!-- ACTIVITY_START -->" +:+ nl +:+ "x<!-- ACTIVITY_END -->y" +:+ nl
           +:+ "<!-- ACTIVITY_END -->y" +:+ nl +:+ "<!-- ACTIVITY_END -->")
  /\ ~ (forall (k : section) (content readme once twice : string),
          patch k content readme = Ok once -> patch k content once = Ok twice ->
          twice = once).
Proof.
  split; [reflexivity |]. split; [reflexivity |]. split; [reflexivity |].
  intros H.
  specialize (H Activity sample_hostile_content
                "<!-- ACTIVITY_START --><!-- ACTIVITY_END -->" _ _ eq_refl eq_refl).
  vm_compute in H. discriminate H.
Qed.


(** ** Documents as texts separated by markers *)

Lemma marker_shape (m : marker) :
  exists tail, marker_text m = String "<" tail /\ has_char "<" tail = false.
Proof. destruct m as [[] | []]; eexists; split; reflexivity. Qed.

Lemma starts_with_marker (m n : marker) (y : string) :
  starts_with (marker_text m) (marker_text n +:+ y) = marker_eqb m n.
Proof. destruct m as [[] | []], n as [[] | []]; reflexivity. Qed.

Lemma has_char_cons (c x : ascii) (s : string) :
  has_char c (String x s) = Ascii.eqb c x || has_char c s.
Proof. reflexivity. Qed.

(** A pattern without ["<"] does not see past a ["<"]. *)
Lemma starts_with_before_lt (p u y : string) :
  has_char "<" p = false ->
  starts_with p (u +:+ String "<" y) = starts_with p u.
Proof.
  revert u. induction p as [| c p IH]; intros u Hp; [reflexivity |].
  rewrite has_char_cons in Hp. apply orb_false_iff in Hp as [Hc Hp].
  destruct u as [| c' u].
  - rewrite app_nil_l. cbn [starts_with]. rewrite Ascii.eqb_sym, Hc. reflexivity.
  - rewrite app_cons. cbn [starts_with]. rewrite (IH u Hp). reflexivity.
Qed.

Lemma starts_with_marker_before_lt (m : marker) (c : ascii) (u y : string) :
  starts_with (marker_text m) (String c u +:+ String "<" y)
  = starts_with (marker_text m) (String c u).
Proof.
  destruct (marker_shape m) as (tail & -> & Htail).
  rewrite app_cons. cbn [starts_with]. now rewrite starts_with_before_lt.
Qed.

Lemma occurrences_empty (m : marker) : occurrences (marker_text m) "" = 0%nat.
Proof. destruct m as [[] | []]; reflexivity. Qed.

Lemma weave_tail_shape (l : list (marker * string)) :
  weave_tail l = "" \/ exists y, weave_tail l = String "<" y.
Proof.
  destruct l as [| [n t] l]; [now left | right]. cbn [weave_tail].
  destruct (marker_shape n) as (tail & -> & _). rewrite app_cons. eauto.
Qed.

Lemma occurrences_cons (pat : string) (c : ascii) (s : string) :
  occurrences pat (String c s)
  = ((if starts_with pat (String c s) then 1 else 0) + occurrences pat s)%nat.
Proof. reflexivity. Qed.

(** No occurrence of a marker straddles a text and the marker after it. *)
Lemma occurrences_text_then_weave (m : marker) (t : string) (l : list (marker * string)) :
  occurrences (marker_text m) (t +:+ weave_tail l)
  = (occurrences (marker_text m) t + occurrences (marker_text m) (weave_tail l))%nat.
Proof.
  destruct (weave_tail_shape l) as [-> | [y ->]].
  - rewrite app_nil_r_str, occurrences_empty. lia.
  - induction t as [| c t IH]; [now rewrite app_nil_l, occurrences_empty |].
    rewrite app_cons, occurrences_cons, (occurrences_cons _ c t).
    rewrite <- app_cons, starts_with_marker_before_lt, IH. lia.
Qed.

Lemma occurrences_plain (m : marker) (t y : string) :
  has_char "<" t = false ->
  occurrences (marker_text m) (t +:+ y) = occurrences (marker_text m) y.
Proof.
  destruct (marker_shape m) as (tail & -> & _).
  induction t as [| c t IH]; intros Ht; [reflexivity |].
  rewrite has_char_cons in Ht. apply orb_false_iff in Ht as [Hc Ht].
  rewrite app_cons. cbn [occurrences starts_with]. rewrite Hc. now rewrite IH.
Qed.

Lemma plain_is_marker_free (t : string) : has_char "<" t = false -> marker_free t.
Proof.
  intros Ht m. rewrite <- (app_nil_r_str t), occurrences_plain by exact Ht.
  apply occurrences_empty.
Qed.

Lemma occurrences_marker (m n : marker) (y : string) :
  occurrences (marker_text m) (marker_text n +:+ y)
  = ((if marker_eqb m n then 1 else 0) + occurrences (marker_text m) y)%nat.
Proof.
  rewrite <- (starts_with_marker m n y).
  destruct (marker_shape n) as (tail & Hn & Htail). rewrite Hn.
  rewrite app_cons. cbn [occurrences]. rewrite <- app_cons.
  now rewrite occurrences_plain.
Qed.

Lemma occurrences_weave_tail (m n : marker) (t : string) (l : list (marker * string)) :
  occurrences (marker_text m) (weave_tail ((n, t) :: l))
  = ((if marker_eqb m n then 1 else 0) + occurrences (marker_text m) t
     + occurrences (marker_text m) (weave_tail l))%nat.
Proof.
  cbn [weave_tail]. rewrite occurrences_marker, occurrences_text_then_weave. lia.
Qed.

Lemma split_at_cons (pat : string) (c : ascii) (s : string) :
  starts_with pat (String c s) = false ->
  split_at pat (String c s) = prepend (String c "") (split_at pat s).
Proof.
  intros H. cbn [split_at]. rewrite H.
  destruct (split_at pat s) as [[a b] |]; reflexivity.
Qed.

Lemma prepend_prepend (a b : string) (o : option (string * string)) :
  prepend a (prepend b o) = prepend (a +:+ b) o.
Proof. destruct o as [[x y] |]; [| reflexivity]. simpl. now rewrite app_assoc_str. Qed.

Lemma split_at_text_then_weave (m : marker) (t : string) (l : list (marker * string)) :
  occurrences (marker_text m) t = 0%nat ->
  split_at (marker_text m) (t +:+ weave_tail l)
  = prepend t (split_at (marker_text m) (weave_tail l)).
Proof.
  induction t as [| c t IH]; intros Hocc.
  - rewrite app_nil_l. destruct (split_at _ _) as [[a b] |]; reflexivity.
  - cbn [occurrences] in Hocc.
    assert (Hc : starts_with (marker_text m) (String c t) = false)
      by (destruct (starts_with (marker_text m) (String c t)); [simpl in Hocc; lia | reflexivity]).
    assert (Ht : occurrences (marker_text m) t = 0%nat) by lia.
    assert (Hs : starts_with (marker_text m) (String c t +:+ weave_tail l) = false).
    { destruct (weave_tail_shape l) as [-> | [y ->]].
      - now rewrite app_nil_r_str.
      - now rewrite starts_with_marker_before_lt. }
    rewrite app_cons in Hs |- *. rewrite (split_at_cons _ _ _ Hs), (IH Ht).
    rewrite prepend_prepend. reflexivity.
Qed.

Lemma split_at_plain (m : marker) (t y : string) :
  has_char "<" t = false ->
  split_at (marker_text m) (t +:+ y) = prepend t (split_at (marker_text m) y).
Proof.
  destruct (marker_shape m) as (tail & Hm & _).
  induction t as [| c t IH]; intros Ht.
  - rewrite app_nil_l. destruct (split_at _ _) as [[a b] |]; reflexivity.
  - rewrite has_char_cons in Ht. apply orb_false_iff in Ht as [Hc Ht].
    rewrite app_cons. rewrite split_at_cons.
    + rewrite (IH Ht), prepend_prepend. reflexivity.
    + rewrite Hm. cbn [starts_with]. now rewrite Hc.
Qed.

Lemma split_at_marker_hit (m : marker) (y : string) :
  split_at (marker_text m) (marker_text m +:+ y) = Some ("", y).
Proof.
  apply (split_at_first (marker_text m) "" y).
  intros a b H. rewrite app_nil_l in H. apply (f_equal String.length) in H.
  rewrite !length_app_str in H. destruct b; [reflexivity | simpl in H; lia].
Qed.

Lemma split_at_marker_miss (m n : marker) (y : string) :
  marker_eqb m n = false ->
  split_at (marker_text m) (marker_text n +:+ y)
  = prepend (marker_text n) (split_at (marker_text m) y).
Proof.
  intros Hne. pose proof (starts_with_marker m n y) as Hs. rewrite Hne in Hs.
  destruct (marker_shape n) as (tail & Hn & Htail). rewrite Hn in Hs |- *.
  rewrite app_cons in Hs |- *. rewrite (split_at_cons _ _ _ Hs).
  rewrite split_at_plain by exact Htail. rewrite prepend_prepend. reflexivity.
Qed.

Lemma weave_tail_app (l1 l2 : list (marker * string)) :
  weave_tail (l1 ++ l2) = weave_tail l1 +:+ weave_tail l2.
Proof.
  induction l1 as [| [n t] l1 IH]; [reflexivity |].
  cbn [app weave_tail]. now rewrite IH, !app_assoc_str.
Qed.

(** The leftmost occurrence of a marker in a woven document is where the
    marker is first listed, when it begins in none of the texts before. *)
Lemma split_at_weave_hit (m : marker) (t0 t : string) (pre post : list (marker * string)) :
  occurrences (marker_text m) t0 = 0%nat -> clear_of m pre ->
  split_at (marker_text m) (weave t0 (pre ++ (m, t) :: post))
  = Some (weave t0 pre, t +:+ weave_tail post).
Proof.
  unfold weave. intros Ht0 Hpre. rewrite split_at_text_then_weave by exact Ht0.
  assert (Htail : split_at (marker_text m) (weave_tail (pre ++ (m, t) :: post))
                  = Some (weave_tail pre, t +:+ weave_tail post)).
  { induction Hpre as [| [n x] pre [Hn Hx] Hpre IH]; cbn [app weave_tail].
    - apply split_at_marker_hit.
    - cbn [fst snd] in Hn, Hx. rewrite split_at_marker_miss by exact Hn.
      rewrite split_at_text_then_weave by exact Hx. rewrite IH. reflexivity. }
  rewrite Htail. reflexivity.
Qed.

Lemma split_at_weave_miss (m : marker) (t0 : string) (l : list (marker * string)) :
  occurrences (marker_text m) t0 = 0%nat -> clear_of m l ->
  split_at (marker_text m) (weave t0 l) = None.
Proof.
  unfold weave. intros Ht0 Hl. rewrite split_at_text_then_weave by exact Ht0.
  assert (Htail : split_at (marker_text m) (weave_tail l) = None).
  { induction Hl as [| [n x] l [Hn Hx] Hl IH]; cbn [weave_tail].
    - clear. destruct m as [[] | []]; reflexivity.
    - cbn [fst snd] in Hn, Hx. rewrite split_at_marker_miss by exact Hn.
      rewrite split_at_text_then_weave by exact Hx. now rewrite IH. }
  now rewrite Htail.
Qed.

(** One substitution on a woven document: the text between the two markers
    of the section is exchanged, everything else stays where it is. *)
Lemma patch_weave (k : section) (content t0 inner t : string)
  (pre post : list (marker * string)) :
  has_char backslash content = false ->
  occurrences (start_marker k) t0 = 0%nat -> clear_of (Start k) pre ->
  occurrences (end_marker k) inner = 0%nat ->
  occurrences (start_marker k) t = 0%nat -> clear_of (Start k) post ->
  patch k content (weave t0 (pre ++ (Start k, inner) :: (End_ k, t) :: post))
  = Ok (weave t0 (pre ++ (Start k, middle k content) :: (End_ k, t) :: post)).
Proof.
  intros Hplain Ht0 Hpre Hinner Ht Hpost.
  rewrite patch_unfold by exact Hplain. f_equal.
  rewrite sub_all_unfold by apply start_marker_not_empty.
  pose proof (split_at_weave_hit (Start k) t0 inner pre ((End_ k, t) :: post) Ht0 Hpre)
    as H1.
  pose proof (split_at_weave_hit (End_ k) inner t [] post Hinner ltac:(constructor)) as H2.
  pose proof (split_at_weave_miss (Start k) t post Ht Hpost) as H3.
  cbn [marker_text app] in H1, H2, H3. unfold weave in H2, H3.
  rewrite H1, H2, expand_literal.
  rewrite sub_all_unfold by apply start_marker_not_empty.
  rewrite H3.
  unfold weave. rewrite !weave_tail_app. cbn [weave_tail].
  rewrite section_text_middle, !app_assoc_str. reflexivity.
Qed.

(** ** The three substitutions together *)

Lemma digit_char_plain (x : Z) :
  Ascii.eqb backslash (digit_char (x mod 10)) = false
  /\ Ascii.eqb "<" (digit_char (x mod 10)) = false.
Proof.
  pose proof (digit_range x) as H. set (a := x mod 10) in *. clearbody a.
  decimal_cases a; split; reflexivity.
Qed.

Lemma plain_app (a b : string) : plain (a +:+ b) = plain a && plain b.
Proof.
  unfold plain. rewrite !has_char_app.
  destruct (has_char backslash a), (has_char backslash b), (has_char "<" a),
    (has_char "<" b); reflexivity.
Qed.

Lemma plain_pad2 (n : Z) : plain (pad2 n) = true.
Proof.
  unfold plain, pad2. rewrite !has_char_cons.
  destruct (digit_char_plain (n / 10)) as [-> ->].
  destruct (digit_char_plain n) as [-> ->]. reflexivity.
Qed.

Lemma plain_pad4 (n : Z) : plain (pad4 n) = true.
Proof.
  unfold pad4.
  change (String ?a (String ?b (pad2 n))) with (String a (String b "") +:+ pad2 n).
  rewrite plain_app, plain_pad2. unfold plain. rewrite !has_char_cons.
  destruct (digit_char_plain (n / 1000)) as [-> ->].
  destruct (digit_char_plain (n / 100)) as [-> ->]. reflexivity.
Qed.

(** The timestamp written into the date section is plain text. *)
Lemma plain_stamp (now : datetime) : plain (strftime_stamp now) = true.
Proof.
  unfold strftime_stamp, strftime_ymd.
  rewrite !plain_app, !plain_pad2, !plain_pad4. reflexivity.
Qed.

Lemma plain_inv (s : string) :
  plain s = true -> has_char backslash s = false /\ has_char "<" s = false.
Proof.
  unfold plain. intros H. apply andb_true_iff in H as [H1 H2].
  apply negb_true_iff in H1, H2. now split.
Qed.

Lemma middle_marker_free (k : section) (content : string) :
  has_char "<" content = false -> marker_free (middle k content).
Proof.
  intros H. apply plain_is_marker_free.
  destruct k; unfold middle; rewrite ?has_char_app, ?H; reflexivity.
Qed.

Lemma content_of_plain (now : datetime) (a s : string) (k : section) :
  plain a = true -> plain s = true -> plain (content_of now a s k) = true.
Proof. intros Ha Hs. destruct k; [exact Ha | exact Hs | apply plain_stamp]. Qed.

Ltac use_free :=
  match goal with
  | H : marker_free ?t |- occurrences _ ?t = 0%nat =>
      first [ exact (H (Start Activity)) | exact (H (Start Stats)) | exact (H (Start Date))
            | exact (H (End_ Activity)) | exact (H (End_ Stats)) | exact (H (End_ Date)) ]
  end.

Ltac clear_list :=
  repeat (apply Forall_cons; split; [split; [reflexivity | cbn [snd]; use_free] |]);
  apply Forall_nil; exact I.

Ltac rewrite_patch k c t0 i t pre post :=
  let H := fresh in
  pose proof (patch_weave k c t0 i t pre post) as H; cbn [app] in H; rewrite H; clear H.

Ltac patch_region k :=
  match goal with
  | |- context [patch k ?c (weave ?t0 ((Start k, ?i) :: (End_ k, ?t) :: ?post))] =>
      rewrite_patch k c t0 i t (@nil (marker * string)) post
  | |- context [patch k ?c (weave ?t0 (?e1 :: ?e2 :: (Start k, ?i) :: (End_ k, ?t) :: ?post))] =>
      rewrite_patch k c t0 i t [e1; e2] post
  | |- context [patch k ?c (weave ?t0 (?e1 :: ?e2 :: ?e3 :: ?e4 :: (Start k, ?i)
                                          :: (End_ k, ?t) :: ?post))] =>
      rewrite_patch k c t0 i t [e1; e2; e3; e4] post
  end;
  [cbn [bind] | assumption | use_free | clear_list | use_free | use_free | clear_list].

(** The same on a woven document with the three regions in any order. *)
Lemma update_readme_weave (now : datetime) (a s : string) (k1 k2 k3 : section)
  (p0 m1 p1 m2 p2 m3 p3 : string) :
  plain a = true -> plain s = true ->
  k1 <> k2 -> k1 <> k3 -> k2 <> k3 ->
  marker_free p0 -> marker_free m1 -> marker_free p1 -> marker_free m2 ->
  marker_free p2 -> marker_free m3 -> marker_free p3 ->
  update_readme now a s
    (weave p0 [ (Start k1, m1); (End_ k1, p1); (Start k2, m2); (End_ k2, p2);
                (Start k3, m3); (End_ k3, p3) ])
  = Ok (weave p0 [ (Start k1, middle k1 (content_of now a s k1)); (End_ k1, p1);
                   (Start k2, middle k2 (content_of now a s k2)); (End_ k2, p2);
                   (Start k3, middle k3 (content_of now a s k3)); (End_ k3, p3) ]).
Proof.
  intros Ha Hs H12 H13 H23 Hp0 Hm1 Hp1 Hm2 Hp2 Hm3 Hp3.
  destruct (plain_inv _ Ha) as [Hab Hal]. destruct (plain_inv _ Hs) as [Hsb Hsl].
  destruct (plain_inv _ (plain_stamp now)) as [Hdb Hdl].
  pose proof (middle_marker_free Activity a Hal) as Hfa.
  pose proof (middle_marker_free Stats s Hsl) as Hfs.
  pose proof (middle_marker_free Date (strftime_stamp now) Hdl) as Hfd.
  unfold update_readme.
  destruct k1, k2, k3; try congruence; cbn [content_of];
    patch_region Activity; patch_region Stats; patch_region Date; reflexivity.
Qed.

Lemma three_regions_weave (k1 k2 k3 : section) (p0 x1 p1 x2 p2 x3 p3 : string) :
  three_regions k1 k2 k3 p0 x1 p1 x2 p2 x3 p3
  = weave p0 [ (Start k1, x1); (End_ k1, p1); (Start k2, x2); (End_ k2, p2);
               (Start k3, x3); (End_ k3, p3) ].
Proof.
  unfold three_regions, weave. cbn [weave_tail marker_text].
  now rewrite app_nil_r_str.
Qed.

Lemma occurrences_six (m n1 n2 n3 n4 n5 n6 : marker) (t0 t1 t2 t3 t4 t5 t6 : string) :
  occurrences (marker_text m)
    (weave t0 [(n1, t1); (n2, t2); (n3, t3); (n4, t4); (n5, t5); (n6, t6)])
  = (occurrences (marker_text m) t0
     + ((if marker_eqb m n1 then 1 else 0) + occurrences (marker_text m) t1)
     + ((if marker_eqb m n2 then 1 else 0) + occurrences (marker_text m) t2)
     + ((if marker_eqb m n3 then 1 else 0) + occurrences (marker_text m) t3)
     + ((if marker_eqb m n4 then 1 else 0) + occurrences (marker_text m) t4)
     + ((if marker_eqb m n5 then 1 else 0) + occurrences (marker_text m) t5)
     + ((if marker_eqb m n6 then 1 else 0) + occurrences (marker_text m) t6))%nat.
Proof.
  unfold weave. rewrite occurrences_text_then_weave, !occurrences_weave_tail.
  cbn [weave_tail]. rewrite occurrences_empty. lia.
Qed.

(** When each marker occurs once in a document of three regions, it is the
    occurrence that the layout shows: no marker begins in any of the texts. *)
Lemma once_each_marker_free (k1 k2 k3 : section) (p0 x1 p1 x2 p2 x3 p3 : string) :
  k1 <> k2 -> k1 <> k3 -> k2 <> k3 ->
  (forall m, occurrences (marker_text m)
               (three_regions k1 k2 k3 p0 x1 p1 x2 p2 x3 p3) = 1%nat) ->
  marker_free p0 /\ marker_free x1 /\ marker_free p1 /\ marker_free x2
  /\ marker_free p2 /\ marker_free x3 /\ marker_free p3.
Proof.
  intros H12 H13 H23 Hone.
  assert (Hall : forall m,
             (occurrences (marker_text m) p0 + occurrences (marker_text m) x1
              + occurrences (marker_text m) p1 + occurrences (marker_text m) x2
              + occurrences (marker_text m) p2 + occurrences (marker_text m) x3
              + occurrences (marker_text m) p3 = 0)%nat).
  { intros m. specialize (Hone m). rewrite three_regions_weave, occurrences_six in Hone.
    destruct k1, k2, k3; try congruence; destruct m as [[] | []];
      cbn [marker_eqb] in Hone; lia. }
  repeat split; intros m; specialize (Hall m); lia.
Qed.

(** In a document laid out as three regions that lie apart, in any order,
    the three substitutions exchange the text between the markers of each
    region and nothing else. *)
Lemma update_readme_three_regions (now : datetime) (activity_content stats_content : string)
  (k1 k2 k3 : section) (p0 x1 p1 x2 p2 x3 p3 : string) :
  plain activity_content = true -> plain stats_content = true ->
  k1 <> k2 -> k1 <> k3 -> k2 <> k3 ->
  (forall k,
     occurrences (start_marker k) (three_regions k1 k2 k3 p0 x1 p1 x2 p2 x3 p3) = 1%nat
     /\ occurrences (end_marker k) (three_regions k1 k2 k3 p0 x1 p1 x2 p2 x3 p3) = 1%nat) ->
  update_readme now activity_content stats_content
    (three_regions k1 k2 k3 p0 x1 p1 x2 p2 x3 p3)
  = Ok (three_regions k1 k2 k3 p0
          (middle k1 (content_of now activity_content stats_content k1)) p1
          (middle k2 (content_of now activity_content stats_content k2)) p2
          (middle k3 (content_of now activity_content stats_content k3)) p3).
Proof.
  intros Ha Hs H12 H13 H23 Hone.
  assert (Hone' : forall m, occurrences (marker_text m)
                              (three_regions k1 k2 k3 p0 x1 p1 x2 p2 x3 p3) = 1%nat)
    by (intros [k | k]; apply Hone).
  destruct (once_each_marker_free _ _ _ _ _ _ _ _ _ _ H12 H13 H23 Hone')
    as (F0 & F1 & F2 & F3 & F4 & F5 & F6).
  rewrite !three_regions_weave. now apply update_readme_weave.
Qed.

(** ** The six markers in any order *)

(** The texts outside the regions in three layouts: regions that lie apart,
    a stats region that begins inside the activity region and ends after it,
    and an activity pair whose end marker comes first, which delimits no
    region. *)
Example outside_entries_samples :
  List.map fst (outside_entries
                  [ (Start Stats, "x1"); (End_ Stats, "p1"); (Start Activity, "x2");
                    (End_ Activity, "p2"); (Start Date, "x3"); (End_ Date, "p3") ])
  = [false; true; false; true; false; true]
  /\ List.map fst (outside_entries
                     [ (Start Activity, "b"); (Start Stats, "c"); (End_ Activity, "d");
                       (End_ Stats, "e"); (Start Date, "f"); (End_ Date, "g") ])
     = [false; false; false; true; false; true]
  /\ List.map fst (outside_entries
                     [ (End_ Activity, "b"); (Start Activity, "c"); (Start Stats, "d");
                       (End_ Stats, "e"); (Start Date, "f"); (End_ Date, "g") ])
     = [true; true; false; true; false; true].
Proof. repeat split. Qed.

Ltac kept :=
  lazymatch goal with
  | |- kept_outside [] [] => apply kept_nil
  | |- kept_outside ((true, _) :: _) _ => apply kept_keep; kept
  | |- kept_outside ((false, _) :: _) _ =>
      first [ solve [apply kept_region; kept] | apply kept_new; kept ]
  end.

Ltac next_entry H l :=
  let m := fresh "m" in
  let t := fresh "t" in
  destruct l as [| [m t] l];
  [ try discriminate H
  | destruct m as [[] | []]; cbn [List.map fst arrangement existsb marker_eqb negb orb andb] in H;
    try discriminate H ].

(** Whatever the order of the six markers is, the three substitutions keep
    the entries outside the regions. *)
Lemma arrangement_kept (l : list (marker * string)) (a s d : string) :
  arrangement [] (List.map fst l) = true ->
  kept_outside (outside_entries l)
    (patch_entries Date d (patch_entries Stats s (patch_entries Activity a l))).
Proof.
  intros H.
  next_entry H l; next_entry H l; next_entry H l; next_entry H l; next_entry H l;
    next_entry H l; next_entry H l;
    cbn [outside_entries outside_from has_marker existsb marker_eqb fst orb negb
         List.filter section_eqb patch_entries find_marker app];
    kept.
Qed.

(** *** Every document is woven of texts and markers *)

Lemma starts_with_extend (p a b : string) :
  starts_with p a = true -> starts_with p (a +:+ b) = true.
Proof.
  intros H. rewrite (starts_with_inv p a H), app_assoc_str. apply starts_with_app.
Qed.

Lemma marker_starts_or_not (s : string) :
  (exists m, starts_with (marker_text m) s = true)
  \/ (forall m, starts_with (marker_text m) s = false).
Proof.
  destruct (starts_with (marker_text (Start Activity)) s) eqn:H1; [left; eauto |].
  destruct (starts_with (marker_text (Start Stats)) s) eqn:H2; [left; eauto |].
  destruct (starts_with (marker_text (Start Date)) s) eqn:H3; [left; eauto |].
  destruct (starts_with (marker_text (End_ Activity)) s) eqn:H4; [left; eauto |].
  destruct (starts_with (marker_text (End_ Stats)) s) eqn:H5; [left; eauto |].
  destruct (starts_with (marker_text (End_ Date)) s) eqn:H6; [left; eauto |].
  right. intros [[] | []]; assumption.
Qed.

(** A text without ["<"] that begins a woven document lies in its first
    text. *)
Lemma plain_prefix_of_weave (tail rest t0 : string) (l : list (marker * string)) :
  has_char "<" tail = false -> tail +:+ rest = t0 +:+ weave_tail l ->
  exists t0', t0 = tail +:+ t0' /\ rest = t0' +:+ weave_tail l.
Proof.
  intros Htail H. destruct (weave_tail_shape l) as [Hw | [y Hw]]; rewrite Hw in H |- *.
  - rewrite app_nil_r_str in H. exists rest. now rewrite app_nil_r_str.
  - destruct (prefix_before_lt tail t0 y rest Htail (eq_sym H)) as [t0' ->].
    exists t0'. split; [reflexivity |].
    rewrite app_assoc_str in H. now apply app_inv_head_str in H.
Qed.

Lemma weave_exists (s : string) :
  exists t0 l,
    s = weave t0 l /\ marker_free t0 /\ Forall (fun e => marker_free (snd e)) l.
Proof.
  induction s as [| c s (t0 & l & -> & Ht0 & Hl)].
  - exists "", []. split; [reflexivity |].
    split; [intros m; apply occurrences_empty | apply Forall_nil; exact I].
  - destruct (marker_starts_or_not (String c (weave t0 l))) as [[m Hm] | Hnone].
    + destruct (marker_shape m) as (tail & Hshape & Htail).
      pose proof (starts_with_inv _ _ Hm) as Hs. rewrite Hshape, app_cons in Hs.
      set (rest := drop_str _ _) in Hs. injection Hs as -> Hs. unfold weave in Hs.
      destruct (plain_prefix_of_weave tail rest t0 l Htail (eq_sym Hs)) as (t0' & -> & Hrest).
      exists "", ((m, t0') :: l). split; [| split].
      * unfold weave. cbn [weave_tail]. rewrite app_nil_l, Hshape, app_cons.
        now rewrite app_assoc_str.
      * intros n. apply occurrences_empty.
      * apply Forall_cons. split; [| exact Hl].
        intros n. specialize (Ht0 n). now rewrite occurrences_plain in Ht0.
    + exists (String c t0), l. split; [| split; [| exact Hl]].
      * unfold weave. now rewrite app_cons.
      * intros m. rewrite occurrences_cons, (Ht0 m).
        destruct (starts_with (marker_text m) (String c t0)) eqn:Hc; [| reflexivity].
        apply (starts_with_extend _ _ (weave_tail l)) in Hc.
        rewrite app_cons in Hc. unfold weave in Hnone. now rewrite Hnone in Hc.
Qed.

(** *** Counting the markers of a woven document *)

Lemma count_marker_cons (m n : marker) (t : string) (l : list (marker * string)) :
  count_marker m ((n, t) :: l)
  = ((if marker_eqb m n then 1 else 0) + count_marker m l)%nat.
Proof. unfold count_marker. cbn [List.filter fst]. destruct (marker_eqb m n); reflexivity. Qed.

Lemma count_marker_app (m : marker) (l1 l2 : list (marker * string)) :
  count_marker m (l1 ++ l2) = (count_marker m l1 + count_marker m l2)%nat.
Proof. unfold count_marker. now rewrite List.filter_app, length_app. Qed.

Lemma occurrences_weave (m : marker) (t0 : string) (l : list (marker * string)) :
  marker_free t0 -> Forall (fun e => marker_free (snd e)) l ->
  occurrences (marker_text m) (weave t0 l) = count_marker m l.
Proof.
  intros Ht0 Hl. unfold weave. rewrite occurrences_text_then_weave, (Ht0 m). cbn [Nat.add].
  induction l as [| [n t] l IH].
  - apply occurrences_empty.
  - apply Forall_cons in Hl as [Ht Hl]. cbn [snd] in Ht.
    rewrite occurrences_weave_tail, (Ht m), (IH Hl), count_marker_cons. lia.
Qed.

Lemma count_marker_six (l : list (marker * string)) :
  List.length l
  = (count_marker (Start Activity) l + count_marker (Start Stats) l
     + count_marker (Start Date) l + count_marker (End_ Activity) l
     + count_marker (End_ Stats) l + count_marker (End_ Date) l)%nat.
Proof.
  induction l as [| [n t] l IH]; [reflexivity |].
  rewrite !count_marker_cons. cbn [List.length]. rewrite IH.
  destruct n as [[] | []]; cbn [marker_eqb]; lia.
Qed.

Lemma not_used (m : marker) (used : list marker) :
  List.length (List.filter (marker_eqb m) used) = 0%nat ->
  existsb (marker_eqb m) used = false.
Proof.
  induction used as [| u used IH]; [reflexivity |].
  cbn [List.filter existsb]. destruct (marker_eqb m u); [discriminate | exact IH].
Qed.

Lemma arrangement_of_counts (l : list (marker * string)) (used : list marker) :
  (forall m, count_marker m l + List.length (List.filter (marker_eqb m) used) <= 1)%nat ->
  (List.length l + List.length used = 6)%nat ->
  arrangement used (List.map fst l) = true.
Proof.
  revert used. induction l as [| [n t] l IH]; intros used Hcount Hlen.
  - cbn [List.map arrangement]. apply Nat.eqb_eq. exact Hlen.
  - cbn [List.map fst arrangement].
    assert (Hrefl : marker_eqb n n = true) by (destruct n as [[] | []]; reflexivity).
    pose proof (Hcount n) as Hn. rewrite count_marker_cons, Hrefl in Hn.
    rewrite not_used by lia. cbn [negb andb]. apply IH.
    + intros m. specialize (Hcount m). rewrite count_marker_cons in Hcount.
      cbn [List.filter]. destruct (marker_eqb m n); cbn [List.length] in *; lia.
    + cbn [List.length] in *. lia.
Qed.

Lemma once_each_arrangement (l : list (marker * string)) :
  (forall m, count_marker m l = 1%nat) -> arrangement [] (List.map fst l) = true.
Proof.
  intros Hone. apply arrangement_of_counts.
  - intros m. rewrite (Hone m). cbn. lia.
  - rewrite (count_marker_six l), !Hone. reflexivity.
Qed.

(** *** One substitution on the entries *)

Lemma marker_eqb_eq (m n : marker) : marker_eqb m n = true -> m = n.
Proof. destruct m as [[] | []], n as [[] | []]; (reflexivity || discriminate). Qed.

Lemma find_marker_some (m : marker) (l pre post : list (marker * string)) (x : string) :
  find_marker m l = Some (pre, x, post) ->
  l = pre ++ (m, x) :: post /\ Forall (fun e => marker_eqb m (fst e) = false) pre.
Proof.
  revert pre. induction l as [| [n t] l IH]; intros pre H; [discriminate |].
  cbn [find_marker] in H. destruct (marker_eqb m n) eqn:Hn.
  - injection H as <- <- <-. apply marker_eqb_eq in Hn as ->.
    split; [reflexivity | apply Forall_nil; exact I].
  - destruct (find_marker m l) as [[[pre' x'] post'] |]; [| discriminate].
    injection H as <- <- <-. destruct (IH pre' eq_refl) as [-> Hpre].
    split; [reflexivity | apply Forall_cons; split; assumption].
Qed.

Lemma find_marker_none (m : marker) (l : list (marker * string)) :
  find_marker m l = None -> Forall (fun e => marker_eqb m (fst e) = false) l.
Proof.
  induction l as [| [n t] l IH]; intros H; [apply Forall_nil; exact I |].
  cbn [find_marker] in H. destruct (marker_eqb m n) eqn:Hn; [discriminate |].
  destruct (find_marker m l) as [[[pre x] post] |]; [discriminate |].
  apply Forall_cons. split; [exact Hn | apply IH; reflexivity].
Qed.

Lemma count_marker_none (m : marker) (l : list (marker * string)) :
  count_marker m l = 0%nat -> Forall (fun e => marker_eqb m (fst e) = false) l.
Proof.
  induction l as [| [n t] l IH]; intros H; [apply Forall_nil; exact I |].
  rewrite count_marker_cons in H. apply Forall_cons. cbn [fst].
  destruct (marker_eqb m n); [discriminate | split; [reflexivity | apply IH; lia]].
Qed.

Lemma count_marker_absent (m : marker) (l : list (marker * string)) :
  Forall (fun e => marker_eqb m (fst e) = false) l -> count_marker m l = 0%nat.
Proof.
  induction l as [| [n t] l IH]; intros H; [reflexivity |].
  apply Forall_cons in H as [Hn H]. cbn [fst] in Hn.
  now rewrite count_marker_cons, Hn, IH.
Qed.

Lemma clear_of_intro (m : marker) (l : list (marker * string)) :
  Forall (fun e => marker_eqb m (fst e) = false) l ->
  Forall (fun e => marker_free (snd e)) l -> clear_of m l.
Proof.
  unfold clear_of. induction l as [| e l IH]; intros Hm Hf; [apply Forall_nil; exact I |].
  apply Forall_cons in Hm as [Hm1 Hm]. apply Forall_cons in Hf as [Hf1 Hf].
  apply Forall_cons. split; [split; [exact Hm1 | apply Hf1] | now apply IH].
Qed.

(** The substitution on a woven document is the substitution on its
    entries. *)
Lemma patch_on_weave (k : section) (content t0 : string) (l : list (marker * string)) :
  has_char backslash content = false ->
  marker_free t0 -> Forall (fun e => marker_free (snd e)) l ->
  (count_marker (Start k) l <= 1)%nat ->
  patch k content (weave t0 l) = Ok (weave t0 (patch_entries k content l)).
Proof.
  intros Hplain Ht0 Hl Honce. rewrite patch_unfold by exact Hplain. f_equal.
  rewrite sub_all_unfold by apply start_marker_not_empty. unfold patch_entries.
  destruct (find_marker (Start k) l) as [[[pre x] rest] |] eqn:Hstart.
  2: { apply find_marker_none in Hstart.
       pose proof (split_at_weave_miss (Start k) t0 l (Ht0 _)
                     (clear_of_intro _ _ Hstart Hl)) as H0.
       cbn [marker_text] in H0. now rewrite H0. }
  apply find_marker_some in Hstart as [-> Hpre].
  apply Forall_app in Hl as [Hlpre Hl]. apply Forall_cons in Hl as [Hx Hrest]. cbn [snd] in Hx.
  pose proof (split_at_weave_hit (Start k) t0 x pre rest (Ht0 _)
                (clear_of_intro _ _ Hpre Hlpre)) as H1.
  cbn [marker_text] in H1. rewrite H1.
  destruct (find_marker (End_ k) rest) as [[[mid t] post] |] eqn:Hend.
  2: { apply find_marker_none in Hend.
       pose proof (split_at_weave_miss (End_ k) x rest (Hx _)
                     (clear_of_intro _ _ Hend Hrest)) as H2.
       cbn [marker_text] in H2. unfold weave in H2. now rewrite H2. }
  apply find_marker_some in Hend as [-> Hmid].
  apply Forall_app in Hrest as [Hlmid Hrest].
  apply Forall_cons in Hrest as [Ht Hpost]. cbn [snd] in Ht.
  pose proof (split_at_weave_hit (End_ k) x t mid post (Hx _)
                (clear_of_intro _ _ Hmid Hlmid)) as H2.
  cbn [marker_text] in H2. unfold weave in H2. rewrite H2, expand_literal.
  assert (Hnone : Forall (fun e => marker_eqb (Start k) (fst e) = false) post).
  { apply count_marker_none.
    rewrite count_marker_app, count_marker_cons, count_marker_app, count_marker_cons in Honce.
    destruct k; cbn [marker_eqb] in Honce; lia. }
  pose proof (split_at_weave_miss (Start k) t post (Ht _) (clear_of_intro _ _ Hnone Hpost))
    as H3.
  cbn [marker_text] in H3. unfold weave in H3.
  rewrite sub_all_unfold by apply start_marker_not_empty. rewrite H3.
  unfold weave. rewrite !weave_tail_app. cbn [weave_tail marker_text].
  rewrite section_text_middle, !app_assoc_str. reflexivity.
Qed.

(** What a substitution leaves: texts without markers, and no marker more
    often than before. *)
Lemma patch_entries_kind (k : section) (content : string) (l : list (marker * string)) :
  marker_free (middle k content) -> Forall (fun e => marker_free (snd e)) l ->
  Forall (fun e => marker_free (snd e)) (patch_entries k content l)
  /\ forall m, (count_marker m (patch_entries k content l) <= count_marker m l)%nat.
Proof.
  intros Hnew Hl. unfold patch_entries.
  destruct (find_marker (Start k) l) as [[[pre x] rest] |] eqn:Hstart; [| now split].
  destruct (find_marker (End_ k) rest) as [[[mid t] post] |] eqn:Hend; [| now split].
  apply find_marker_some in Hstart as [-> _]. apply find_marker_some in Hend as [-> _].
  apply Forall_app in Hl as [Hpre Hl]. apply Forall_cons in Hl as [_ Hl].
  apply Forall_app in Hl as [_ Hl]. apply Forall_cons in Hl as [Ht Hpost].
  split.
  - apply Forall_app. split; [exact Hpre |].
    apply Forall_cons. split; [exact Hnew |]. apply Forall_cons. split; assumption.
  - intros m. rewrite !count_marker_app, !count_marker_cons, count_marker_app,
      count_marker_cons. lia.
Qed.

(** The three substitutions on a woven document in which no marker occurs
    twice. *)
Lemma update_readme_on_weave (now : datetime) (a s t0 : string) (l : list (marker * string)) :
  plain a = true -> plain s = true ->
  marker_free t0 -> Forall (fun e => marker_free (snd e)) l ->
  (forall m, count_marker m l <= 1)%nat ->
  update_readme now a s (weave t0 l)
  = Ok (weave t0 (patch_entries Date (strftime_stamp now)
                    (patch_entries Stats s (patch_entries Activity a l)))).
Proof.
  intros Ha Hs Ht0 Hl Honce.
  destruct (plain_inv _ Ha) as [Hab Hal]. destruct (plain_inv _ Hs) as [Hsb Hsl].
  destruct (plain_inv _ (plain_stamp now)) as [Hdb Hdl].
  destruct (patch_entries_kind Activity a l (middle_marker_free _ _ Hal) Hl) as [Hl1 Hc1].
  destruct (patch_entries_kind Stats s _ (middle_marker_free _ _ Hsl) Hl1) as [Hl2 Hc2].
  unfold update_readme.
  rewrite (patch_on_weave Activity a t0 l Hab Ht0 Hl (Honce _)). cbn [bind].
  rewrite (patch_on_weave Stats s t0 _ Hsb Ht0 Hl1).
  2: { eapply Nat.le_trans; [apply Hc1 | apply Honce]. }
  cbn [bind]. rewrite (patch_on_weave Date _ t0 _ Hdb Ht0 Hl2).
  2: { eapply Nat.le_trans; [apply Hc2 |]. eapply Nat.le_trans; [apply Hc1 | apply Honce]. }
  reflexivity.
Qed.

(** C2.  Every document in which each of the six markers occurs exactly once
    is woven of seven texts and the six markers, in some order.  The region
    of a section reaches from its start marker to its end marker, when they
    stand in this order; the regions may lie apart, inside one another or
    across one another.  The three substitutions of [update_readme] give a
    document that begins with the same text and in which every text outside
    the regions stands as it stood, after the marker that it followed;
    only in the place of what lay inside the regions something else may
    stand.  The contents are plain: no backslash and no ["<"], as the
    contents that the script renders are. *)
Theorem update_readme_keeps_outside (now : datetime)
  (activity_content stats_content doc : string) :
  plain activity_content = true -> plain stats_content = true ->
  (forall k, occurrences (start_marker k) doc = 1%nat
             /\ occurrences (end_marker k) doc = 1%nat) ->
  exists t0 l r,
    doc = weave t0 l
    /\ marker_free t0 /\ Forall (fun e => marker_free (snd e)) l
    /\ update_readme now activity_content stats_content doc = Ok (weave t0 r)
    /\ kept_outside (outside_entries l) r.
Proof.
  intros Ha Hs Hone.
  destruct (weave_exists doc) as (t0 & l & -> & Ht0 & Hl).
  assert (Hcount : forall m, count_marker m l = 1%nat).
  { intros m. rewrite <- (occurrences_weave m t0 l Ht0 Hl).
    destruct m as [k | k]; apply (Hone k). }
  exists t0, l. eexists.
  split; [reflexivity |]. split; [exact Ht0 |]. split; [exact Hl |]. split.
  - apply update_readme_on_weave; try assumption.
    intros m. rewrite (Hcount m). apply Nat.le_refl.
  - apply arrangement_kept, once_each_arrangement, Hcount.
Qed.

Lemma update_readme_keeps_outside_witness :
  plain "new activity" = true /\ plain "new stats" = true
  /\ (forall k, occurrences (start_marker k) sample_interleaved_readme = 1%nat
                /\ occurrences (end_marker k) sample_interleaved_readme = 1%nat)
  /\ update_readme sample_now "new activity" "new stats" sample_interleaved_readme
     = Ok ("a<!-- ACTIVITY_START -->" +:+ nl +:+ "new activity" +:+ nl
           +:+ "<!-- ACTIVITY_END -->d<!-- STATS_END -->e"
           +:+ "<!-- DATE_START -->2026-11-03 12:00 UTC<!-- DATE_END -->g")
  /\ exists t0 l r,
       sample_interleaved_readme = weave t0 l
       /\ marker_free t0 /\ Forall (fun e => marker_free (snd e)) l
       /\ update_readme sample_now "new activity" "new stats" sample_interleaved_readme
          = Ok (weave t0 r)
       /\ kept_outside (outside_entries l) r.
Proof.
  assert (Ha : plain "new activity" = true) by reflexivity.
  assert (Hs : plain "new stats" = true) by reflexivity.
  assert (Hone : forall k, occurrences (start_marker k) sample_interleaved_readme = 1%nat
                           /\ occurrences (end_marker k) sample_interleaved_readme = 1%nat)
    by (intros []; split; reflexivity).
  split; [exact Ha |]. split; [exact Hs |]. split; [exact Hone |].
  split; [reflexivity |].
  exact (update_readme_keeps_outside sample_now "new activity" "new stats"
           sample_interleaved_readme Ha Hs Hone).
Defined.

(** A content that contains a marker of another section breaks the frame:
    the activity content below brings a stats start marker, and the stats
    substitution then swallows the text between the two regions. *)
Example hostile_content_breaks_frame :
  update_readme sample_now "<!-- STATS_START -->" "s"
    ("<!-- ACTIVITY_START --><!-- ACTIVITY_END --> kept? "
     +:+ "<!-- STATS_START --><!-- STATS_END -->")
  = Ok ("<!-- ACTIVITY_START -->" +:+ nl +:+ "<!-- STATS_START -->" +:+ nl +:+ "s" +:+ nl
        +:+ "<!-- STATS_END -->").
Proof. reflexivity. Qed.

(** ** What the script renders is plain text *)

Lemma plain_cons_digit (x : Z) (s : string) :
  plain (String (digit_char (x mod 10)) s) = plain s.
Proof.
  unfold plain. rewrite !has_char_cons.
  destruct (digit_char_plain x) as [-> ->]. reflexivity.
Qed.

Lemma plain_digits_of (fuel : nat) (n : Z) (acc : string) :
  plain acc = true -> plain (digits_of fuel n acc) = true.
Proof.
  revert n acc. induction fuel as [| fuel IH]; intros n acc Hacc; cbn [digits_of].
  - now rewrite plain_cons_digit.
  - destruct (n <? 10); [now rewrite plain_cons_digit |].
    apply IH. now rewrite plain_cons_digit.
Qed.

Lemma plain_str_int (n : Z) : plain (str_int n) = true.
Proof.
  unfold str_int. destruct (n <? 0).
  - change (String "-" ?s) with ("-" +:+ s). rewrite plain_app.
    now rewrite plain_digits_of.
  - now apply plain_digits_of.
Qed.

Lemma plain_join (sep : string) (parts : list string) :
  plain sep = true -> Forall (fun p => plain p = true) parts ->
  plain (join sep parts) = true.
Proof.
  intros Hsep Hall. induction Hall as [| p ps Hp Hps IH]; [reflexivity |].
  cbn [join]. destruct ps as [| q ps]; [exact Hp |].
  rewrite !plain_app, Hp, Hsep, IH. reflexivity.
Qed.

Lemma plain_repeat_str (s : string) (n : nat) :
  plain s = true -> plain (repeat_str s n) = true.
Proof.
  intros Hs. induction n as [| n IH]; [reflexivity |].
  cbn [repeat_str]. now rewrite plain_app, Hs, IH.
Qed.

Ltac plain_parts :=
  repeat first
    [ apply Forall_cons; split
    | apply Forall_nil; exact I
    | rewrite plain_app
    | rewrite plain_str_int
    | rewrite plain_pad2
    | reflexivity ].

(** The stats section. *)
Lemma plain_stats_section (user_stats : gmap string Z) (st : stats) :
  plain (generate_stats_section user_stats st) = true.
Proof.
  unfold generate_stats_section. apply plain_join; [reflexivity |]. plain_parts.
Qed.

Lemma plain_chart_line (events_by_day : gmap string Z) (max : Z) (day line : string) :
  chart_line events_by_day max day = Ok line -> plain line = true.
Proof.
  unfold chart_line. intros H.
  apply bind_ok in H as (n & _ & H). apply bind_ok in H as (d & _ & H).
  match type of H with Ok ?t = _ => replace line with t by congruence end.
  unfold strftime_md.
  rewrite !plain_app, !plain_pad2, plain_str_int, plain_repeat_str; reflexivity.
Qed.

Lemma plain_map_result {A : Type} (f : A -> result string) (xs : list A) (ys : list string) :
  (forall x y, f x = Ok y -> plain y = true) ->
  map_result f xs = Ok ys -> Forall (fun y => plain y = true) ys.
Proof.
  intros Hf. revert ys. induction xs as [| x xs IH]; intros ys H; cbn [map_result] in H.
  - injection H as <-. apply Forall_nil. exact I.
  - apply bind_ok in H as (y & Hy & H). apply bind_ok in H as (ys' & Hys & H).
    injection H as <-. apply Forall_cons. split; [eapply Hf, Hy | apply IH, Hys].
Qed.

(** The chart. *)
Lemma plain_chart (today : datetime) (events_by_day : gmap string Z) (chart : string) :
  create_activity_chart today events_by_day = Ok chart -> plain chart = true.
Proof.
  unfold create_activity_chart. intros H.
  destruct (bool_decide (events_by_day = ∅)); [injection H as <-; reflexivity |].
  apply bind_ok in H as (bars & Hbars & H).
  replace chart
    with (join nl (["```"; "Activity over the last 30 days:"; ""] ++ bars ++ ["```"]))
    by congruence.
  apply plain_join; [reflexivity |].
  apply Forall_app. split; [plain_parts |]. apply Forall_app. split; [| plain_parts].
  eapply plain_map_result; [| exact Hbars].
  intros day line. apply plain_chart_line.
Qed.

(** The activity section. *)
Lemma plain_activity_section (today : datetime) (st : stats) (content : string) :
  generate_activity_section today st = Ok content -> plain content = true.
Proof.
  unfold generate_activity_section. intros H.
  apply bind_ok in H as (chart & Hchart & H).
  apply plain_chart in Hchart.
  match type of H with Ok ?t = _ => replace content with t by congruence end.
  apply plain_join; [reflexivity |]. plain_parts. exact Hchart.
Qed.

(** X13. The frame property holds for every run of the script on a document
    of three regions: the contents it renders are plain. *)
Corollary rendered_update_keeps_outside (today now : datetime) (user_stats : gmap string Z)
  (st : stats) (activity_content : string) (k1 k2 k3 : section)
  (p0 x1 p1 x2 p2 x3 p3 : string) :
  generate_activity_section today st = Ok activity_content ->
  k1 <> k2 -> k1 <> k3 -> k2 <> k3 ->
  (forall k,
     occurrences (start_marker k) (three_regions k1 k2 k3 p0 x1 p1 x2 p2 x3 p3) = 1%nat
     /\ occurrences (end_marker k) (three_regions k1 k2 k3 p0 x1 p1 x2 p2 x3 p3) = 1%nat) ->
  exists y1 y2 y3,
    update_readme now activity_content (generate_stats_section user_stats st)
      (three_regions k1 k2 k3 p0 x1 p1 x2 p2 x3 p3)
    = Ok (three_regions k1 k2 k3 p0 y1 p1 y2 p2 y3 p3).
Proof.
  intros Hact H12 H13 H23 Hone. do 3 eexists.
  assert (Hone' : forall m, occurrences (marker_text m)
                              (three_regions k1 k2 k3 p0 x1 p1 x2 p2 x3 p3) = 1%nat)
    by (intros [k | k]; apply Hone).
  destruct (once_each_marker_free _ _ _ _ _ _ _ _ _ _ H12 H13 H23 Hone')
    as (F0 & F1 & F2 & F3 & F4 & F5 & F6).
  rewrite !three_regions_weave. apply update_readme_weave; try assumption.
  - eapply plain_activity_section, Hact.
  - apply plain_stats_section.
Qed.

(** * Further properties of the functions *)

(** ** Event aggregator: the counters and the per-day map *)

Lemma count_where_cons (p : json -> bool) (e : json) (es : list json) :
  count_where p (e :: es) = (if p e then 1 else 0) + count_where p es.
Proof.
  unfold count_where. cbn [List.filter]. destruct (p e); cbn [List.length]; lia.
Qed.

Lemma count_where_bounds (p : json -> bool) (events : list json) :
  0 <= count_where p events <= Z.of_nat (List.length events).
Proof.
  induction events as [| e es IH]; [unfold count_where; simpl; lia |].
  rewrite count_where_cons. cbn [List.length]. destruct (p e); lia.
Qed.

Ltac crunch_counter :=
  repeat (simpl;
          match goal with
          | |- True => exact I
          | |- context [String.eqb ?s ?lit] =>
              is_var s; destruct (String.eqb_spec s lit); [subst s |]
          | |- context [assoc ?k ?ms] =>
              is_var ms; destruct (assoc k ms) as [[] |]
          | |- context [strptime_iso ?s] => destruct (strptime_iso s)
          | |- context [dt_ltb ?a ?b] => destruct (dt_ltb a b)
          | |- context [match ?x with [] => _ | _ :: _ => _ end] => is_var x; destruct x
          | |- context [if ?b then _ else _] => is_var b; destruct b
          | |- context [?n =? 0] => is_var n; destruct (Z.eqb_spec n 0)
          end).

(** One iteration moves a counter by one when the event is inside the window
    and is of the kind that the counter counts, and not otherwise. *)
Lemma analyze_event_moves (cutoff : datetime) (t : tally) (e : json) (c : counter) :
  match analyze_event cutoff t e with
  | Ok t' =>
      t_counter c t'
      = t_counter c t
        + (if match event_date e with
              | Ok d => negb (dt_ltb d cutoff)
              | Raise _ => false
              end && moves c e
           then 1 else 0)
  | Raise _ => True
  end.
Proof.
  unfold analyze_event, event_date, moves, merged, ref_type_is, type_is, action_is, classify,
    subscript, get, as_str, hash_key, py_len, eq_str, at_path.
  destruct e; crunch_counter; destruct c; simpl; lia.
Qed.

Lemma loop_counter (now : datetime) (c : counter) (events : list json) (t t' : tally) :
  for_each (analyze_event (minus_days now 30)) events t = Ok t' ->
  t_counter c t'
  = t_counter c t + count_where (fun e => in_window now e && moves c e) events.
Proof.
  revert t. induction events as [| e es IH]; intros t H; simpl in H.
  - injection H as <-. unfold count_where. simpl. lia.
  - apply bind_ok in H as (t1 & Hstep & Hrest).
    pose proof (analyze_event_moves (minus_days now 30) t e c) as Hmove.
    rewrite Hstep in Hmove. rewrite (IH _ Hrest), Hmove, count_where_cons.
    unfold in_window. lia.
Qed.

(** [d[k] += 1] read back. *)
Lemma lookup_bump (k k' : string) (d : gmap string Z) :
  bump k d !! k' = if String.eqb k' k then Some (default 0 (d !! k) + 1) else d !! k'.
Proof.
  unfold bump. destruct (String.eqb_spec k' k) as [-> | Hne].
  - apply lookup_insert_eq.
  - apply lookup_insert_ne. congruence.
Qed.

(** One iteration counts an event inside the window under its day. *)
Lemma analyze_event_day (now : datetime) (t t' : tally) (e : json) :
  analyze_event (minus_days now 30) t e = Ok t' ->
  t_events_by_day t'
  = match day_key e with
    | Some k => if in_window now e then bump k (t_events_by_day t) else t_events_by_day t
    | None => t_events_by_day t
    end.
Proof.
  unfold analyze_event, in_window, day_key. intros H.
  destruct (event_date e) as [d | x]; simpl in H; [| discriminate].
  destruct (dt_ltb d (minus_days now 30)); simpl; [congruence |].
  destruct (subscript e "type") as [ty | x]; simpl in H; [| discriminate].
  destruct (subscript e "repo") as [repo | x]; simpl in H; [| discriminate].
  destruct (subscript repo "name") as [name | x]; simpl in H; [| discriminate].
  destruct (hash_key name) as [k | x]; simpl in H; [| discriminate].
  apply classify_effect in H as (_ & Hd & _). exact Hd.
Qed.

Lemma loop_days (now : datetime) (k : string) (events : list json) (t t' : tally) :
  for_each (analyze_event (minus_days now 30)) events t = Ok t' ->
  t_events_by_day t' !! k
  = (let n := count_where (fun e => in_window now e && on_day k e) events in
     if n =? 0 then t_events_by_day t !! k
     else Some (default 0 (t_events_by_day t !! k) + n)).
Proof.
  revert t. induction events as [| e es IH]; intros t H; simpl in H.
  - injection H as <-. reflexivity.
  - apply bind_ok in H as (t1 & Hstep & Hrest).
    rewrite (IH _ Hrest). cbv zeta. rewrite count_where_cons.
    pose proof (count_where_bounds (fun e => in_window now e && on_day k e) es) as Hb.
    set (n := count_where _ es) in *.
    rewrite (analyze_event_day _ _ _ _ Hstep). unfold on_day.
    destruct (day_key e) as [k' |]; [| rewrite andb_false_r; reflexivity].
    destruct (in_window now e); cbn [andb]; [| reflexivity].
    rewrite lookup_bump.
    destruct (String.eqb_spec k k') as [<- | Hne]; cbn [default]; [| reflexivity].
    clearbody n. unfold id.
    destruct (Z.eqb_spec (1 + n) 0); [lia |].
    destruct (Z.eqb_spec n 0) as [-> | Hn]; f_equal; lia.
Qed.

(** The per-day map of the result, entry by entry. *)
Lemma analysis_day_lookup (now : datetime) (events : list json) (st : stats) (k : string) :
  analyze_events now events = Ok st ->
  events_by_day st !! k
  = (let n := count_where (fun e => in_window now e && on_day k e) events in
     if n =? 0 then None else Some n).
Proof.
  unfold analyze_events. intros H.
  apply bind_ok in H as (t & Hloop & Hst). injection Hst as <-.
  cbn [finish events_by_day]. rewrite (loop_days now k _ _ _ Hloop).
  cbn [empty_tally t_events_by_day]. rewrite lookup_empty. reflexivity.
Qed.

Lemma analysis_counts_bounded (now : datetime) (events : list json) (st : stats)
  (k : string) (v : Z) :
  analyze_events now events = Ok st -> events_by_day st !! k = Some v ->
  1 <= v <= Z.of_nat (List.length events).
Proof.
  intros H Hk. rewrite (analysis_day_lookup now events st k H) in Hk. cbv zeta in Hk.
  pose proof (count_where_bounds (fun e => in_window now e && on_day k e) events) as Hb.
  destruct (Z.eqb_spec (count_where (fun e => in_window now e && on_day k e) events) 0);
    [discriminate |].
  injection Hk as <-. lia.
Qed.

(** X1. [events_by_day] holds, under each day, the number of the events
    inside the window whose timestamp falls on that day, and no entry for a
    day without such an event: every count it holds is at least 1 and at
    most the number of events. *)
Theorem events_by_day_counts (now : datetime) (events : list json) (st : stats) :
  analyze_events now events = Ok st ->
  forall k,
    events_by_day st !! k
    = (let n := count_where (fun e => in_window now e && on_day k e) events in
       if n =? 0 then None else Some n)
    /\ (forall v, events_by_day st !! k = Some v -> 1 <= v <= Z.of_nat (List.length events)).
Proof.
  intros H k. split.
  - apply analysis_day_lookup, H.
  - intros v Hv. eapply analysis_counts_bounded; [exact H | exact Hv].
Qed.

Lemma events_by_day_counts_witness :
  analyze_events sample_now sample_events = Ok sample_analysis
  /\ events_by_day sample_analysis !! "2026-10-20" = Some 2
  /\ events_by_day sample_analysis !! "2026-10-20"
     = (let n := count_where (fun e => in_window sample_now e && on_day "2026-10-20" e)
                   sample_events in
        if n =? 0 then None else Some n).
Proof.
  assert (H : analyze_events sample_now sample_events = Ok sample_analysis)
    by (vm_compute; reflexivity).
  split; [exact H |]. split; [vm_compute; reflexivity |].
  exact (proj1 (events_by_day_counts sample_now sample_events sample_analysis H
                  "2026-10-20")).
Defined.

(** X2. Each of the seven counters next to [commits] is the number of events
    inside the window of the kind it counts: pull requests opened, pull
    requests closed with a true ['merged'], issues opened, issue comments,
    review comments, stars, and repositories created. *)
Theorem analyze_events_counters (now : datetime) (events : list json) (st : stats) :
  analyze_events now events = Ok st ->
  forall c, counter_of c st = count_where (fun e => in_window now e && moves c e) events.
Proof.
  unfold analyze_events. intros H c.
  apply bind_ok in H as (t & Hloop & Hst). injection Hst as <-.
  pose proof (loop_counter now c _ _ _ Hloop) as Hc.
  destruct c; cbn [counter_of finish prs_opened prs_merged issues_opened issues_commented
                     review_comments stars_given repos_created t_counter empty_tally
                     t_prs_opened t_prs_merged t_issues_opened t_issues_commented
                     t_review_comments t_stars_given t_repos_created] in *; lia.
Qed.

Lemma analyze_events_counters_witness :
  analyze_events sample_now sample_events = Ok sample_analysis
  /\ counter_of PrsOpened sample_analysis = 1
  /\ counter_of StarsGiven sample_analysis
     = count_where (fun e => in_window sample_now e && moves StarsGiven e) sample_events.
Proof.
  assert (H : analyze_events sample_now sample_events = Ok sample_analysis)
    by (vm_compute; reflexivity).
  split; [exact H |]. split; [vm_compute; reflexivity |].
  exact (analyze_events_counters sample_now sample_events sample_analysis H StarsGiven).
Defined.

(** *** The order of the events *)

Lemma count_where_perm (p : json -> bool) (l l' : list json) :
  l ≡ₚ l' -> count_where p l = count_where p l'.
Proof.
  induction 1 as [| x l l' _ IH | x y l | l l' l'' _ IH1 _ IH2].
  - reflexivity.
  - rewrite !count_where_cons, IH. reflexivity.
  - rewrite !count_where_cons. lia.
  - congruence.
Qed.

Lemma forallb_perm {A : Type} (p : A -> bool) (l l' : list A) :
  l ≡ₚ l' -> forallb p l = forallb p l'.
Proof.
  induction 1 as [| x l l' _ IH | x y l | l l' l'' _ IH1 _ IH2]; cbn [forallb].
  - reflexivity.
  - now rewrite IH.
  - destruct (p x), (p y); reflexivity.
  - congruence.
Qed.

Lemma commit_sum_perm (now : datetime) (l l' : list json) :
  l ≡ₚ l' ->
  sum_list (List.map commit_list_length (List.filter is_push (List.filter (in_window now) l)))
  = sum_list (List.map commit_list_length
                (List.filter is_push (List.filter (in_window now) l'))).
Proof.
  induction 1 as [| x l l' _ IH | x y l | l l' l'' _ IH1 _ IH2]; cbn [List.filter].
  - reflexivity.
  - destruct (in_window now x); cbn [List.filter]; [| exact IH].
    destruct (is_push x); cbn [List.map sum_list foldr]; [| exact IH].
    unfold sum_list in IH. now rewrite IH.
  - destruct (in_window now x), (in_window now y); cbn [List.filter]; try reflexivity.
    destruct (is_push x), (is_push y); cbn [List.map sum_list foldr]; try reflexivity.
    lia.
  - congruence.
Qed.

Lemma repo_names_perm (now : datetime) (l l' : list json) :
  l ≡ₚ l' ->
  repo_names (List.filter (in_window now) l) = repo_names (List.filter (in_window now) l').
Proof.
  unfold repo_names.
  induction 1 as [| x l l' _ IH | x y l | l l' l'' _ IH1 _ IH2]; cbn [List.filter].
  - reflexivity.
  - destruct (in_window now x); cbn [omap list_omap]; [| exact IH].
    destruct (repo_key x); cbn [list_to_set foldr]; [| exact IH].
    now rewrite IH.
  - destruct (in_window now x), (in_window now y); cbn [omap list_omap]; try reflexivity.
    destruct (repo_key x), (repo_key y); cbn [list_to_set]; try reflexivity.
    rewrite !(assoc_L (∪)). f_equal. apply (comm_L (∪)).
  - congruence.
Qed.

(** The tally that the loop leaves does not depend on the order in which
    the events are met. *)
Lemma loop_perm (now : datetime) (l l' : list json) (t t' : tally) :
  l ≡ₚ l' ->
  for_each (analyze_event (minus_days now 30)) l empty_tally = Ok t ->
  for_each (analyze_event (minus_days now 30)) l' empty_tally = Ok t' ->
  t = t'.
Proof.
  intros Hperm H H'.
  pose proof (fun c => loop_counter now c _ _ _ H) as Hc.
  pose proof (fun c => loop_counter now c _ _ _ H') as Hc'.
  pose proof (fun k => loop_days now k _ _ _ H) as Hd.
  pose proof (fun k => loop_days now k _ _ _ H') as Hd'.
  apply loop_ignores_outside in H, H'.
  destruct (loop_inside _ _ _ _ H (filter_all_inside now l)) as (Hr & Hn).
  destruct (loop_inside _ _ _ _ H' (filter_all_inside now l')) as (Hr' & Hn').
  rewrite <- (repo_names_perm now l l' Hperm), <- Hr in Hr'.
  rewrite <- (commit_sum_perm now l l' Hperm), <- Hn in Hn'.
  assert (Hcc : forall c, t_counter c t' = t_counter c t).
  { intros c. rewrite Hc, Hc'. f_equal. symmetry. now apply count_where_perm. }
  assert (Hdd : t_events_by_day t' = t_events_by_day t).
  { apply map_eq. intros k. rewrite Hd, Hd'. cbv zeta.
    now rewrite (count_where_perm _ l l' Hperm). }
  pose proof (Hcc PrsOpened) as H1. pose proof (Hcc PrsMerged) as H2.
  pose proof (Hcc IssuesOpened) as H3. pose proof (Hcc IssuesCommented) as H4.
  pose proof (Hcc ReviewComments) as H5. pose proof (Hcc StarsGiven) as H6.
  pose proof (Hcc ReposCreated) as H7.
  destruct t, t'. cbn in H1, H2, H3, H4, H5, H6, H7, Hdd, Hr', Hn'.
  congruence.
Qed.

(** X3. The result of [analyze_events] does not depend on the order of the
    events: on a reordering of a list on which it returns, it returns the
    same statistics. *)
Theorem analyze_events_order_irrelevant (now : datetime) (events events' : list json)
  (st : stats) :
  events ≡ₚ events' -> analyze_events now events = Ok st ->
  analyze_events now events' = Ok st.
Proof.
  intros Hperm H.
  assert (Hok : is_ok (analyze_events now events') = true).
  { rewrite analyze_events_is_ok, <- (forallb_perm _ _ _ Hperm), <- analyze_events_is_ok.
    now rewrite H. }
  unfold analyze_events in *.
  destruct (for_each (analyze_event (minus_days now 30)) events' empty_tally)
    as [t' | x] eqn:H'; [| discriminate].
  apply bind_ok in H as (t & Hloop & Hst). cbn [bind].
  now rewrite <- (loop_perm now _ _ _ _ Hperm Hloop H').
Qed.

Lemma analyze_events_order_irrelevant_witness :
  sample_events ≡ₚ rev sample_events
  /\ analyze_events sample_now sample_events = Ok sample_analysis
  /\ analyze_events sample_now (rev sample_events) = Ok sample_analysis.
Proof.
  assert (Hp : sample_events ≡ₚ rev sample_events) by apply Permutation_rev.
  assert (H : analyze_events sample_now sample_events = Ok sample_analysis)
    by (vm_compute; reflexivity).
  split; [exact Hp |]. split; [exact H |].
  exact (analyze_events_order_irrelevant sample_now sample_events (rev sample_events)
           sample_analysis Hp H).
Defined.

(** ** The boundary of the window *)

Lemma pbind_ok {A B : Type} (p : parser A) (k : A -> parser B) (s s' : string) (b : B) :
  pbind p k s = Ok (b, s') -> exists a s1, p s = Ok (a, s1) /\ k a s1 = Ok (b, s').
Proof.
  unfold pbind. destruct (p s) as [[a s1] | e]; [eauto | discriminate].
Qed.

(** [strptime] with a format that has no [%f] gives no microseconds. *)
Lemma strptime_iso_microsecond (s : string) (d : datetime) :
  strptime_iso s = Ok d -> microsecond d = 0.
Proof.
  unfold strptime_iso, run_parser. intros H.
  match type of H with
  | match ?p s with _ => _ end = _ => destruct (p s) as [[r s'] | x] eqn:Hp; [| discriminate]
  end.
  subst r.
  repeat (apply pbind_ok in Hp as (? & ? & _ & Hp)).
  unfold p_end, make_datetime in Hp.
  repeat match type of Hp with
         | context [match ?x with _ => _ end] => destruct x; try discriminate
         end.
  injection Hp as <-. reflexivity.
Qed.

Lemma event_date_microsecond (e : json) (d : datetime) :
  event_date e = Ok d -> microsecond d = 0.
Proof.
  unfold event_date. intros H.
  apply bind_ok in H as (created & _ & H). apply bind_ok in H as (text & _ & H).
  eapply strptime_iso_microsecond, H.
Qed.

Lemma minus_days_time (t : datetime) (n : Z) :
  hour (minus_days t n) = hour t /\ minute (minus_days t n) = minute t
  /\ second (minus_days t n) = second t /\ microsecond (minus_days t n) = microsecond t.
Proof.
  unfold minus_days.
  destruct (ord2ymd (ymd2ord (year t) (month t) (day t) - n)) as [[y m] d].
  repeat split.
Qed.

(** Two readings that agree down to the second are ordered by their
    microseconds. *)
Lemma dt_ltb_same_second (a b : datetime) :
  to_the_second a = to_the_second b -> dt_ltb a b = (microsecond a <? microsecond b).
Proof.
  unfold to_the_second, dt_ltb, fields. intros H.
  injection H as -> -> -> -> -> ->. cbn [lex_ltb].
  rewrite !Z.ltb_irrefl, !Z.eqb_refl. cbn [orb andb].
  destruct (microsecond a <? microsecond b), (microsecond a =? microsecond b); reflexivity.
Qed.

(** X4. The comparison [event_date < thirty_days_ago] is between a timestamp
    without microseconds and a clock reading with them: an event stamped at
    the very second that lies 30 days before the reading is counted when the
    reading has no microseconds, and dropped when it has some. *)
Theorem boundary_second_counted (now : datetime) (e : json) (d : datetime) :
  fields_present e = true -> event_date e = Ok d ->
  to_the_second d = to_the_second (minus_days now 30) -> 0 <= microsecond now ->
  exists st,
    analyze_events now [e] = Ok st
    /\ events_by_day st
       = (if microsecond now =? 0 then {[ strftime_ymd d := 1 ]} else ∅)
    /\ repos_contributed st = (if microsecond now =? 0 then 1 else 0).
Proof.
  intros Hf Hd Hsame Hus.
  assert (Hw : in_window now e = (microsecond now =? 0)).
  { unfold in_window. rewrite Hd, (dt_ltb_same_second _ _ Hsame).
    rewrite (event_date_microsecond e d Hd).
    destruct (minus_days_time now 30) as (_ & _ & _ & ->).
    destruct (Z.ltb_spec 0 (microsecond now)), (Z.eqb_spec (microsecond now) 0);
      simpl; lia || reflexivity. }
  destruct (analyze_events_total now [e]) as [st Hst].
  { apply Forall_cons. split; [exact Hf | apply Forall_nil; exact I]. }
  exists st. split; [exact Hst |].
  unfold analyze_events in Hst. apply bind_ok in Hst as (t & Hloop & Hst).
  injection Hst as <-. cbn [for_each] in Hloop.
  apply bind_ok in Hloop as (t1 & Hstep & Hrest). injection Hrest as <-.
  cbn [finish events_by_day repos_contributed]. split.
  - rewrite (analyze_event_day now _ _ _ Hstep). unfold day_key. rewrite Hd, Hw.
    destruct (microsecond now =? 0); reflexivity.
  - destruct (microsecond now =? 0) eqn:Hz.
    + apply analyze_event_inside in Hstep as (k & _ & Hr & _); [| exact Hw].
      rewrite Hr. cbn [empty_tally t_repos]. rewrite union_empty_r_L, size_singleton.
      reflexivity.
    + apply analyze_event_outside in Hstep; [| exact Hw]. subst t1. reflexivity.
Qed.

Lemma boundary_second_counted_witness :
  fields_present sample_boundary_event = true
  /\ event_date sample_boundary_event = Ok (mkdt 2026 10 4 12 0 0 0)
  /\ 0 <= microsecond sample_now
  /\ exists st, analyze_events sample_now [sample_boundary_event] = Ok st
                /\ events_by_day st = ∅ /\ repos_contributed st = 0.
Proof.
  assert (Hf : fields_present sample_boundary_event = true) by reflexivity.
  assert (Hd : event_date sample_boundary_event = Ok (mkdt 2026 10 4 12 0 0 0))
    by reflexivity.
  assert (Hs : to_the_second (mkdt 2026 10 4 12 0 0 0)
               = to_the_second (minus_days sample_now 30)) by reflexivity.
  assert (Hu : 0 <= microsecond sample_now) by (simpl; lia).
  split; [exact Hf |]. split; [exact Hd |]. split; [exact Hu |].
  exact (boundary_second_counted sample_now sample_boundary_event _ Hf Hd Hs Hu).
Defined.

(** ** Event fetcher: what is returned *)

Lemma collect_length (api : events_api) (n : nat) (page : Z) :
  (forall p, page <= p < page + Z.of_nat n ->
             Z.of_nat (List.length (body (api p per_page))) <= per_page) ->
  Z.of_nat (List.length (collect api page n)) <= per_page * Z.of_nat n.
Proof.
  revert page. induction n as [| n IH]; intros page H; cbn [collect].
  - simpl. lia.
  - rewrite length_app.
    pose proof (H page ltac:(lia)) as H0.
    pose proof (IH (page + 1) ltac:(intros p Hp; apply H; lia)) as H1.
    unfold per_page in *. lia.
Qed.

Lemma in_collect (api : events_api) (n : nat) (page : Z) (e : json) :
  In e (collect api page n) ->
  exists p, page <= p < page + Z.of_nat n /\ In e (body (api p per_page)).
Proof.
  revert page. induction n as [| n IH]; intros page H; cbn [collect] in H; [destruct H |].
  apply in_app_or in H as [H | H].
  - exists page. split; [lia | exact H].
  - apply IH in H as (p & Hp & He). exists p. split; [lia | exact He].
Qed.

(** What the fetcher returns is made of the answers to its requests: the
    pages 1 to [k] for some [k <= 10], all answered with status 200. *)
Lemma fetch_result_pages (api : events_api) (clock : Z -> datetime) (events : list json) :
  snd (fetch_user_events api clock) = Ok events ->
  exists k : nat,
    Z.of_nat k <= 10 /\ events = collect api 1 k
    /\ forall p, 1 <= p < 1 + Z.of_nat k -> status_code (api p per_page) = 200.
Proof.
  unfold fetch_user_events. intros Hr.
  destruct (fetch_loop_spec api clock 11 1 [] ltac:(lia) ltac:(lia))
    as (n & Hn & Hbefore & _ & Hend).
  assert (Hgo : forall p, 1 <= p < 1 + Z.of_nat n -> status_code (api p per_page) = 200).
  { intros p Hp. replace p with (1 + Z.of_nat (Z.to_nat (p - 1))) by lia.
    apply Hbefore. lia. }
  rewrite Hr in Hend. unfold ends_at in Hend. cbn [app] in Hend.
  destruct Hend as [[_ He] | [[_ He] | [[[Hst _] He] | [(_ & [Hst _] & He) | (x & _ & He)]]]];
    try discriminate; injection He as ->.
  - exists n. split; [lia |]. split; [reflexivity | exact Hgo].
  - exists n. split; [lia |]. split; [reflexivity | exact Hgo].
  - exists (S n). split; [lia |]. split; [reflexivity |].
    intros p Hp. destruct (Z.eq_dec p (1 + Z.of_nat n)) as [-> | Hne];
      [exact Hst | apply Hgo; lia].
  - exists (S n). split; [lia |]. split; [reflexivity |].
    intros p Hp. destruct (Z.eq_dec p (1 + Z.of_nat n)) as [-> | Hne];
      [exact Hst | apply Hgo; lia].
Qed.

(** X5. The ceiling of the comment on line 33: with an endpoint that honours
    the page size, at most 300 events are returned, and each of them was on
    one of the pages 1 to 10, in an answer with status 200. *)
Theorem fetch_at_most_300_events (api : events_api) (clock : Z -> datetime)
  (events : list json) :
  honours_page_size api -> snd (fetch_user_events api clock) = Ok events ->
  Z.of_nat (List.length events) <= 300
  /\ forall e, In e events ->
       exists p, 1 <= p <= 10 /\ status_code (api p per_page) = 200
                 /\ In e (body (api p per_page)).
Proof.
  intros Hsize Hr.
  destruct (fetch_result_pages api clock events Hr) as (k & Hk & -> & Hok). split.
  - pose proof (collect_length api k 1 ltac:(intros p Hp; apply Hsize; lia)) as Hlen.
    unfold per_page in Hlen. lia.
  - intros e He. apply in_collect in He as (p & Hp & He).
    exists p. split; [lia |]. split; [apply Hok; lia | exact He].
Qed.

Lemma fetch_at_most_300_events_witness :
  honours_page_size sample_endless_api
  /\ exists events,
       snd (fetch_user_events sample_endless_api sample_clock) = Ok events
       /\ Z.of_nat (List.length events) <= 300.
Proof.
  assert (Hs : honours_page_size sample_endless_api)
    by (intros p _; unfold per_page; simpl; lia).
  split; [exact Hs |].
  eexists. split; [vm_compute; reflexivity |].
  refine (proj1 (fetch_at_most_300_events sample_endless_api sample_clock _ Hs _)).
  vm_compute. reflexivity.
Defined.

(** ** Chart renderer: totality and the guard on the maximum *)

(** The chart of a non-empty map whose counts the bars can show. *)
Lemma chart_of_counts (today : datetime) (events_by_day : gmap string Z) :
  events_by_day <> ∅ -> four_digit_years today = true ->
  (forall k v, events_by_day !! k = Some v -> 0 <= v <= count_limit) ->
  create_activity_chart today events_by_day
  = Ok (chart_text events_by_day (max_list (values events_by_day)) today).
Proof.
  intros Hne Hyears Hcounts.
  destruct (max_of_values events_by_day Hne) as [[kmax Hkmax] Hbound].
  unfold create_activity_chart, chart_text.
  rewrite !bool_decide_eq_false_2 by exact Hne.
  rewrite rendered_days_range.
  rewrite (map_result_map _ _ (day_line events_by_day (max_list (values events_by_day))));
    [reflexivity |].
  intros d Hd. destruct (four_digit_years_rendered today d Hyears Hd) as [Hv _].
  apply chart_line_rendered; [exact Hv | |].
  - intros k v Hk. split; [apply (Hcounts k v Hk) | apply (Hbound k v Hk)].
  - pose proof (Hcounts kmax _ Hkmax). lia.
Qed.

Lemma chart_returns (today : datetime) (events_by_day : gmap string Z) :
  four_digit_years today = true ->
  (forall k v, events_by_day !! k = Some v -> 0 <= v <= count_limit) ->
  returns (create_activity_chart today events_by_day).
Proof.
  intros Hyears Hcounts. destruct (decide (events_by_day = ∅)) as [-> | Hne].
  - eexists. reflexivity.
  - eexists. apply chart_of_counts; assumption.
Qed.

(** X6. When no count of the map is positive, the maximum is not positive
    either and the guard [if max_events > 0 else 0] keeps the division away:
    the chart is rendered, every bar is empty, each line shows its count. *)
Theorem chart_without_positive_count (today : datetime) (events_by_day : gmap string Z) :
  events_by_day <> ∅ -> four_digit_years today = true ->
  (forall k v, events_by_day !! k = Some v -> v <= 0) ->
  create_activity_chart today events_by_day
  = Ok (join nl (["```"; "Activity over the last 30 days:"; ""]
                 ++ List.map (flat_line events_by_day) (rendered_days today)
                 ++ ["```"])).
Proof.
  intros Hne Hyears Hcounts.
  destruct (max_of_values events_by_day Hne) as [[kmax Hkmax] _].
  apply Hcounts in Hkmax.
  unfold create_activity_chart. rewrite !bool_decide_eq_false_2 by exact Hne.
  rewrite rendered_days_range, (map_result_map _ _ (flat_line events_by_day));
    [reflexivity |].
  intros d Hd. destruct (four_digit_years_rendered today d Hyears Hd) as [Hv _].
  unfold chart_line, flat_line. rewrite bar_length_no_max by exact Hkmax. cbn [bind].
  unfold valid_datetime in Hv. apply andb_true_iff in Hv as [Hv _].
  apply andb_true_iff in Hv as [Hv _]. apply andb_true_iff in Hv as [Hv _].
  rewrite strptime_ymd_strftime by exact Hv. reflexivity.
Qed.

Lemma chart_without_positive_count_witness :
  sample_zero_days <> ∅ /\ four_digit_years sample_now = true
  /\ (forall k v, sample_zero_days !! k = Some v -> v <= 0)
  /\ create_activity_chart sample_now sample_zero_days
     = Ok (join nl (["```"; "Activity over the last 30 days:"; ""]
                    ++ List.map (flat_line sample_zero_days) (rendered_days sample_now)
                    ++ ["```"])).
Proof.
  assert (Hne : sample_zero_days <> ∅) by (apply insert_non_empty).
  assert (Hy : four_digit_years sample_now = true) by reflexivity.
  assert (Hc : forall k v, sample_zero_days !! k = Some v -> v <= 0).
  { intros k v Hk. unfold sample_zero_days in Hk.
    apply lookup_singleton_Some in Hk as [_ <-]. lia. }
  split; [exact Hne |]. split; [exact Hy |]. split; [exact Hc |].
  exact (chart_without_positive_count sample_now sample_zero_days Hne Hy Hc).
Defined.

(** ** Timestamps written and read back *)

(** X7. For a date from the year 1000 on, the day key that line 122 writes
    with [strftime('%Y-%m-%d')] is read back by the [strptime] of line 137
    as the same day at midnight; so two such days with the same key are the
    same day. *)
Theorem day_key_round_trip (t : datetime) :
  valid_datetime t = true -> 1000 <= year t ->
  strptime_ymd (strftime_ymd t) = Ok (midnight t)
  /\ forall t', valid_datetime t' = true -> 1000 <= year t' ->
       strftime_ymd t' = strftime_ymd t -> midnight t' = midnight t.
Proof.
  assert (Hread : forall u, valid_datetime u = true ->
                            strptime_ymd (strftime_ymd u) = Ok (midnight u)).
  { intros u Hv. unfold valid_datetime in Hv. apply andb_true_iff in Hv as [Hv _].
    apply andb_true_iff in Hv as [Hv _]. apply andb_true_iff in Hv as [Hv _].
    unfold midnight. apply strptime_ymd_strftime, Hv. }
  intros Hv _. split; [apply Hread, Hv |].
  intros t' Hv' _ Hkey. pose proof (Hread t' Hv') as Hback.
  rewrite Hkey, (Hread t Hv) in Hback. unfold midnight in *. congruence.
Qed.

Lemma day_key_round_trip_witness :
  valid_datetime sample_now = true /\ 1000 <= year sample_now
  /\ strptime_ymd "2026-11-03" = Ok (mkdt 2026 11 3 0 0 0 0).
Proof.
  assert (Hv : valid_datetime sample_now = true) by reflexivity.
  assert (Hy : 1000 <= year sample_now) by (simpl; lia).
  split; [exact Hv |]. split; [exact Hy |].
  exact (proj1 (day_key_round_trip sample_now Hv Hy)).
Defined.

(** X8. [strptime] with the format of the API reads every well-formed timestamp
    as the reading it writes, without microseconds, and rejects a timestamp
    with anything after the ["Z"]. *)
Theorem strptime_iso_reads_stamp (t : datetime) :
  valid_datetime t = true ->
  strptime_iso (iso_stamp t) = Ok (whole_second t)
  /\ forall c rest, strptime_iso (iso_stamp t +:+ String c rest) = Raise ValueError.
Proof.
  intros Hv. unfold valid_datetime in Hv. apply andb_true_iff in Hv as [Hv _].
  apply andb_true_iff in Hv as [Hv _]. apply andb_true_iff in Hv as [Hd Ht].
  pose proof Hd as Hd'. unfold valid_date in Hd'.
  repeat (apply andb_true_iff in Hd' as [Hd' ?]).
  pose proof Ht as Ht'. unfold valid_time in Ht'.
  repeat (apply andb_true_iff in Ht' as [Ht' ?]).
  repeat match goal with H : (_ <=? _) = true |- _ => apply Z.leb_le in H end.
  pose proof (days_in_month_le_31 (year t) (month t)).
  assert (Hread : forall rest,
             (y <~ p_Y ;; _ <~ p_lit "-" ;; m <~ p_m ;; _ <~ p_lit "-" ;; d <~ p_d ;;
              _ <~ p_lit "T" ;; h <~ p_H ;; _ <~ p_lit ":" ;; mi <~ p_M ;; _ <~ p_lit ":" ;;
              s <~ p_S ;; _ <~ p_lit "Z" ;; p_end (make_datetime y m d h mi s))
               (iso_stamp t +:+ rest)
             = p_end (make_datetime (year t) (month t) (day t)
                        (hour t) (minute t) (second t)) rest).
  { intros rest. unfold iso_stamp, strftime_ymd, pbind. rewrite !app_assoc_str.
    rewrite p_Y_pad4 by lia. rewrite p_lit_app. unfold p_m. rewrite p_range_pad2 by lia.
    rewrite p_lit_app, p_d_pad2 by lia. rewrite p_lit_app.
    unfold p_H, p_M, p_S.
    rewrite p_range_pad2 by lia. rewrite p_lit_app, p_range_pad2 by lia.
    rewrite p_lit_app, p_range_pad2 by lia. rewrite p_lit_app. reflexivity. }
  unfold strptime_iso, run_parser. split.
  - rewrite <- (app_nil_r_str (iso_stamp t)), Hread. cbn [p_end].
    unfold make_datetime. rewrite Hd, Ht. reflexivity.
  - intros c rest. rewrite Hread. reflexivity.
Qed.

Lemma strptime_iso_reads_stamp_witness :
  valid_datetime sample_now = true
  /\ strptime_iso "2026-11-03T12:00:00Z" = Ok (mkdt 2026 11 3 12 0 0 0)
  /\ strptime_iso "2026-11-03T12:00:00Z+01:00" = Raise ValueError.
Proof.
  assert (Hv : valid_datetime sample_now = true) by reflexivity.
  split; [exact Hv |]. split.
  - exact (proj1 (strptime_iso_reads_stamp sample_now Hv)).
  - exact (proj2 (strptime_iso_reads_stamp sample_now Hv) "+"%char "01:00").
Defined.

(** ** The patcher as a whole *)

Lemma sub_all_no_pair (start stop : string) (tpl : list titem) (s : string) :
  start <> "" -> ~ occurs start s \/ ~ occurs stop s -> sub_all start stop tpl s = s.
Proof.
  intros Hne Habsent. rewrite sub_all_unfold by exact Hne.
  destruct (split_at start s) as [[before rest] |] eqn:Hs; [| reflexivity].
  destruct (split_at stop rest) as [[inner after] |] eqn:He; [| reflexivity].
  exfalso. apply split_at_sound in Hs, He. subst rest.
  destruct Habsent as [Hno | Hno]; apply Hno.
  - exists before, (inner +:+ stop +:+ after). exact Hs.
  - exists (before +:+ start +:+ inner), after. rewrite Hs. now rewrite !app_assoc_str.
Qed.

(** With contents that hold no backslash the three substitutions return. *)
Lemma update_readme_sub_all (now : datetime) (a s readme : string) :
  has_char backslash a = false -> has_char backslash s = false ->
  update_readme now a s readme
  = Ok (sub_all (start_marker Date) (end_marker Date)
          (literal_items (section_text Date (strftime_stamp now)))
          (sub_all (start_marker Stats) (end_marker Stats)
             (literal_items (section_text Stats s))
             (sub_all (start_marker Activity) (end_marker Activity)
                (literal_items (section_text Activity a)) readme))).
Proof.
  intros Ha Hs. unfold update_readme.
  rewrite (patch_unfold Activity a readme Ha). cbn [bind].
  rewrite (patch_unfold Stats s _ Hs). cbn [bind].
  rewrite (patch_unfold Date _ _ (proj1 (plain_inv _ (plain_stamp now)))). reflexivity.
Qed.

(** X9. A document in which no section has both of its markers is written back
    as it was read, whatever the contents (without backslash) are. *)
Theorem update_readme_without_markers (now : datetime) (a s readme : string) :
  has_char backslash a = false -> has_char backslash s = false ->
  (forall k, ~ occurs (start_marker k) readme \/ ~ occurs (end_marker k) readme) ->
  update_readme now a s readme = Ok readme.
Proof.
  intros Ha Hs Hnone. rewrite update_readme_sub_all by assumption.
  rewrite (sub_all_no_pair _ _ _ readme (start_marker_not_empty Activity) (Hnone Activity)).
  rewrite (sub_all_no_pair _ _ _ readme (start_marker_not_empty Stats) (Hnone Stats)).
  rewrite (sub_all_no_pair _ _ _ readme (start_marker_not_empty Date) (Hnone Date)).
  reflexivity.
Qed.

Lemma update_readme_without_markers_witness :
  has_char backslash "a" = false /\ has_char backslash "s" = false
  /\ (forall k, ~ occurs (start_marker k) "# Me" \/ ~ occurs (end_marker k) "# Me")
  /\ update_readme sample_now "a" "s" "# Me" = Ok "# Me".
Proof.
  assert (Ha : has_char backslash "a" = false) by reflexivity.
  assert (Hs : has_char backslash "s" = false) by reflexivity.
  assert (Hn : forall k, ~ occurs (start_marker k) "# Me" \/ ~ occurs (end_marker k) "# Me").
  { intros k. left. apply split_at_none. destruct k; reflexivity. }
  split; [exact Ha |]. split; [exact Hs |]. split; [exact Hn |].
  exact (update_readme_without_markers sample_now "a" "s" "# Me" Ha Hs Hn).
Defined.

(** *** Escapes in a content *)

Lemma parse_template_raises_after (p rest : string) (e : exn) :
  has_char backslash p = false ->
  parse_template_from MText rest = Raise e ->
  parse_template_from MText (p +:+ rest) = Raise e.
Proof.
  intros Hp Hrest. induction p as [| c p IH]; [exact Hrest |].
  rewrite has_char_cons in Hp. apply orb_false_iff in Hp as [Hc Hp].
  rewrite app_cons. cbn [parse_template_from]. rewrite Ascii.eqb_sym, Hc.
  rewrite (IH Hp). reflexivity.
Qed.

Lemma unknown_escape_raises (c : ascii) (post : string) :
  unknown_escape c = true ->
  parse_template_from MText (String backslash (String c post)) = Raise ReError.
Proof.
  unfold unknown_escape. intros H.
  apply andb_true_iff in H as [H Hs]. apply andb_true_iff in H as [Hl Hg].
  apply negb_true_iff in Hg.
  assert (H0 : Ascii.eqb c "0" = false /\ is_digit c = false).
  { clear - Hl. destruct c as [[] [] [] [] [] [] [] []]; try discriminate Hl; split; reflexivity. }
  destruct H0 as [H0 Hd].
  cbn [parse_template_from]. rewrite Ascii.eqb_refl, Hg, H0, Hd.
  destruct (simple_escape c); [discriminate |]. now rewrite Hl.
Qed.

(** X10. [re.sub] reads the section text as a template before it looks at the
    document.  A content whose first backslash is followed by a letter that
    is no escape (and not [g]) makes every substitution raise [re.error],
    whether or not the document holds a marker; nothing is written. *)
Theorem unknown_escape_in_content_raises (pre post : string) (c : ascii) :
  has_char backslash pre = false -> unknown_escape c = true ->
  (forall k readme,
     patch k (pre +:+ String backslash (String c post)) readme = Raise ReError)
  /\ (forall now s readme,
        update_readme now (pre +:+ String backslash (String c post)) s readme
        = Raise ReError).
Proof.
  intros Hpre Hc.
  assert (Hpatch : forall k readme,
             patch k (pre +:+ String backslash (String c post)) readme = Raise ReError).
  { intros k readme. unfold patch, re_sub, parse_template.
    assert (Hsplit : exists p q,
               section_text k (pre +:+ String backslash (String c post))
               = p +:+ String backslash (String c q) /\ has_char backslash p = false).
    { destruct k; unfold section_text.
      - exists (start_marker Activity +:+ nl +:+ pre), (post +:+ nl +:+ end_marker Activity).
        split; [now rewrite !app_assoc_str, !app_cons | rewrite !has_char_app, Hpre; reflexivity].
      - exists (start_marker Stats +:+ nl +:+ pre), (post +:+ nl +:+ end_marker Stats).
        split; [now rewrite !app_assoc_str, !app_cons | rewrite !has_char_app, Hpre; reflexivity].
      - exists (start_marker Date +:+ pre), (post +:+ end_marker Date).
        split; [now rewrite !app_assoc_str, !app_cons | rewrite !has_char_app, Hpre; reflexivity]. }
    destruct Hsplit as (p & q & -> & Hp).
    rewrite (parse_template_raises_after p _ ReError Hp (unknown_escape_raises c q Hc)).
    reflexivity. }
  split; [exact Hpatch |].
  intros now s readme. unfold update_readme. rewrite Hpatch. reflexivity.
Qed.

Lemma unknown_escape_in_content_raises_witness :
  has_char backslash "see C:" = false /\ unknown_escape "d" = true
  /\ update_readme sample_now "see C:\dir" "s" "# Me" = Raise ReError.
Proof.
  assert (Hp : has_char backslash "see C:" = false) by reflexivity.
  assert (Hc : unknown_escape "d" = true) by reflexivity.
  split; [exact Hp |]. split; [exact Hc |].
  exact (proj2 (unknown_escape_in_content_raises "see C:" "ir" "d" Hp Hc)
           sample_now "s" "# Me").
Defined.

(** *** A second run *)

(** X11. What one run wrote between the markers does not show in the next run:
    on a document of three regions, a run after another gives what it would
    have given on the document as it was before; with the same contents at
    the same reading of the clock a second run changes nothing. *)
Theorem update_readme_overwrites (now : datetime) (a s : string) (k1 k2 k3 : section)
  (p0 x1 p1 x2 p2 x3 p3 : string) :
  plain a = true -> plain s = true ->
  k1 <> k2 -> k1 <> k3 -> k2 <> k3 ->
  (forall k,
     occurrences (start_marker k) (three_regions k1 k2 k3 p0 x1 p1 x2 p2 x3 p3) = 1%nat
     /\ occurrences (end_marker k) (three_regions k1 k2 k3 p0 x1 p1 x2 p2 x3 p3) = 1%nat) ->
  exists written,
    update_readme now a s (three_regions k1 k2 k3 p0 x1 p1 x2 p2 x3 p3) = Ok written
    /\ update_readme now a s written = Ok written
    /\ forall now' a' s',
         plain a' = true -> plain s' = true ->
         update_readme now' a' s' written
         = update_readme now' a' s' (three_regions k1 k2 k3 p0 x1 p1 x2 p2 x3 p3).
Proof.
  intros Ha Hs H12 H13 H23 Hone.
  assert (Hone' : forall m, occurrences (marker_text m)
                              (three_regions k1 k2 k3 p0 x1 p1 x2 p2 x3 p3) = 1%nat)
    by (intros [k | k]; apply Hone).
  destruct (once_each_marker_free _ _ _ _ _ _ _ _ _ _ H12 H13 H23 Hone')
    as (F0 & F1 & F2 & F3 & F4 & F5 & F6).
  assert (Hmid : forall k, marker_free (middle k (content_of now a s k))).
  { intros k. apply middle_marker_free.
    apply (plain_inv _ (content_of_plain now a s k Ha Hs)). }
  assert (Hnext : forall now' a' s',
             plain a' = true -> plain s' = true ->
             update_readme now' a' s'
               (weave p0 [ (Start k1, middle k1 (content_of now a s k1)); (End_ k1, p1);
                           (Start k2, middle k2 (content_of now a s k2)); (End_ k2, p2);
                           (Start k3, middle k3 (content_of now a s k3)); (End_ k3, p3) ])
             = update_readme now' a' s' (three_regions k1 k2 k3 p0 x1 p1 x2 p2 x3 p3)).
  { intros now' a' s' Ha' Hs'. rewrite three_regions_weave.
    rewrite !update_readme_weave by (assumption || apply Hmid). reflexivity. }
  exists (weave p0 [ (Start k1, middle k1 (content_of now a s k1)); (End_ k1, p1);
                     (Start k2, middle k2 (content_of now a s k2)); (End_ k2, p2);
                     (Start k3, middle k3 (content_of now a s k3)); (End_ k3, p3) ]).
  split; [rewrite three_regions_weave; apply update_readme_weave; assumption |].
  split; [| exact Hnext].
  rewrite (Hnext now a s Ha Hs), three_regions_weave.
  apply update_readme_weave; assumption.
Qed.

Lemma update_readme_overwrites_witness :
  plain "new activity" = true /\ plain "new stats" = true
  /\ exists written,
       update_readme sample_now "new activity" "new stats" sample_readme = Ok written
       /\ update_readme sample_now "new activity" "new stats" written = Ok written.
Proof.
  assert (Ha : plain "new activity" = true) by reflexivity.
  assert (Hs : plain "new stats" = true) by reflexivity.
  assert (Hl : sample_readme
               = three_regions Stats Activity Date ("# Me" +:+ nl)
                   (nl +:+ "old stats" +:+ nl) (nl +:+ "## Activity" +:+ nl) ""
                   (nl +:+ "Updated ") "never" " by a script.") by reflexivity.
  assert (Hone : forall k, occurrences (start_marker k) sample_readme = 1%nat
                           /\ occurrences (end_marker k) sample_readme = 1%nat)
    by (intros []; split; reflexivity).
  split; [exact Ha |]. split; [exact Hs |].
  rewrite Hl in Hone |- *.
  destruct (update_readme_overwrites sample_now "new activity" "new stats"
              Stats Activity Date _ _ _ _ _ _ _ Ha Hs
              ltac:(discriminate) ltac:(discriminate) ltac:(discriminate) Hone)
    as (written & H1 & H2 & _).
  exists written. split; [exact H1 | exact H2].
Defined.

(** *** What the script renders *)

(** X12. Neither rendered section holds a backslash or a marker: [re.sub] takes
    them literally, and they cannot bring a marker into the document. *)
Theorem rendered_sections_hold_no_marker (today : datetime) (user_stats : gmap string Z)
  (st : stats) (content : string) :
  generate_activity_section today st = Ok content ->
  (has_char backslash content = false /\ marker_free content)
  /\ (has_char backslash (generate_stats_section user_stats st) = false
      /\ marker_free (generate_stats_section user_stats st)).
Proof.
  intros H. apply plain_activity_section in H.
  destruct (plain_inv _ H) as [Hb Hl].
  destruct (plain_inv _ (plain_stats_section user_stats st)) as [Hb' Hl'].
  split; (split; [assumption | now apply plain_is_marker_free]).
Qed.

Lemma rendered_sections_hold_no_marker_witness :
  generate_activity_section sample_now sample_analysis = Ok sample_activity_content
  /\ has_char backslash sample_activity_content = false
  /\ marker_free sample_activity_content.
Proof.
  assert (H : generate_activity_section sample_now sample_analysis
              = Ok sample_activity_content) by (vm_compute; reflexivity).
  split; [exact H |].
  exact (proj1 (rendered_sections_hold_no_marker sample_now ∅ sample_analysis _ H)).
Defined.

Lemma rendered_update_keeps_outside_witness :
  generate_activity_section sample_now sample_analysis = Ok sample_activity_content
  /\ exists y1 y2 y3,
       update_readme sample_now sample_activity_content
         (generate_stats_section ∅ sample_analysis) sample_readme
       = Ok (three_regions Stats Activity Date ("# Me" +:+ nl) y1
               (nl +:+ "## Activity" +:+ nl) y2 (nl +:+ "Updated ") y3 " by a script.").
Proof.
  assert (H : generate_activity_section sample_now sample_analysis
              = Ok sample_activity_content) by (vm_compute; reflexivity).
  assert (Hl : sample_readme
               = three_regions Stats Activity Date ("# Me" +:+ nl)
                   (nl +:+ "old stats" +:+ nl) (nl +:+ "## Activity" +:+ nl) ""
                   (nl +:+ "Updated ") "never" " by a script.") by reflexivity.
  assert (Hone : forall k, occurrences (start_marker k) sample_readme = 1%nat
                           /\ occurrences (end_marker k) sample_readme = 1%nat)
    by (intros []; split; reflexivity).
  split; [exact H |].
  rewrite Hl in Hone |- *.
  exact (rendered_update_keeps_outside sample_now sample_now ∅ sample_analysis
           sample_activity_content Stats Activity Date _ _ _ _ _ _ _ H
           ltac:(discriminate) ltac:(discriminate) ltac:(discriminate) Hone).
Defined.

(** ** The run *)

Lemma last_in {A : Type} (l : list A) (d : A) : l <> [] -> In (List.last l d) l.
Proof.
  induction l as [| x l IH]; intros H; [congruence |].
  destruct l as [| y l]; [now left |].
  right. apply IH. discriminate.
Qed.

(** The fetcher returns when the last event of every page can be dated. *)
Lemma fetch_returns (api : events_api) (clock : Z -> datetime) :
  (forall p, 1 <= p <= 10 -> status_code (api p per_page) = 200 ->
             body (api p per_page) <> [] ->
             has_timestamp (last_event (body (api p per_page))) = true) ->
  returns (snd (fetch_user_events api clock)).
Proof.
  unfold fetch_user_events. intros Hts.
  destruct (fetch_loop_spec api clock 11 1 [] ltac:(lia) ltac:(lia))
    as (n & Hn & _ & _ & Hend).
  unfold ends_at in Hend.
  destruct Hend as [[_ He] | [[_ He] | [[_ He] | [(_ & _ & He) | (x & (Hst & Hbody & Hx) & _)]]]];
    try (eexists; exact He).
  specialize (Hts (1 + Z.of_nat n) ltac:(lia) Hst Hbody).
  rewrite has_timestamp_event_date, Hx in Hts. discriminate.
Qed.

(** The statistics of at most [count_limit] events can be rendered. *)
Lemma analysis_renders (now today : datetime) (events : list json) (st : stats) :
  analyze_events now events = Ok st ->
  Z.of_nat (List.length events) <= count_limit -> four_digit_years today = true ->
  returns (generate_activity_section today st).
Proof.
  intros Hst Hlen Hyears. unfold generate_activity_section.
  destruct (chart_returns today (events_by_day st) Hyears) as [chart Hchart].
  - intros k v Hk. pose proof (analysis_counts_bounded now events st k v Hst Hk). lia.
  - rewrite Hchart. eexists. reflexivity.
Qed.

(** On a network that answers every request with a body that decodes, the
    fetcher with its calls does what the loop does on the answers. *)
Lemma fetch_loop_io_answers (api : events_api) (clock : Z -> datetime) (fuel : nat) :
  forall page events,
    fetch_loop_io fuel (answers api) clock page events
    = computed (snd (fetch_loop fuel api clock page events)).
Proof.
  induction fuel as [| fuel IH]; intros page events; [reflexivity |].
  cbn [fetch_loop_io fetch_loop]. unfold answers at 1. cbn [status_code body].
  destruct (page <=? 10); [| reflexivity].
  destruct (negb (status_code (api page per_page) =? 200)); [reflexivity |].
  destruct (body (api page per_page)) as [| ev evs]; [reflexivity |].
  destruct (event_date (last_event (ev :: evs))) as [d | x]; [| reflexivity].
  destruct (dt_ltb d (minus_days (clock page) 30)); [reflexivity |].
  rewrite IH.
  destruct (fetch_loop fuel api clock (page + 1) (events ++ ev :: evs)). reflexivity.
Qed.

(** X14. A run in which every request is answered with a body that decodes and
    the file can be read and written raises nothing, when the endpoint
    honours the page size and serves complete events and the date has a
    four-digit year: the events are fetched, analysed and rendered, and the
    document is written with the rendered contents. *)
Theorem main_returns (api : events_api) (profile : response (gmap string Z))
  (clk : readings) (text : string) :
  honours_page_size api -> serves_complete_events api ->
  four_digit_years (at_chart clk) = true ->
  exists events st content written,
    snd (fetch_user_events api (at_page clk)) = Ok events
    /\ analyze_events (at_analysis clk) events = Ok st
    /\ generate_activity_section (at_chart clk) st = Ok content
    /\ update_readme (at_update clk) content
         (generate_stats_section (fetch_user_stats profile) st) text = Ok written
    /\ main (answers api) (answered profile) clk (Some text) true = Done written.
Proof.
  intros Hsize Hfields Hyears.
  destruct (fetch_returns api (at_page clk)) as [events Hev].
  { intros p Hp Hst Hbody. apply fields_present_timestamp.
    apply (Hfields p _ Hp Hst). apply last_in, Hbody. }
  destruct (fetch_result_pages api (at_page clk) events Hev) as (k & Hk & Hcol & Hok).
  assert (Hlen : Z.of_nat (List.length events) <= count_limit).
  { subst events.
    pose proof (collect_length api k 1 ltac:(intros p Hp; apply Hsize; lia)) as Hlen.
    unfold per_page in Hlen. unfold count_limit. lia. }
  assert (Hall : Forall (fun e => fields_present e = true) events).
  { apply Forall_forall. intros e He. apply list_elem_of_In in He. subst events.
    apply in_collect in He as (p & Hp & He).
    apply (Hfields p e); [lia | apply Hok; lia | exact He]. }
  destruct (analyze_events_total (at_analysis clk) events Hall) as [st Hst].
  destruct (analysis_renders _ (at_chart clk) _ _ Hst Hlen Hyears) as [content Hcontent].
  pose proof (plain_activity_section _ _ _ Hcontent) as Hplain.
  pose proof (update_readme_sub_all (at_update clk) content
                (generate_stats_section (fetch_user_stats profile) st) text
                (proj1 (plain_inv _ Hplain))
                (proj1 (plain_inv _ (plain_stats_section _ _)))) as Hup.
  exists events, st, content. eexists.
  split; [exact Hev |]. split; [exact Hst |]. split; [exact Hcontent |].
  split; [exact Hup |].
  unfold main, fetch_user_events_io. rewrite fetch_loop_io_answers.
  unfold fetch_user_events in Hev. rewrite Hev. cbn [computed and_then].
  rewrite Hst. cbn [computed and_then].
  assert (Hprofile : fetch_user_stats_io (answered profile) = Done (fetch_user_stats profile)).
  { unfold answered, fetch_user_stats_io, fetch_user_stats. cbn [status_code body].
    destruct (status_code profile =? 200); reflexivity. }
  rewrite Hprofile. cbn [and_then]. rewrite Hcontent. cbn [computed and_then].
  unfold update_readme_io. rewrite Hup. reflexivity.
Qed.

Lemma main_returns_witness :
  honours_page_size sample_api /\ serves_complete_events sample_api
  /\ four_digit_years (at_chart sample_readings) = true
  /\ exists written,
       main (answers sample_api) (answered sample_profile) sample_readings
         (Some sample_readme) true = Done written.
Proof.
  assert (Hs : honours_page_size sample_api).
  { intros p _. unfold sample_api, per_page.
    repeat (destruct (_ =? _); [simpl; lia |]). simpl. lia. }
  assert (Hf : serves_complete_events sample_api).
  { intros p e _ _. unfold sample_api.
    repeat (destruct (_ =? _);
            [cbn [body]; intros He;
             repeat (destruct He as [<- | He]; [reflexivity |]); destruct He |]).
    cbn [body]. intros He.
    repeat (destruct He as [<- | He]; [reflexivity |]). destruct He. }
  assert (Hy : four_digit_years (at_chart sample_readings) = true) by reflexivity.
  split; [exact Hs |]. split; [exact Hf |]. split; [exact Hy |].
  destruct (main_returns sample_api sample_profile sample_readings sample_readme Hs Hf Hy)
    as (events & st & content & written & _ & _ & _ & _ & Hmain).
  exists written. exact Hmain.
Defined.

Lemma fetch_user_stats_io_answered (r : response (gmap string Z)) :
  fetch_user_stats_io (answered r) = Done (fetch_user_stats r).
Proof.
  unfold answered, fetch_user_stats_io, fetch_user_stats. cbn [status_code body].
  destruct (status_code r =? 200); reflexivity.
Qed.

(** X15. When the first request for events is answered without success (its
    body is then not decoded) or with an empty page, the fetcher returns no
    events, whatever the other pages would answer; in a run in which the
    profile request is answered and the file can be read and written,
    nothing is raised, and the document is written with the activity section
    that shows every counter at 0 and the no-activity notice. *)
Theorem main_without_events (net : events_net) (first : response (option (list json)))
  (profile : response (gmap string Z)) (clk : readings) (text : string) :
  net 1 30 = Some first -> status_code first <> 200 \/ body first = Some [] ->
  fetch_user_events_io net (at_page clk) = Done []
  /\ exists written,
       update_readme (at_update clk) idle_activity_content
         (generate_stats_section (fetch_user_stats profile) idle_stats) text = Ok written
       /\ main net (answered profile) clk (Some text) true = Done written.
Proof.
  intros Hfirst Hnone.
  assert (Hfetch : fetch_user_events_io net (at_page clk) = Done []).
  { unfold fetch_user_events_io.
    cbn [fetch_loop_io Z.leb Z.compare Pos.compare Pos.compare_cont].
    change per_page with 30. rewrite Hfirst.
    destruct (Z.eqb_spec (status_code first) 200) as [Hst | Hst];
      cbn [negb]; [| reflexivity].
    destruct Hnone as [Hno | ->]; [contradiction | reflexivity]. }
  split; [exact Hfetch |].
  pose proof (update_readme_sub_all (at_update clk) idle_activity_content
                (generate_stats_section (fetch_user_stats profile) idle_stats) text
                eq_refl (proj1 (plain_inv _ (plain_stats_section _ _)))) as Hup.
  eexists. split; [exact Hup |].
  unfold main. rewrite Hfetch. cbn [and_then].
  unfold analyze_events. cbn [for_each bind].
  assert (Hidle : finish empty_tally = idle_stats).
  { unfold finish, idle_stats. cbn [empty_tally t_commits t_prs_opened t_prs_merged
      t_issues_opened t_issues_commented t_repos t_review_comments t_stars_given
      t_repos_created t_events_by_day]. now rewrite size_empty. }
  rewrite Hidle. cbn [computed and_then].
  rewrite fetch_user_stats_io_answered. cbn [and_then].
  assert (Hrender : forall today,
             generate_activity_section today idle_stats = Ok idle_activity_content).
  { intros today. unfold generate_activity_section.
    cbn [idle_stats events_by_day]. unfold create_activity_chart.
    rewrite bool_decide_eq_true_2 by reflexivity. reflexivity. }
  rewrite Hrender. cbn [computed and_then].
  unfold update_readme_io. rewrite Hup. reflexivity.
Qed.

Lemma main_without_events_witness :
  sample_down_net 1 30 = Some (mk_response 502 None)
  /\ main sample_down_net (answered sample_profile) sample_readings
       (Some sample_readme) true
     = Done (three_regions Stats Activity Date ("# Me" +:+ nl)
               (nl +:+ generate_stats_section (body sample_profile) idle_stats +:+ nl)
               (nl +:+ "## Activity" +:+ nl)
               (nl +:+ idle_activity_content +:+ nl)
               (nl +:+ "Updated ") "2026-11-03 12:00 UTC" " by a script.").
Proof.
  assert (H1 : sample_down_net 1 30 = Some (mk_response 502 None)) by reflexivity.
  split; [exact H1 |].
  destruct (main_without_events sample_down_net (mk_response 502 None) sample_profile
              sample_readings sample_readme H1 ltac:(left; discriminate))
    as (_ & written & Hup & Hmain).
  rewrite Hmain. f_equal.
  assert (Hwritten : update_readme (at_update sample_readings) idle_activity_content
                       (generate_stats_section (fetch_user_stats sample_profile) idle_stats)
                       sample_readme
                     = Ok (three_regions Stats Activity Date ("# Me" +:+ nl)
                             (nl +:+ generate_stats_section (body sample_profile) idle_stats
                                 +:+ nl)
                             (nl +:+ "## Activity" +:+ nl)
                             (nl +:+ idle_activity_content +:+ nl)
                             (nl +:+ "Updated ") "2026-11-03 12:00 UTC" " by a script."))
    by (vm_compute; reflexivity).
  rewrite Hwritten in Hup. now injection Hup.
Defined.

(** ** The per-day map as a whole *)

Lemma sum_list_perm (l l' : list Z) : l ≡ₚ l' -> sum_list l = sum_list l'.
Proof.
  unfold sum_list.
  induction 1 as [| x l l' _ IH | x y l | l l' l'' _ IH1 _ IH2]; cbn [foldr]; lia.
Qed.

Lemma sum_values_insert (d : gmap string Z) (k : string) (v : Z) :
  sum_list (values (<[k := v]> d)) = sum_list (values d) - default 0 (d !! k) + v.
Proof.
  assert (Hfresh : sum_list (values (<[k := v]> (delete k d)))
                   = v + sum_list (values (delete k d))).
  { unfold values.
    rewrite (sum_list_perm _ _ (fmap_Permutation snd _ _
               (map_to_list_insert (delete k d) k v (lookup_delete_eq d k)))).
    reflexivity. }
  rewrite insert_delete_eq in Hfresh. rewrite Hfresh.
  destruct (d !! k) as [x |] eqn:Hk; cbn [default].
  - rewrite <- (insert_delete_id d k x Hk) at 2. unfold values.
    rewrite (sum_list_perm _ _ (fmap_Permutation snd _ _
               (map_to_list_insert (delete k d) k x (lookup_delete_eq d k)))).
    cbn [fmap list_fmap snd sum_list foldr]. unfold sum_list, id. lia.
  - rewrite (delete_id d k Hk). lia.
Qed.

Lemma loop_total (now : datetime) (events : list json) (t t' : tally) :
  for_each (analyze_event (minus_days now 30)) events t = Ok t' ->
  sum_list (values (t_events_by_day t'))
  = sum_list (values (t_events_by_day t)) + count_where (in_window now) events.
Proof.
  revert t. induction events as [| e es IH]; intros t H; simpl in H.
  - injection H as <-. unfold count_where. simpl. lia.
  - apply bind_ok in H as (t1 & Hstep & Hrest).
    rewrite (IH _ Hrest), count_where_cons, (analyze_event_day _ _ _ _ Hstep).
    unfold day_key, in_window.
    destruct (event_date e) as [d | x]; [| lia].
    destruct (dt_ltb d (minus_days now 30)); cbn [negb]; [lia |].
    unfold bump. rewrite sum_values_insert. lia.
Qed.

(** X16. Every event inside the window is counted under exactly one day: the
    counts of [events_by_day] add up to the number of events inside the
    window. *)
Theorem events_by_day_total (now : datetime) (events : list json) (st : stats) :
  analyze_events now events = Ok st ->
  sum_list (values (events_by_day st)) = count_where (in_window now) events.
Proof.
  unfold analyze_events. intros H.
  apply bind_ok in H as (t & Hloop & Hst). injection Hst as <-.
  cbn [finish events_by_day]. rewrite (loop_total now _ _ _ Hloop).
  cbn [empty_tally t_events_by_day]. unfold values. rewrite map_to_list_empty.
  reflexivity.
Qed.

Lemma events_by_day_total_witness :
  analyze_events sample_now sample_events = Ok sample_analysis
  /\ sum_list (values (events_by_day sample_analysis)) = 4
  /\ sum_list (values (events_by_day sample_analysis))
     = count_where (in_window sample_now) sample_events.
Proof.
  assert (H : analyze_events sample_now sample_events = Ok sample_analysis)
    by (vm_compute; reflexivity).
  split; [exact H |]. split; [vm_compute; reflexivity |].
  exact (events_by_day_total sample_now sample_events sample_analysis H).
Defined.

(** ** Integers in the rendered text *)

Lemma digit_char_value (d : Z) :
  0 <= d <= 9 -> digit_val (digit_char d) = d /\ is_digit (digit_char d) = true.
Proof. intros H. decimal_cases d; split; reflexivity. Qed.

Lemma digits_of_acc (fuel : nat) (n : Z) (acc : string) :
  digits_of fuel n acc = digits_of fuel n "" +:+ acc.
Proof.
  revert n acc. induction fuel as [| fuel IH]; intros n acc; cbn [digits_of].
  - now rewrite app_cons, app_nil_l.
  - destruct (n <? 10); [now rewrite app_cons, app_nil_l |].
    rewrite (IH _ (String _ acc)), (IH _ (String _ "")).
    now rewrite app_assoc_str, app_cons, app_nil_l.
Qed.

Lemma decimal_value_app (s : string) (c : ascii) (a : Z) :
  decimal_value a (s +:+ String c "") = 10 * decimal_value a s + digit_val c.
Proof.
  revert a. induction s as [| x s IH]; intros a.
  - reflexivity.
  - rewrite app_cons. cbn [decimal_value]. apply IH.
Qed.

Lemma all_digits_app (a b : string) : all_digits (a +:+ b) = all_digits a && all_digits b.
Proof.
  unfold all_digits. induction a as [| x a IH]; [reflexivity |].
  rewrite app_cons. cbn [list_ascii_of_string forallb]. rewrite IH.
  now rewrite andb_assoc.
Qed.

(** With enough fuel [digits_of] writes the decimal numeral of [n]. *)
Lemma digits_of_numeral (fuel : nat) (n : Z) :
  0 <= n < 10 ^ (Z.of_nat fuel + 1) ->
  decimal_value 0 (digits_of fuel n "") = n
  /\ all_digits (digits_of fuel n "") = true
  /\ (0 < n -> starts_with "0" (digits_of fuel n "") = false).
Proof.
  revert n.
  assert (Hone : forall n, 0 <= n < 10 ->
            decimal_value 0 (String (digit_char (n mod 10)) "") = n
            /\ all_digits (String (digit_char (n mod 10)) "") = true
            /\ (0 < n -> starts_with "0" (String (digit_char (n mod 10)) "") = false)).
  { intros n Hn. rewrite Z.mod_small by lia.
    decimal_cases n; (split; [reflexivity | split; [reflexivity |]]);
      intros Hpos; (lia || reflexivity). }
  induction fuel as [| fuel IH]; intros n Hn; cbn [digits_of].
  - apply Hone. change (10 ^ (Z.of_nat 0 + 1)) with 10 in Hn. exact Hn.
  - destruct (Z.ltb_spec n 10) as [Hlt | Hge]; [apply Hone; lia |].
    rewrite digits_of_acc.
    assert (Hq : 0 <= n / 10 < 10 ^ (Z.of_nat fuel + 1)).
    { split; [apply Z.div_pos; lia |].
      apply Z.div_lt_upper_bound; [lia |].
      replace (Z.of_nat (S fuel) + 1) with (Z.succ (Z.of_nat fuel + 1)) in Hn by lia.
      rewrite Z.pow_succ_r in Hn by lia. lia. }
    destruct (IH (n / 10) Hq) as (Hval & Hdig & Hlead).
    pose proof (digit_char_value (n mod 10) (digit_range n)) as [Hd Hi].
    split; [| split].
    + rewrite decimal_value_app, Hval, Hd.
      pose proof (Z.div_mod n 10 ltac:(lia)). lia.
    + rewrite all_digits_app, Hdig. unfold all_digits.
      cbn [list_ascii_of_string forallb]. now rewrite Hi.
    + intros _. specialize (Hlead ltac:(apply Z.div_str_pos; lia)).
      destruct (digits_of fuel (n / 10) "") as [| c rest].
      * cbn [decimal_value] in Hval. pose proof (Z.div_str_pos n 10 ltac:(lia)). lia.
      * rewrite app_cons. exact Hlead.
Qed.

Lemma log2_fuel (n : Z) : 0 <= n -> n < 10 ^ (Z.of_nat (Z.to_nat (Z.log2 n)) + 1).
Proof.
  intros Hn. rewrite Z2Nat.id by apply Z.log2_nonneg.
  destruct (Z.eq_dec n 0) as [-> | Hne]; [reflexivity |].
  pose proof (Z.log2_spec n ltac:(lia)) as [_ Hup].
  pose proof (Z.log2_nonneg n).
  replace (Z.log2 n + 1) with (Z.succ (Z.log2 n)) by lia.
  eapply Z.lt_le_trans; [exact Hup |].
  apply Z.pow_le_mono_l. lia.
Qed.

(** X17. The f-strings write an integer as its decimal numeral: for [0 <= n],
    digits only, without a leading zero, denoting [n]; for a negative
    integer, the numeral of its absolute value after a minus sign. *)
Theorem str_int_decimal (n : Z) :
  0 <= n ->
  decimal_value 0 (str_int n) = n
  /\ all_digits (str_int n) = true
  /\ (0 < n -> starts_with "0" (str_int n) = false)
  /\ str_int (- (n + 1)) = String "-" (str_int (n + 1)).
Proof.
  intros Hn.
  assert (Hnum : forall m, 0 <= m -> str_int m = digits_of (Z.to_nat (Z.log2 m)) m "").
  { intros m Hm. unfold str_int. destruct (Z.ltb_spec m 0); [lia | reflexivity]. }
  destruct (digits_of_numeral _ n (conj Hn (log2_fuel n Hn))) as (Hval & Hdig & Hlead).
  rewrite (Hnum n Hn). split; [exact Hval |]. split; [exact Hdig |]. split; [exact Hlead |].
  rewrite (Hnum (n + 1)) by lia. unfold str_int.
  destruct (Z.ltb_spec (- (n + 1)) 0); [| lia].
  now rewrite Z.opp_involutive.
Qed.

Lemma str_int_decimal_witness :
  0 <= 300 /\ str_int 300 = "300" /\ decimal_value 0 (str_int 300) = 300
  /\ str_int (- 301) = String "-" (str_int 301).
Proof.
  assert (H : 0 <= 300) by lia.
  split; [exact H |]. split; [reflexivity |].
  split; [exact (proj1 (str_int_decimal 300 H)) |].
  exact (proj2 (proj2 (proj2 (str_int_decimal 300 H)))).
Defined.

(** ** A region that is not closed *)

(** X18. When no end marker follows the first start marker of a section, the
    substitution for the section changes nothing, also when an end marker
    stands before that start marker and when further start markers follow. *)
Theorem patch_unclosed_region (k : section) (content before rest : string) :
  has_char backslash content = false ->
  first_at (start_marker k) before -> ~ occurs (end_marker k) rest ->
  patch k content (before +:+ start_marker k +:+ rest)
  = Ok (before +:+ start_marker k +:+ rest).
Proof.
  intros Hplain Hfirst Hopen. rewrite patch_unfold by exact Hplain. f_equal.
  rewrite sub_all_unfold by apply start_marker_not_empty.
  rewrite (split_at_first _ _ _ Hfirst), (split_at_absent _ _ Hopen). reflexivity.
Qed.

Lemma patch_unclosed_region_witness :
  has_char backslash "now" = false
  /\ first_at (start_marker Date) "<!-- DATE_END --> Updated "
  /\ ~ occurs (end_marker Date) "never"
  /\ patch Date "now" sample_unclosed_readme = Ok sample_unclosed_readme.
Proof.
  assert (Hp : has_char backslash "now" = false) by reflexivity.
  assert (Hs : first_at (start_marker Date) "<!-- DATE_END --> Updated ")
    by (apply first_at_computed; [reflexivity | discriminate]).
  assert (He : ~ occurs (end_marker Date) "never") by (apply split_at_none; reflexivity).
  split; [exact Hp |]. split; [exact Hs |]. split; [exact He |].
  exact (patch_unclosed_region Date "now" "<!-- DATE_END --> Updated " "never" Hp Hs He).
Defined.


(** ** Going back whole days *)

Lemma dt_ltb_date (a b : datetime) :
  ymd_ltb (year a, month a, day a) (year b, month b, day b) = true -> dt_ltb a b = true.
Proof.
  unfold ymd_ltb, dt_ltb, fields. cbn [lex_ltb]. intros H.
  destruct (year a <? year b), (year a =? year b), (month a <? month b),
    (month a =? month b), (day a <? day b), (day a =? day b);
    simpl in *; try discriminate; reflexivity.
Qed.

(** X20. [t - timedelta(days=i)], as the three functions use it for the
    cut-off and for the days of the chart: for a valid [t] and up to a year
    back it is a valid reading of the calendar, exactly [i] days earlier by
    day number (across the ends of months and years, leap years included),
    at the same time of day; it is before [t] unless [i] is 0, when it is
    [t]. *)
Theorem days_ago_is_calendar_date (t : datetime) (i : Z) :
  valid_datetime t = true -> 2 <= year t -> 0 <= i <= 365 ->
  valid_datetime (minus_days t i) = true
  /\ toordinal (minus_days t i) = toordinal t - i
  /\ [hour (minus_days t i); minute (minus_days t i); second (minus_days t i);
      microsecond (minus_days t i)]
     = [hour t; minute t; second t; microsecond t]
  /\ (0 < i -> dt_ltb (minus_days t i) t = true)
  /\ minus_days t 0 = t.
Proof.
  intros Hv Hy Hi.
  destruct (minus_days_valid t i Hv Hy Hi) as [Hvalid _].
  destruct (minus_days_time t i) as (Hh & Hm & Hs & Hu).
  assert (Hback : ord2ymd (ymd2ord (year t) (month t) (day t)) = (year t, month t, day t)).
  { unfold valid_datetime, valid_date in Hv.
    repeat (apply andb_true_iff in Hv as [Hv ?]).
    repeat match goal with H : (_ <=? _) = true |- _ => apply Z.leb_le in H end.
    apply ord2ymd_ymd2ord; lia. }
  split; [exact Hvalid |]. split; [apply minus_days_ordinal |].
  split; [now rewrite Hh, Hm, Hs, Hu |]. split.
  - intros Hpos. apply dt_ltb_date.
    pose proof (ord2ymd_increasing (ymd2ord (year t) (month t) (day t) - i) i Hpos) as Hlt.
    replace (ymd2ord (year t) (month t) (day t) - i + i)
      with (ymd2ord (year t) (month t) (day t)) in Hlt by lia.
    rewrite Hback in Hlt. unfold minus_days.
    destruct (ord2ymd (ymd2ord (year t) (month t) (day t) - i)) as [[y m] d].
    exact Hlt.
  - unfold minus_days. rewrite Z.sub_0_r, Hback. destruct t. reflexivity.
Qed.

Lemma days_ago_is_calendar_date_witness :
  valid_datetime (mkdt 2024 3 15 8 30 0 0) = true
  /\ minus_days (mkdt 2024 3 15 8 30 0 0) 30 = mkdt 2024 2 14 8 30 0 0
  /\ toordinal (mkdt 2024 2 14 8 30 0 0) = toordinal (mkdt 2024 3 15 8 30 0 0) - 30.
Proof.
  assert (Hv : valid_datetime (mkdt 2024 3 15 8 30 0 0) = true) by reflexivity.
  split; [exact Hv |]. split; [reflexivity |].
  exact (proj1 (proj2 (days_ago_is_calendar_date (mkdt 2024 3 15 8 30 0 0) 30 Hv
                         ltac:(simpl; lia) ltac:(lia)))).
Defined.
